(** * App-netlify: the Apps Script request router (Code.js)

    A shallow embedding of [src/Code.js]: the POST router [doPost], the
    two sheet query handlers, the order-status placeholder, the push
    notification handler and the row normaliser [getSheetData], followed
    by the properties the specification states about them.

    The script runs on the Apps Script V8 runtime.  Everything the script
    calls but does not define (JSON, [String.prototype.trim], [Date],
    [Array.prototype.sort], number formatting) is an operation of the
    [Runtime] class; the spreadsheet store, the script properties, the
    network and the log are fields of [World]. *)

From Stdlib Require Import ZArith Ascii Permutation Sorted DecimalString.
From stdpp Require Import gmap strings list.

Set Warnings "-register-all,-clear-no-such-hyp".
Local Open Scope Z_scope.
Local Open Scope nat_scope.

(** ** JavaScript values *)

(** A JavaScript value as the script meets it: request payloads and
    provider replies (the results of [JSON.parse]), the fields of row
    objects, and the objects the script builds for its replies.  Objects
    are finite maps from property name to value.  [number] is the
    runtime's Number type. *)
Inductive value (number : Type) : Type :=
| VUndefined
| VNull
| VBool (b : bool)
| VNum (n : number)
| VStr (s : string)
| VArr (elements : list (value number))
| VObj (properties : gmap string (value number)).

Arguments VUndefined {number}.
Arguments VNull {number}.
Arguments VBool {number} b.
Arguments VNum {number} n.
Arguments VStr {number} s.
Arguments VArr {number} elements.
Arguments VObj {number} properties.

(** A thrown [Error]: its [name] and [message]. *)
Record Error : Type := mkError { error_name : string; error_message : string }.

(** [error.toString()]: the name and the message joined by a colon, or
    the one of the two that is not empty. *)
Definition Error_toString (e : Error) : string :=
  if String.eqb (error_name e) EmptyString then error_message e
  else if String.eqb (error_message e) EmptyString then error_name e
  else error_name e +:+ ": " +:+ error_message e.

(** The outcome of an evaluation that may throw. *)
Inductive Result (A : Type) : Type :=
| Ok (a : A)
| Throw (e : Error).

Arguments Ok {A} a.
Arguments Throw {A} e.

Definition result_bind {A B : Type} (r : Result A) (k : A -> Result B) : Result B :=
  match r with
  | Ok a => k a
  | Throw e => Throw e
  end.

Notation "'let?' x ':=' r 'in' k" := (result_bind r (fun x => k))
  (at level 10, x name, r at level 100, k at level 200).

Fixpoint result_map {A B : Type} (f : A -> Result B) (l : list A) : Result (list B) :=
  match l with
  | [] => Ok []
  | a :: rest =>
      let? b := f a in
      let? bs := result_map f rest in
      Ok (b :: bs)
  end.

(** How a Number compares with zero; [NumNaN] is the not-a-number value. *)
Inductive NumClass : Type := NumNaN | NumZero | NumPositive | NumNegative.

(** The built-ins of the V8 runtime that the script relies on.  A time
    value is a whole number of milliseconds; [None] stands for the time
    value of an invalid Date (NaN). *)
Class Runtime (number : Type) : Type := {
  (** [String(n)] for a Number *)
  Number_toString : number -> string;
  (** sign of a Number, or NaN *)
  Number_class : number -> NumClass;
  (** the Number a string converts to in [s > 0] *)
  StringToNumber : string -> number;
  (** the time value of [new Date(n)] for a Number *)
  TimeClip : number -> option Z;
  (** [s.trim()] *)
  String_trim : string -> string;
  (** the time value of [new Date(s)] for a string *)
  Date_parse : string -> option Z;
  (** [d.toISOString()] of a valid Date *)
  Date_toISOString : Z -> string;
  (** [String(d)] of a valid Date *)
  Date_toString : Z -> string;
  (** [JSON.parse(text)] *)
  JSON_parse : string -> Result (value number);
  (** [JSON.stringify(v)] *)
  JSON_stringify : value number -> string;
  (** [array.sort(comparefn)]; the comparator yields a Number of which
      only the sign is used, [None] being NaN *)
  Array_sort : forall A : Type, (A -> A -> option Z) -> list A -> list A
}.

Arguments Array_sort {number _ A} comparefn array.

(** *** The contract of [Array.prototype.sort] (ECMAScript 23.1.3.30) *)

(** [SortCompare]: a NaN result counts as [+0]. *)
Definition SortCompare {A : Type} (comparefn : A -> A -> option Z) (x y : A) : Z :=
  match comparefn x y with
  | Some v => v
  | None => 0%Z
  end.

(** A consistent comparator for the elements of [S]. *)
Definition consistent_comparator {A : Type} (cmp : A -> A -> Z) (S : list A) : Prop :=
  (forall a, In a S -> cmp a a = 0%Z) /\
  (forall a b, In a S -> In b S -> cmp a b = 0%Z -> cmp b a = 0%Z) /\
  (forall a b c, In a S -> In b S -> In c S ->
     cmp a b = 0%Z -> cmp b c = 0%Z -> cmp a c = 0%Z) /\
  (forall a b c, In a S -> In b S -> In c S ->
     (cmp a b < 0)%Z -> (cmp b c < 0)%Z -> (cmp a c < 0)%Z) /\
  (forall a b c, In a S -> In b S -> In c S ->
     (cmp a b > 0)%Z -> (cmp b c > 0)%Z -> (cmp a c > 0)%Z).

(** No element is placed after one that compares greater than it. *)
Definition sort_ordered {A : Type} (cmp : A -> A -> Z) (l : list A) : Prop :=
  forall p q x y, p < q -> l !! p = Some x -> l !! q = Some y -> ~ (cmp y x < 0)%Z.

(** What the script may rely on from [sort]: the result is a
    rearrangement of the array, and it is ordered as ECMAScript requires
    whenever the comparator is consistent.  With an inconsistent
    comparator the order is implementation-defined. *)
Definition sort_conforms {number : Type} (RT : Runtime number) : Prop :=
  forall (A : Type) (comparefn : A -> A -> option Z) (l : list A),
    Permutation (Array_sort comparefn l) l /\
    (consistent_comparator (SortCompare comparefn) l ->
     sort_ordered (SortCompare comparefn) (Array_sort comparefn l)).

(** ** Conversions and property access *)

Section Script.

Context {number : Type} {RT : Runtime number}.

Local Abbreviation value := (value number).

(** The string a value converts to, when the conversion returns (see
    [String_of] below for when it throws).  An array joins its elements
    with commas, the elements [undefined] and [null] giving the empty
    string.  The fields of row objects are primitives or absent, and for
    those the conversion always returns. *)
Fixpoint ToString (v : value) : string :=
  match v with
  | VUndefined => "undefined"
  | VNull => "null"
  | VBool true => "true"
  | VBool false => "false"
  | VNum n => Number_toString n
  | VStr s => s
  | VArr elements =>
      let element (x : value) : string :=
        match x with
        | VUndefined | VNull => EmptyString
        | _ => ToString x
        end in
      (fix join (l : list value) : string :=
         match l with
         | [] => EmptyString
         | [x] => element x
         | x :: rest => element x +:+ "," +:+ join rest
         end) elements
  | VObj _ => "[object Object]"
  end.

(** Whether converting [v] to a primitive throws.  The values the script
    converts come from [JSON.parse].  Such an object inherits [toString]
    and [valueOf] from [Object.prototype] unless it has own properties of
    these names, which are then not functions: with an own [toString]
    there is no callable [toString], and [valueOf] (own, not callable, or
    inherited, returning the object itself) gives no primitive, so the
    conversion throws a TypeError, whichever of the two is tried first.
    An array is joined by [Array.prototype.join], which converts every
    element other than [undefined] and [null]. *)
Fixpoint conversion_throws (v : value) : bool :=
  match v with
  | VObj properties =>
      match properties !! "toString" with
      | Some _ => true
      | None => false
      end
  | VArr elements =>
      (fix some (l : list value) : bool :=
         match l with
         | [] => false
         | x :: rest => conversion_throws x || some rest
         end) elements
  | _ => false
  end.

(** [String(v)], also the conversion done by [`${v}`] in a template
    literal and by ['text' + v]. *)
Definition String_of (v : value) : Result string :=
  if conversion_throws v then
    Throw (mkError "TypeError" "Cannot convert object to primitive value")
  else Ok (ToString v).

(** [ToBoolean]: the values [!v] and [a || b] treat as false are
    [undefined], [null], [false], the empty string, zero and NaN. *)
Definition ToBoolean (v : value) : bool :=
  match v with
  | VUndefined | VNull => false
  | VBool b => b
  | VNum n =>
      match Number_class n with
      | NumNaN | NumZero => false
      | NumPositive | NumNegative => true
      end
  | VStr s => negb (String.eqb s EmptyString)
  | VArr _ | VObj _ => true
  end.

(** [a || b] *)
Definition logical_or (a b : value) : value :=
  if ToBoolean a then a else b.

(** [v > 0]: [v] is converted to a Number and compared with zero;
    [undefined] converts to NaN, [null] to zero, [true] to one, a string
    by [StringToNumber], an array or object through its string, whose
    conversion may throw. *)
Definition greater_than_zero (v : value) : Result bool :=
  let positive (n : number) : bool :=
    match Number_class n with
    | NumPositive => true
    | _ => false
    end in
  match v with
  | VUndefined | VNull => Ok false
  | VBool b => Ok b
  | VNum n => Ok (positive n)
  | VStr s => Ok (positive (StringToNumber s))
  | VArr _ | VObj _ =>
      let? text := String_of v in
      Ok (positive (StringToNumber text))
  end.

(** [v === 'literal'] *)
Definition strict_equals_string (v : value) (literal : string) : bool :=
  match v with
  | VStr s => String.eqb s literal
  | _ => false
  end.

(** [v.key] on a payload or a parsed reply.  Reading a property of
    [undefined] or [null] throws a TypeError; an object gives its property
    or [undefined].  The script reads only the keys [action],
    [customerId], [clientId], [title], [message] and [recipients], none of
    which is a property of a primitive, of an array or of
    [Object.prototype], so every other value gives [undefined]. *)
Definition Get (v : value) (key : string) : Result value :=
  match v with
  | VUndefined =>
      Throw (mkError "TypeError"
               ("Cannot read properties of undefined (reading '" +:+ key +:+ "')"))
  | VNull =>
      Throw (mkError "TypeError"
               ("Cannot read properties of null (reading '" +:+ key +:+ "')"))
  | VObj properties => Ok (default VUndefined (properties !! key))
  | _ => Ok VUndefined
  end.

(** A row object, [row[key]] on it for a column name, and
    [rowObject[key] = v] for a primitive [v].  The key [__proto__] names
    the accessor inherited from [Object.prototype], whose setter ignores a
    primitive: that assignment creates no property. *)
Local Abbreviation record := (gmap string value).

Definition field (row : record) (key : string) : value :=
  default VUndefined (row !! key).

Definition assign (rowObject : record) (key : string) (v : value) : record :=
  if String.eqb key "__proto__" then rowObject else <[key := v]> rowObject.

(** ** The spreadsheet store *)

(** What [getValues] returns for a cell: a String (empty for a blank
    cell), a Number, a Boolean or a Date, the latter given by its time
    value. *)
Inductive cell : Type :=
| CString (s : string)
| CNumber (n : number)
| CBoolean (b : bool)
| CDate (t : Z).

(** A sheet: [extent] is [None] for a sheet without content and
    [Some (r, c)] when the last row with content is row [r + 1] and the
    last column with content is column [c + 1]; [cellAt row column] is the
    cell at a 1-based position. *)
Record Sheet : Type := mkSheet {
  extent : option (nat * nat);
  cellAt : nat -> nat -> cell
}.

Definition getLastRow (sheet : Sheet) : nat :=
  match extent sheet with
  | None => 0
  | Some (r, _) => S r
  end.

Definition getLastColumn (sheet : Sheet) : nat :=
  match extent sheet with
  | None => 0
  | Some (_, c) => S c
  end.

Record Range : Type := mkRange {
  range_sheet : Sheet;
  range_row : nat;
  range_column : nat;
  range_numRows : nat;
  range_numColumns : nat
}.

(** [sheet.getRange(row, column, numRows, numColumns)]: positions start
    at 1 and a range has at least one row and one column. *)
Definition getRange (sheet : Sheet) (row column numRows numColumns : nat) : Result Range :=
  if (row <? 1) || (column <? 1) then
    Throw (mkError "Exception" "The starting row or column of the range is too small.")
  else if numRows <? 1 then
    Throw (mkError "Exception" "The number of rows in the range must be at least 1.")
  else if numColumns <? 1 then
    Throw (mkError "Exception" "The number of columns in the range must be at least 1.")
  else Ok (mkRange sheet row column numRows numColumns).

(** [range.getValues()]: the rows of the range, each a list of cells. *)
Definition getValues (range : Range) : list (list cell) :=
  map (fun i =>
         map (fun j => cellAt (range_sheet range) (range_row range + i) (range_column range + j))
             (seq 0 (range_numColumns range)))
      (seq 0 (range_numRows range)).

(** ** Row normaliser: [getSheetData] *)

(** A header cell used as a property key. *)
Definition ToPropertyKey (header : cell) : string :=
  match header with
  | CString s => s
  | CNumber n => Number_toString n
  | CBoolean true => "true"
  | CBoolean false => "false"
  | CDate t => Date_toString t
  end.

(** [row[index] instanceof Date ? row[index].toISOString() : row[index]] *)
Definition normalizeCell (c : option cell) : value :=
  match c with
  | Some (CDate t) => VStr (Date_toISOString t)
  | Some (CString s) => VStr s
  | Some (CNumber n) => VNum n
  | Some (CBoolean b) => VBool b
  | None => VUndefined
  end.

(** [headers.forEach((header, index) => { rowObject[header] = ... })],
    from position [index] on. *)
Fixpoint forEach_header (headers : list cell) (index : nat) (row : list cell)
    (rowObject : record) : record :=
  match headers with
  | [] => rowObject
  | header :: rest =>
      forEach_header rest (S index) row
        (assign rowObject (ToPropertyKey header) (normalizeCell (row !! index)))
  end.

(** The callback of [data.map]: [headers] is [getValues()[0]], which is
    [undefined] when the array is empty. *)
Definition rowObject_of (headers : option (list cell)) (row : list cell) : Result record :=
  match headers with
  | None =>
      Throw (mkError "TypeError" "Cannot read properties of undefined (reading 'forEach')")
  | Some headers => Ok (forEach_header headers 0 row ∅)
  end.

(** [getSheetData(sheet)]; [None] is the [null] that [getSheetByName]
    returns for a sheet that does not exist. *)
Definition getSheetData (sheet : option Sheet) : Result (list record) :=
  match sheet with
  | None => Ok []
  | Some sheet =>
      if getLastRow sheet <? 2 then Ok []
      else
        let? headerRange := getRange sheet 1 1 1 (getLastColumn sheet) in
        let headers := getValues headerRange !! 0 in
        let? dataRange := getRange sheet 2 1 (getLastRow sheet - 1) (getLastColumn sheet) in
        let data := getValues dataRange in
        result_map (rowObject_of headers) data
  end.

(** ** The world outside the script *)

Inductive MimeType : Type := MimeJSON | MimeTEXT.

(** A [ContentService.TextOutput]. *)
Record TextOutput : Type := mkTextOutput {
  content : string;
  mimeType : MimeType
}.

(** An opened spreadsheet: [getSheetByName] gives the sheet or [null]. *)
Record Spreadsheet : Type := mkSpreadsheet {
  sheetByName : string -> option Sheet
}.

(** The [params] argument of [UrlFetchApp.fetch]. *)
Record FetchOptions : Type := mkFetchOptions {
  option_method : string;
  option_contentType : string;
  option_Authorization : string;
  option_payload : string;
  option_muteHttpExceptions : bool
}.

(** An [HTTPResponse]: [getResponseCode()] and [getContentText()]. *)
Record HTTPResponse : Type := mkHTTPResponse {
  responseCode : Z;
  contentText : string
}.

(** A call of a platform service, as the journal records it. *)
Inductive Call : Type :=
| LoggerLog (line : string)
| OpenById (id : string)
| GetSheetByName (name : string)
| GetProperty (key : string)
| UrlFetch (url : string) (params : FetchOptions).

(** The state the script runs against: the spreadsheets by id (opening
    one may throw), the script properties, the reply of the network to a
    request (a transport failure throws; with [muteHttpExceptions] a
    status other than 2xx does not), and the journal of the calls made so
    far, the oldest first. *)
Record World : Type := mkWorld {
  spreadsheets : string -> Result Spreadsheet;
  scriptProperties : gmap string string;
  network : string -> FetchOptions -> Result HTTPResponse;
  journal : list Call
}.

Definition record_call (c : Call) (w : World) : World :=
  mkWorld (spreadsheets w) (scriptProperties w) (network w) (journal w ++ [c]).

(** A computation of the script: it runs against a world, hands on the
    world it leaves, and returns or throws. *)
Definition M (A : Type) : Type := World -> Result A * World.

Definition ret {A : Type} (a : A) : M A := fun w => (Ok a, w).

Definition bind {A B : Type} (m : M A) (k : A -> M B) : M B :=
  fun w =>
    match m w with
    | (Ok a, w') => k a w'
    | (Throw e, w') => (Throw e, w')
    end.

(** An expression that only computes, inside a computation. *)
Definition eval {A : Type} (r : Result A) : M A := fun w => (r, w).

(** [try { body } catch (error) { handler }] *)
Definition try_catch {A : Type} (body : M A) (handler : Error -> M A) : M A :=
  fun w =>
    match body w with
    | (Ok a, w') => (Ok a, w')
    | (Throw e, w') => handler e w'
    end.

Notation "x <- m ;; k" := (bind m (fun x => k))
  (at level 100, m at next level, right associativity).
Notation "m ;; k" := (bind m (fun _ => k))
  (at level 100, right associativity).

Definition Logger_log (line : string) : M unit :=
  fun w => (Ok tt, record_call (LoggerLog line) w).

Definition SpreadsheetApp_openById (id : string) : M Spreadsheet :=
  fun w => (spreadsheets w id, record_call (OpenById id) w).

Definition getSheetByName (ss : Spreadsheet) (name : string) : M (option Sheet) :=
  fun w => (Ok (sheetByName ss name), record_call (GetSheetByName name) w).

(** [PropertiesService.getScriptProperties().getProperty(key)]: the
    stored string, or [null]. *)
Definition getProperty (key : string) : M (option string) :=
  fun w => (Ok (scriptProperties w !! key), record_call (GetProperty key) w).

Definition UrlFetchApp_fetch (url : string) (params : FetchOptions) : M HTTPResponse :=
  fun w => (network w url params, record_call (UrlFetch url params) w).

(** ** The script *)

Definition SCRIPT_VERSION : string := "v1.3".

(** The id of the spreadsheet both query handlers open. *)
Definition SPREADSHEET_ID : string := "1rOjQlttUpNEb6sxAVQ9uZVXoMMTzJF0KLjiwZyUen8U".

(** Sheet names: customers, container rentals, building-material orders
    and container orders. *)
Definition SHEET_CUSTOMERS : string := "לקוחות".
Definition SHEET_CONTAINER_RENTALS : string := "שכירות מכולות".
Definition SHEET_MATERIAL_ORDERS : string := "הזמנות חומרי בנין".
Definition SHEET_CONTAINER_ORDERS : string := "הזמנות מכולות".

(** Column names: customer number, phone, received date and order date. *)
Definition COLUMN_CUSTOMER_NUMBER : string := "מספר לקוח".
Definition COLUMN_PHONE : string := "טלפון".
Definition COLUMN_RECEIVED_DATE : string := "תאריך קליטה".
Definition COLUMN_ORDER_DATE : string := "תאריך הזמנה".

Definition ONE_SIGNAL_URL : string := "https://onesignal.com/api/v1/notifications".

(** The request event [e]: [e.postData.contents] is the raw body. *)
Record PostData : Type := mkPostData { contents : string }.
Record PostEvent : Type := mkPostEvent { postData : option PostData }.

Definition postData_contents (e : PostEvent) : Result string :=
  match postData e with
  | Some d => Ok (contents d)
  | None =>
      Throw (mkError "TypeError" "Cannot read properties of undefined (reading 'contents')")
  end.

(** [String(n)] for a whole Number such as a status code. *)
Definition integer_toString (z : Z) : string := NilZero.string_of_int (Z.to_int z).

Definition createJsonResponse (data : value) : TextOutput :=
  mkTextOutput (JSON_stringify data) MimeJSON.

Definition doGet : TextOutput :=
  mkTextOutput
    ("Google Apps Script for H.Saban App is running. Version: " +:+ SCRIPT_VERSION)
    MimeTEXT.

(** *** Data fetching handlers *)

(** The callback of [customersData.find].  The rows are those of
    [getSheetData], whose fields are primitives, so that [String(row[...])]
    returns. *)
Definition matches_customer (customerId : string) (row : record) : bool :=
  String.eqb (String_trim (ToString (field row COLUMN_CUSTOMER_NUMBER))) customerId
  || String.eqb (String_trim (ToString (field row COLUMN_PHONE))) customerId.

(** The callback of both [filter] calls. *)
Definition belongs_to (actualCustomerId : string) (row : record) : bool :=
  String.eqb (String_trim (ToString (field row COLUMN_CUSTOMER_NUMBER))) actualCustomerId.

Definition handleGetClientData (payload : value) : M TextOutput :=
  ss <- SpreadsheetApp_openById SPREADSHEET_ID ;;
  id <- eval (Get payload "customerId") ;;
  idText <- eval (String_of id) ;;
  let customerId := String_trim idText in
  customersSheet <- getSheetByName ss SHEET_CUSTOMERS ;;
  customersData <- eval (getSheetData customersSheet) ;;
  match List.find (matches_customer customerId) customersData with
  | None =>
      ret (createJsonResponse
             (VObj {[ "status" := VStr "error"; "message" := VStr "Client not found" ]}))
  | Some user =>
      let actualCustomerId := String_trim (ToString (field user COLUMN_CUSTOMER_NUMBER)) in
      containersSheet <- getSheetByName ss SHEET_CONTAINER_RENTALS ;;
      containersData <- eval (getSheetData containersSheet) ;;
      let clientContainers := List.filter (belongs_to actualCustomerId) containersData in
      materialsSheet <- getSheetByName ss SHEET_MATERIAL_ORDERS ;;
      materialsData <- eval (getSheetData materialsSheet) ;;
      let clientMaterialOrders := List.filter (belongs_to actualCustomerId) materialsData in
      ret (createJsonResponse
             (VObj {[ "status" := VStr "success";
                      "user" := VObj user;
                      "containers" := VArr (map VObj clientContainers);
                      "materialOrders" := VArr (map VObj clientMaterialOrders) ]}))
  end.

(** The time value of [new Date(v)], for the field of a row object. *)
Definition newDate (v : value) : option Z :=
  match v with
  | VUndefined => None
  | VNull => Some 0%Z
  | VBool true => Some 1%Z
  | VBool false => Some 0%Z
  | VNum n => TimeClip n
  | VStr s => Date_parse s
  | VArr _ | VObj _ => Date_parse (ToString v)
  end.

(** [d1 - d2] for two Dates: NaN when either is invalid.  The difference
    of two time values has the sign of the exact difference, which is all
    that [sort] uses. *)
Definition date_minus (d1 d2 : option Z) : option Z :=
  match d1, d2 with
  | Some t1, Some t2 => Some (t1 - t2)%Z
  | _, _ => None
  end.

(** [new Date(order['received date'] || order['order date'])] *)
Definition orderDate (order : record) : option Z :=
  newDate (logical_or (field order COLUMN_RECEIVED_DATE) (field order COLUMN_ORDER_DATE)).

(** The comparator handed to [sort]. *)
Definition newest_first (a b : record) : option Z :=
  date_minus (orderDate b) (orderDate a).

(** [{ ...order, orderType: kind }] *)
Definition tag (kind : string) (order : record) : record :=
  <["orderType" := VStr kind]> order.

(** [[...materialsOrders, ...containerOrders].sort(...)] *)
Definition allOrders (materialsData containersData : list record) : list record :=
  let materialsOrders := map (tag "materials") materialsData in
  let containerOrders := map (tag "container") containersData in
  Array_sort newest_first (materialsOrders ++ containerOrders).

Definition handleGetAllOrders : M TextOutput :=
  ss <- SpreadsheetApp_openById SPREADSHEET_ID ;;
  materialsSheet <- getSheetByName ss SHEET_MATERIAL_ORDERS ;;
  containersSheet <- getSheetByName ss SHEET_CONTAINER_ORDERS ;;
  materialsData <- eval (getSheetData materialsSheet) ;;
  containersData <- eval (getSheetData containersSheet) ;;
  ret (createJsonResponse
         (VObj {[ "status" := VStr "success";
                  "orders" := VArr (map VObj (allOrders materialsData containersData)) ]})).

(** *** Data mutation handler *)

Definition handleUpdateOrderStatus (payload : value) : M TextOutput :=
  ret (createJsonResponse
         (VObj {[ "status" := VStr "success";
                  "message" := VStr "Status updated successfully (simulation)." ]})).

(** *** Notification handler *)

(** [!s] for the result of [getProperty]: true for [null] and for the
    empty string. *)
Definition not_set (property : option string) : bool :=
  match property with
  | None => true
  | Some s => String.eqb s EmptyString
  end.

(** The [notification] object, [externalId] being [String(clientId)],
    and the [options] of the request. *)
Definition notification_of (appId externalId : string) (title message : value) : value :=
  VObj {[ "app_id" := VStr appId;
          "contents" := VObj {[ "en" := message; "he" := message ]};
          "headings" := VObj {[ "en" := title; "he" := title ]};
          "include_external_user_ids" := VArr [VStr externalId] ]}.

Definition options_of (apiKey : string) (notification : value) : FetchOptions :=
  mkFetchOptions "post" "application/json" ("Basic " +:+ apiKey)
    (JSON_stringify notification) true.

(** The [try] block of [handleSendNotification]. *)
Definition handleSendNotification_try (clientId notification : value) (options : FetchOptions)
    : M TextOutput :=
  Logger_log ("Sending to OneSignal API. Payload: " +:+ JSON_stringify notification) ;;
  response <- UrlFetchApp_fetch ONE_SIGNAL_URL options ;;
  let code := responseCode response in
  let responseBody := contentText response in
  Logger_log ("OneSignal API Response Code: " +:+ integer_toString code) ;;
  Logger_log ("OneSignal API Response Body: " +:+ responseBody) ;;
  if (code =? 200)%Z then
    parsedBody <- eval (JSON_parse responseBody) ;;
    recipients <- eval (Get parsedBody "recipients") ;;
    reached <- eval (greater_than_zero recipients) ;;
    if reached then
      count <- eval (String_of recipients) ;;
      ret (createJsonResponse
             (VObj {[ "status" := VStr "success";
                      "message" := VStr ("Notification sent successfully to "
                                         +:+ count +:+ " recipient(s).") ]}))
    else
      clientText <- eval (String_of clientId) ;;
      let warningMsg :=
        "Notification sent, but no recipients found for Client ID: "
        +:+ clientText
        +:+ ". Please verify the client has enabled notifications and is correctly identified in OneSignal." in
      Logger_log ("Warning: " +:+ warningMsg) ;;
      ret (createJsonResponse
             (VObj {[ "status" := VStr "warning"; "message" := VStr warningMsg ]}))
  else
    let errorMsg :=
      "Failed to send notification. OneSignal returned status "
      +:+ integer_toString code +:+ ". Details: " +:+ responseBody in
    Logger_log ("Error: " +:+ errorMsg) ;;
    ret (createJsonResponse (VObj {[ "status" := VStr "error"; "message" := VStr errorMsg ]})).

(** The [catch] block of [handleSendNotification]. *)
Definition handleSendNotification_catch (error : Error) : M TextOutput :=
  let errorMsg :=
    "Failed to send notification due to a script error: " +:+ Error_toString error in
  Logger_log ("Fatal Error: " +:+ errorMsg) ;;
  ret (createJsonResponse (VObj {[ "status" := VStr "error"; "message" := VStr errorMsg ]})).

Definition handleSendNotification (payload : value) : M TextOutput :=
  Logger_log ("Attempting to send notification. Received payload: " +:+ JSON_stringify payload) ;;
  ONE_SIGNAL_APP_ID <- getProperty "ONE_SIGNAL_APP_ID" ;;
  REST_API_KEY <- getProperty "ONE_SIGNAL_REST_API_KEY" ;;
  if not_set ONE_SIGNAL_APP_ID || not_set REST_API_KEY then
    let errorMsg := "OneSignal App ID or API Key not set in Script Properties." in
    Logger_log ("ERROR in handleSendNotification: " +:+ errorMsg) ;;
    ret (createJsonResponse (VObj {[ "status" := VStr "error"; "message" := VStr errorMsg ]}))
  else
    let appId := default EmptyString ONE_SIGNAL_APP_ID in
    let apiKey := default EmptyString REST_API_KEY in
    clientId <- eval (Get payload "clientId") ;;
    title <- eval (Get payload "title") ;;
    message <- eval (Get payload "message") ;;
    externalId <- eval (String_of clientId) ;;
    let notification := notification_of appId externalId title message in
    let options := options_of apiKey notification in
    try_catch (handleSendNotification_try clientId notification options)
      handleSendNotification_catch.

(** [testScriptProperties()]: the editor's check that both credentials
    can be read. *)
Definition testScriptProperties : M unit :=
  appId <- getProperty "ONE_SIGNAL_APP_ID" ;;
  apiKey <- getProperty "ONE_SIGNAL_REST_API_KEY" ;;
  Logger_log "--- Verifying Script Properties ---" ;;
  (if negb (not_set appId) then
     Logger_log ("SUCCESS: Found ONE_SIGNAL_APP_ID: " +:+ default EmptyString appId)
   else
     Logger_log "ERROR: ONE_SIGNAL_APP_ID is not found or is null.") ;;
  (if negb (not_set apiKey) then
     Logger_log ("SUCCESS: Found ONE_SIGNAL_REST_API_KEY: " +:+ default EmptyString apiKey)
   else
     Logger_log "ERROR: ONE_SIGNAL_REST_API_KEY is not found or is null.") ;;
  Logger_log "---------------------------------".

(** *** The router *)

(** The [switch] statement of [doPost]. *)
Definition doPost_switch (action payload : value) : M TextOutput :=
  if strict_equals_string action "getClientData" then handleGetClientData payload
  else if strict_equals_string action "getAdminDashboardData"
          || strict_equals_string action "getAllOrders" then handleGetAllOrders
  else if strict_equals_string action "updateOrderStatus" then handleUpdateOrderStatus payload
  else if strict_equals_string action "sendNotificationToClient" then
    handleSendNotification payload
  else
    logged <- eval (String_of action) ;;
    Logger_log ("Error: Unknown action requested: " +:+ logged) ;;
    unknown <- eval (String_of action) ;;
    ret (createJsonResponse
           (VObj {[ "status" := VStr "error";
                    "message" := VStr ("Unknown action: " +:+ unknown) ]})).

(** The [try] block of [doPost]. *)
Definition doPost_try (e : PostEvent) : M TextOutput :=
  body <- eval (postData_contents e) ;;
  payload <- eval (JSON_parse body) ;;
  action <- eval (Get payload "action") ;;
  received <- eval (String_of action) ;;
  Logger_log ("Received action: " +:+ received
              +:+ " with payload: " +:+ JSON_stringify payload) ;;
  doPost_switch action payload.

(** The [catch] block of [doPost]. *)
Definition doPost_catch (error : Error) : M TextOutput :=
  Logger_log ("Critical Error in doPost: " +:+ Error_toString error) ;;
  ret (createJsonResponse
         (VObj {[ "status" := VStr "error";
                  "message" := VStr ("Invalid request or server error: "
                                     +:+ Error_toString error) ]})).

Definition doPost (e : PostEvent) : M TextOutput :=
  Logger_log ("API " +:+ SCRIPT_VERSION +:+ " Running...") ;;
  try_catch (doPost_try e) doPost_catch.

(** ** Notions used by the statements *)

(** The rows [getSheetData] returns for a sheet. *)
Definition sheet_rows (sheet : option Sheet) : list record :=
  match getSheetData sheet with
  | Ok rows => rows
  | Throw _ => []
  end.

(** The header row and the [i]-th data row of a sheet, as [getValues]
    gives them. *)
Definition header_row (sheet : Sheet) : list cell :=
  map (fun j => cellAt sheet 1 (1 + j)) (seq 0 (getLastColumn sheet)).

Definition data_row (sheet : Sheet) (i : nat) : list cell :=
  map (fun j => cellAt sheet (2 + i) (1 + j)) (seq 0 (getLastColumn sheet)).

(** The header-row strings, as a set. *)
Definition header_keys (sheet : Sheet) : gset string :=
  list_to_set (map ToPropertyKey (header_row sheet)).

(** The world with another journal, and the outbound requests a journal
    holds. *)
Definition with_journal (w : World) (j : list Call) : World :=
  mkWorld (spreadsheets w) (scriptProperties w) (network w) j.

Definition fetches (j : list Call) : list (string * FetchOptions) :=
  omap (fun c => match c with UrlFetch url params => Some (url, params) | _ => None end) j.

(** A computation that leaves the store, the properties and the network
    as they are, appends its calls to the journal, and whose outcome does
    not depend on the journal. *)
Definition tidy {A : Type} (m : M A) : Prop :=
  forall w, exists (r : Result A) (calls : list Call),
    forall j, m (with_journal w j) = (r, with_journal w (j ++ calls)).

(** The trimmed customer-number field or the trimmed phone field of the
    row equals the (trimmed) identifier. *)
Definition identifies (customerId : string) (row : record) : Prop :=
  String_trim (ToString (field row COLUMN_CUSTOMER_NUMBER)) = customerId
  \/ String_trim (ToString (field row COLUMN_PHONE)) = customerId.

(** The action names the router knows. *)
Definition known_actions : list string :=
  [ "getClientData"; "getAdminDashboardData"; "getAllOrders";
    "updateOrderStatus"; "sendNotificationToClient" ].

(** The world once [doPost] has logged its banner and the action it
    received, [received] being the text of the action. *)
Definition after_banner (received : string) (payload : value) (w : World) : World :=
  record_call
    (LoggerLog ("Received action: " +:+ received
                +:+ " with payload: " +:+ JSON_stringify payload))
    (record_call (LoggerLog ("API " +:+ SCRIPT_VERSION +:+ " Running...")) w).

(** [t1 >= t2] on two time values, false when either is NaN. *)
Definition timestamp_ge (t1 t2 : option Z) : bool :=
  match t1, t2 with
  | Some a, Some b => (b <=? a)%Z
  | _, _ => false
  end.

(** A feed in non-increasing order of the resolved timestamp. *)
Definition newest_first_order (orders : list record) : Prop :=
  forall p q a b, p < q -> orders !! p = Some a -> orders !! q = Some b ->
    timestamp_ge (orderDate a) (orderDate b) = true.

(** The calls a computation makes when run from a world: what it adds to
    the journal. *)
Definition calls_made {A : Type} (m : M A) (w : World) : list Call :=
  drop (length (journal w)) (journal (snd (m w))).

(** A computation that only appends to the journal, every call it makes
    satisfying [P]. *)
Definition emits (P : Call -> Prop) {A : Type} (m : M A) : Prop :=
  forall w, exists calls, journal (snd (m w)) = journal w ++ calls /\ Forall P calls.

(** A computation that only appends to the journal and makes at most one
    outbound request. *)
Definition one_shot {A : Type} (m : M A) : Prop :=
  forall w, exists calls,
    journal (snd (m w)) = journal w ++ calls /\ length (fetches calls) <= 1.

Definition no_fetch (c : Call) : Prop :=
  match c with
  | UrlFetch _ _ => False
  | _ => True
  end.

Definition no_sheet_access (c : Call) : Prop :=
  match c with
  | OpenById _ | GetSheetByName _ => False
  | _ => True
  end.

(** The platform calls the script is written to make: log lines, the one
    spreadsheet and its four sheets, the two script properties, and a POST
    to the provider that does not raise on an error status. *)
Definition allowed_call (c : Call) : Prop :=
  match c with
  | LoggerLog _ => True
  | OpenById id => id = SPREADSHEET_ID
  | GetSheetByName name =>
      In name [ SHEET_CUSTOMERS; SHEET_CONTAINER_RENTALS;
                SHEET_MATERIAL_ORDERS; SHEET_CONTAINER_ORDERS ]
  | GetProperty key => In key [ "ONE_SIGNAL_APP_ID"; "ONE_SIGNAL_REST_API_KEY" ]
  | UrlFetch url params =>
      url = ONE_SIGNAL_URL
      /\ option_method params = "post"
      /\ option_contentType params = "application/json"
      /\ option_muteHttpExceptions params = true
  end.

(** A reply in the envelope shape: the JSON text of an object whose
    [status] is one of the three status words. *)
Definition is_envelope (reply : TextOutput) : Prop :=
  exists (envelope : record) (status : string),
    reply = createJsonResponse (VObj envelope)
    /\ envelope !! "status" = Some (VStr status)
    /\ In status [ "success"; "error"; "warning" ].

Definition replies (P : TextOutput -> Prop) (m : M TextOutput) : Prop :=
  forall w reply w', m w = (Ok reply, w') -> P reply.

(** A string, a Number or a Boolean. *)
Definition primitive (v : value) : Prop :=
  match v with
  | VStr _ | VNum _ | VBool _ => True
  | _ => False
  end.

End Script.

Arguments cell number : clear implicits.
Arguments Sheet number : clear implicits.
Arguments Range number : clear implicits.
Arguments Spreadsheet number : clear implicits.
Arguments World number : clear implicits.
Arguments M number A : clear implicits.

(** ** A runtime to run the script on concrete requests *)

(** Numbers are the whole numbers and NaN; JSON texts and date strings
    are those of a fixture; [sort] is a stable insertion sort. *)
Record Fixture : Type := mkFixture {
  json_texts : list (string * value (option Z));
  date_texts : list (string * Z)
}.

Definition is_space (c : ascii) : bool :=
  match c with
  | " "%char | "009"%char | "010"%char | "013"%char => true
  | _ => false
  end.

Fixpoint trim_start (s : string) : string :=
  match s with
  | String c rest => if is_space c then trim_start rest else s
  | EmptyString => EmptyString
  end.

Definition trim (s : string) : string :=
  String.rev (trim_start (String.rev (trim_start s))).

Definition lookup_text {A : Type} (table : list (string * A)) (text : string) : option A :=
  snd <$> List.find (fun entry => String.eqb (fst entry) text) table.

Definition text_of_time (table : list (string * Z)) (t : Z) : string :=
  match List.find (fun entry => Z.eqb (snd entry) t) table with
  | Some entry => fst entry
  | None => integer_toString t
  end.

Fixpoint render (v : value (option Z)) : string :=
  match v with
  | VUndefined => "undefined"
  | VNull => "null"
  | VBool true => "true"
  | VBool false => "false"
  | VNum None => "NaN"
  | VNum (Some z) => integer_toString z
  | VStr s => "'" +:+ s +:+ "'"
  | VArr elements =>
      "[" +:+ (fix items (l : list (value (option Z))) : string :=
                 match l with
                 | [] => EmptyString
                 | x :: rest => render x +:+ "," +:+ items rest
                 end) elements +:+ "]"
  | VObj properties =>
      "{" +:+ map_fold (fun key x text => "'" +:+ key +:+ "':" +:+ render x +:+ "," +:+ text)
                EmptyString properties +:+ "}"
  end.

Fixpoint insert_ordered {A : Type} (cmp : A -> A -> Z) (x : A) (l : list A) : list A :=
  match l with
  | [] => [x]
  | y :: rest => if (cmp x y <=? 0)%Z then x :: l else y :: insert_ordered cmp x rest
  end.

Definition insertion_sort {A : Type} (comparefn : A -> A -> option Z) (l : list A) : list A :=
  fold_right (insert_ordered (SortCompare comparefn)) [] l.

Definition TestRuntime (fixture : Fixture) : Runtime (option Z) := {|
  Number_toString n := match n with Some z => integer_toString z | None => "NaN" end;
  Number_class n :=
    match n with
    | None => NumNaN
    | Some Z0 => NumZero
    | Some (Zpos _) => NumPositive
    | Some (Zneg _) => NumNegative
    end;
  StringToNumber s :=
    match trim s with
    | EmptyString => Some 0%Z
    | digits => Z.of_int <$> NilZero.int_of_string digits
    end;
  TimeClip n :=
    match n with
    | Some z => if (Z.abs z <=? 8640000000000000)%Z then Some z else None
    | None => None
    end;
  String_trim := trim;
  Date_parse := lookup_text (date_texts fixture);
  Date_toISOString := text_of_time (date_texts fixture);
  Date_toString t := "Date " +:+ integer_toString t;
  JSON_parse text :=
    match lookup_text (json_texts fixture) text with
    | Some v => Ok v
    | None => Throw (mkError "SyntaxError" "Unexpected token in JSON")
    end;
  JSON_stringify := render;
  Array_sort := @insertion_sort
|}.

(** A sheet holding a grid of cells, every row as long as the first and
    the last row and column not blank. *)
Definition sheet_of_grid {number : Type} (grid : list (list (cell number))) : Sheet number :=
  mkSheet
    (match grid with
     | (_ :: _) as first :: _ => Some (length grid - 1, length first - 1)
     | _ => None
     end)
    (fun row column => nth (column - 1) (nth (row - 1) grid []) (CString EmptyString)).

(** A JSON text: a flat object with string members. *)
Definition quoted (s : string) : string :=
  String "034"%char s +:+ String "034"%char EmptyString.

Fixpoint members (l : list (string * string)) : string :=
  match l with
  | [] => EmptyString
  | [(k, v)] => quoted k +:+ ":" +:+ quoted v
  | (k, v) :: rest => quoted k +:+ ":" +:+ quoted v +:+ "," +:+ members rest
  end.

Definition json_object (l : list (string * string)) : string := "{" +:+ members l +:+ "}".

Definition object_of (l : list (string * string)) : value (option Z) :=
  VObj (list_to_map (map (fun m => (fst m, VStr (snd m))) l)).

(** ** Fixtures: a small shop *)

Definition shop_dates : list (string * Z) :=
  [ ("2024-01-01T00:00:00.000Z", 1704067200000%Z);
    ("2024-02-01T00:00:00.000Z", 1706745600000%Z);
    ("2024-03-01T00:00:00.000Z", 1709251200000%Z) ].

Definition customers_sheet : Sheet (option Z) :=
  sheet_of_grid
    [ [ CString COLUMN_CUSTOMER_NUMBER; CString COLUMN_PHONE; CString "name" ];
      [ CNumber (Some 123%Z); CString "050-1234567"; CString "Dana" ];
      [ CNumber (Some 456%Z); CString " 052-7654321 "; CString "Noam" ] ].

Definition rentals_sheet : Sheet (option Z) :=
  sheet_of_grid
    [ [ CString COLUMN_CUSTOMER_NUMBER; CString "container" ];
      [ CNumber (Some 123%Z); CString "C-1" ];
      [ CNumber (Some 456%Z); CString "C-2" ];
      [ CString " 123 "; CString "C-3" ] ].

Definition material_orders_sheet : Sheet (option Z) :=
  sheet_of_grid
    [ [ CString COLUMN_CUSTOMER_NUMBER; CString COLUMN_RECEIVED_DATE;
        CString COLUMN_ORDER_DATE; CString "item" ];
      [ CNumber (Some 123%Z); CDate 1704067200000%Z; CString EmptyString; CString "cement" ];
      [ CNumber (Some 456%Z); CString EmptyString; CDate 1709251200000%Z; CString "sand" ] ].

Definition container_orders_sheet : Sheet (option Z) :=
  sheet_of_grid
    [ [ CString COLUMN_CUSTOMER_NUMBER; CString COLUMN_ORDER_DATE ];
      [ CNumber (Some 123%Z); CDate 1706745600000%Z ] ].

(** Material orders of which the second has neither date. *)
Definition undated_orders_sheet : Sheet (option Z) :=
  sheet_of_grid
    [ [ CString COLUMN_RECEIVED_DATE; CString COLUMN_ORDER_DATE; CString "item" ];
      [ CDate 1704067200000%Z; CString EmptyString; CString "cement" ];
      [ CString EmptyString; CString EmptyString; CString "sand" ];
      [ CDate 1709251200000%Z; CString EmptyString; CString "gravel" ] ].

(** A sheet one of whose columns is headed [__proto__]. *)
Definition proto_sheet : Sheet (option Z) :=
  sheet_of_grid
    [ [ CString "__proto__"; CString "name" ];
      [ CString "x"; CString "Dana" ] ].

Definition spreadsheet_of (sheets : list (string * Sheet (option Z))) : Spreadsheet (option Z) :=
  mkSpreadsheet (lookup_text sheets).

Definition shop_spreadsheet : Spreadsheet (option Z) :=
  spreadsheet_of
    [ (SHEET_CUSTOMERS, customers_sheet);
      (SHEET_CONTAINER_RENTALS, rentals_sheet);
      (SHEET_MATERIAL_ORDERS, material_orders_sheet);
      (SHEET_CONTAINER_ORDERS, container_orders_sheet) ].

Definition undated_spreadsheet : Spreadsheet (option Z) :=
  spreadsheet_of [ (SHEET_MATERIAL_ORDERS, undated_orders_sheet) ].

(** Request bodies and the reply of the provider. *)
Definition ping_request : list (string * string) := [ ("action", "ping") ].
Definition client_by_phone_request : list (string * string) :=
  [ ("action", "getClientData"); ("customerId", "050-1234567") ].
Definition unknown_client_request : list (string * string) :=
  [ ("action", "getClientData"); ("customerId", "999") ].
Definition all_orders_request : list (string * string) := [ ("action", "getAllOrders") ].
Definition update_request : list (string * string) :=
  [ ("action", "updateOrderStatus"); ("orderId", "7") ].
Definition notify_request : list (string * string) :=
  [ ("action", "sendNotificationToClient"); ("clientId", "123");
    ("title", "Order"); ("message", "On its way") ].

Definition provider_reply_text : string := "{" +:+ quoted "recipients" +:+ ":3}".
Definition provider_reply : value (option Z) := VObj {[ "recipients" := VNum (Some 3%Z) ]}.

Definition shop_fixture : Fixture :=
  mkFixture
    (map (fun request => (json_object request, object_of request))
       [ ping_request; client_by_phone_request; unknown_client_request;
         all_orders_request; update_request; notify_request ]
     ++ [ (provider_reply_text, provider_reply) ])
    shop_dates.

Definition shop_runtime : Runtime (option Z) := TestRuntime shop_fixture.

Definition post (request : list (string * string)) : PostEvent :=
  mkPostEvent (Some (mkPostData (json_object request))).

Definition world_of (ss : Spreadsheet (option Z)) (properties : gmap string string)
    : World (option Z) :=
  mkWorld
    (fun id =>
       if String.eqb id SPREADSHEET_ID then Ok ss
       else Throw (mkError "Exception" "Document is missing"))
    properties
    (fun _ _ => Ok (mkHTTPResponse 200 provider_reply_text))
    [].

Definition shop_world : World (option Z) :=
  world_of shop_spreadsheet
    {[ "ONE_SIGNAL_APP_ID" := "app-1"; "ONE_SIGNAL_REST_API_KEY" := "key-1" ]}.

Definition unconfigured_world : World (option Z) := world_of shop_spreadsheet ∅.

Definition undated_world : World (option Z) := world_of undated_spreadsheet ∅.

(** A world in which the spreadsheet cannot be opened. *)
Definition locked_world : World (option Z) :=
  mkWorld
    (fun _ => Throw (mkError "Exception" "You do not have permission to access the requested document."))
    ∅
    (fun _ _ => Throw (mkError "Exception" "Address unavailable"))
    [].

(** The feed the script builds from [undated_orders_sheet]: the rows in
    sheet order, each tagged. *)
Definition undated_feed : list (gmap string (value (option Z))) :=
  [ {[ COLUMN_RECEIVED_DATE := VStr "2024-01-01T00:00:00.000Z";
       COLUMN_ORDER_DATE := VStr EmptyString;
       "item" := VStr "cement";
       "orderType" := VStr "materials" ]};
    {[ COLUMN_RECEIVED_DATE := VStr EmptyString;
       COLUMN_ORDER_DATE := VStr EmptyString;
       "item" := VStr "sand";
       "orderType" := VStr "materials" ]};
    {[ COLUMN_RECEIVED_DATE := VStr "2024-03-01T00:00:00.000Z";
       COLUMN_ORDER_DATE := VStr EmptyString;
       "item" := VStr "gravel";
       "orderType" := VStr "materials" ]} ].

(** ** Fixtures: requests and worlds at the edges *)

Definition dashboard_request : list (string * string) :=
  [ ("action", "getAdminDashboardData"); ("view", "week") ].
Definition no_id_request : list (string * string) := [ ("action", "getClientData") ].
Definition padded_id_request : list (string * string) :=
  [ ("action", "getClientData"); ("customerId", " 123 ") ].

(** [{"action":["getAllOrders"]}], [{"action":"getClientData","customerId":123}],
    a provider reply without [recipients], and [null]. *)
Definition array_action_text : string :=
  "{" +:+ quoted "action" +:+ ":[" +:+ quoted "getAllOrders" +:+ "]}".
Definition array_action : value (option Z) :=
  VObj {[ "action" := VArr [VStr "getAllOrders"] ]}.

Definition numeric_id_text : string :=
  "{" +:+ quoted "action" +:+ ":" +:+ quoted "getClientData" +:+ ","
  +:+ quoted "customerId" +:+ ":123}".
Definition numeric_id : value (option Z) :=
  VObj {[ "action" := VStr "getClientData"; "customerId" := VNum (Some 123%Z) ]}.

Definition errors_reply_text : string :=
  "{" +:+ quoted "errors" +:+ ":[" +:+ quoted "All included players are not subscribed"
  +:+ "]}".
Definition errors_reply : value (option Z) :=
  VObj {[ "errors" := VArr [VStr "All included players are not subscribed"] ]}.

Definition edge_fixture : Fixture :=
  mkFixture
    (map (fun request => (json_object request, object_of request))
       [ all_orders_request; dashboard_request; no_id_request; padded_id_request;
         client_by_phone_request; notify_request ]
     ++ [ (array_action_text, array_action);
          (numeric_id_text, numeric_id);
          (errors_reply_text, errors_reply);
          ("null", VNull) ])
    shop_dates.

Definition edge_runtime : Runtime (option Z) := TestRuntime edge_fixture.

Definition post_text (text : string) : PostEvent :=
  mkPostEvent (Some (mkPostData text)).

(** A customers sheet without the phone column. *)
Definition customers_without_phone_sheet : Sheet (option Z) :=
  sheet_of_grid
    [ [ CString COLUMN_CUSTOMER_NUMBER; CString "name" ];
      [ CNumber (Some 123%Z); CString "Dana" ];
      [ CNumber (Some 456%Z); CString "Noam" ] ].

Definition no_phone_world : World (option Z) :=
  world_of (spreadsheet_of [ (SHEET_CUSTOMERS, customers_without_phone_sheet) ]) ∅.

(** The REST API key stored as the empty string. *)
Definition empty_key_world : World (option Z) :=
  world_of shop_spreadsheet
    {[ "ONE_SIGNAL_APP_ID" := "app-1"; "ONE_SIGNAL_REST_API_KEY" := EmptyString ]}.

(** A provider that accepts the request and reports no recipient count. *)
Definition unsubscribed_world : World (option Z) :=
  mkWorld
    (fun _ => Ok shop_spreadsheet)
    {[ "ONE_SIGNAL_APP_ID" := "app-1"; "ONE_SIGNAL_REST_API_KEY" := "key-1" ]}
    (fun _ _ => Ok (mkHTTPResponse 200 errors_reply_text))
    [].

(** ** Fixtures: values that do not convert to a string *)

(** [{"toString":1}], and a request for each place where the script
    converts a field of the payload: the action, the customer identifier
    and the client identifier; then a provider reply whose [recipients] is
    that object. *)
Definition unconvertible : value (option Z) := VObj {[ "toString" := VNum (Some 1%Z) ]}.
Definition unconvertible_text : string := "{" +:+ quoted "toString" +:+ ":1}".

Definition unconvertible_action_text : string :=
  "{" +:+ quoted "action" +:+ ":" +:+ unconvertible_text +:+ "}".
Definition unconvertible_action : value (option Z) :=
  VObj {[ "action" := unconvertible ]}.

Definition unconvertible_id_text : string :=
  "{" +:+ quoted "action" +:+ ":" +:+ quoted "getClientData" +:+ ","
  +:+ quoted "customerId" +:+ ":" +:+ unconvertible_text +:+ "}".
Definition unconvertible_id : value (option Z) :=
  VObj {[ "action" := VStr "getClientData"; "customerId" := unconvertible ]}.

Definition unconvertible_client_text : string :=
  "{" +:+ quoted "action" +:+ ":" +:+ quoted "sendNotificationToClient" +:+ ","
  +:+ quoted "clientId" +:+ ":" +:+ unconvertible_text +:+ ","
  +:+ quoted "title" +:+ ":" +:+ quoted "Order" +:+ ","
  +:+ quoted "message" +:+ ":" +:+ quoted "On its way" +:+ "}".
Definition unconvertible_client : value (option Z) :=
  VObj {[ "action" := VStr "sendNotificationToClient";
          "clientId" := unconvertible;
          "title" := VStr "Order";
          "message" := VStr "On its way" ]}.

Definition unconvertible_recipients_text : string :=
  "{" +:+ quoted "recipients" +:+ ":" +:+ unconvertible_text +:+ "}".
Definition unconvertible_recipients : value (option Z) :=
  VObj {[ "recipients" := unconvertible ]}.

Definition conversion_fixture : Fixture :=
  mkFixture
    [ (json_object notify_request, object_of notify_request);
      (provider_reply_text, provider_reply);
      (array_action_text, array_action);
      (unconvertible_action_text, unconvertible_action);
      (unconvertible_id_text, unconvertible_id);
      (unconvertible_client_text, unconvertible_client);
      (unconvertible_recipients_text, unconvertible_recipients) ]
    shop_dates.

Definition conversion_runtime : Runtime (option Z) := TestRuntime conversion_fixture.

(** A provider that accepts the request and reports such a [recipients]. *)
Definition odd_provider_world : World (option Z) :=
  mkWorld
    (fun _ => Ok shop_spreadsheet)
    {[ "ONE_SIGNAL_APP_ID" := "app-1"; "ONE_SIGNAL_REST_API_KEY" := "key-1" ]}
    (fun _ _ => Ok (mkHTTPResponse 200 unconvertible_recipients_text))
    [].

(** * Properties *)

Section Properties.

Context {number : Type} {RT : Runtime number}.

Local Abbreviation value := (value number).
Local Abbreviation record := (gmap string value).
Local Abbreviation Sheet := (Sheet number).
Local Abbreviation Spreadsheet := (Spreadsheet number).
Local Abbreviation World := (World number).
Local Abbreviation M := (M number).
Local Abbreviation tidy m := (@tidy number _ m).

(** ** The row normaliser *)

Lemma result_map_total {A B : Type} (f : A -> B) (l : list A) :
  result_map (fun a => Ok (f a)) l = Ok (map f l).
Proof.
  induction l as [|a l IH]; simpl; [reflexivity|].
  rewrite IH. reflexivity.
Qed.

Lemma getLastRow_getLastColumn (sheet : Sheet) :
  1 <= getLastRow sheet -> 1 <= getLastColumn sheet.
Proof.
  unfold getLastRow, getLastColumn.
  destruct (extent sheet) as [[r c]|]; lia.
Qed.

Lemma getRange_ok (sheet : Sheet) (row column numRows numColumns : nat) :
  1 <= row -> 1 <= column -> 1 <= numRows -> 1 <= numColumns ->
  getRange sheet row column numRows numColumns
  = Ok (mkRange sheet row column numRows numColumns).
Proof.
  intros Hr Hc Hn Hm. unfold getRange.
  apply Nat.ltb_ge in Hr, Hc, Hn, Hm.
  rewrite Hr, Hc, Hn, Hm. reflexivity.
Qed.

(** With at least two rows, [getSheetData] returns one row object per data
    row, in row order. *)
Lemma getSheetData_rows (sheet : Sheet) :
  2 <= getLastRow sheet ->
  getSheetData (Some sheet)
  = Ok (map (fun i => forEach_header (header_row sheet) 0 (data_row sheet i) ∅)
            (seq 0 (getLastRow sheet - 1))).
Proof.
  intros Hrows.
  assert (Hcols : 1 <= getLastColumn sheet)
    by (apply getLastRow_getLastColumn; lia).
  unfold getSheetData.
  destruct (getLastRow sheet <? 2) eqn:Hlt; [apply Nat.ltb_lt in Hlt; lia|].
  rewrite !getRange_ok by lia. simpl.
  unfold rowObject_of. rewrite result_map_total.
  unfold getValues. simpl. rewrite map_map. reflexivity.
Qed.

Lemma getSheetData_short (sheet : Sheet) :
  getLastRow sheet < 2 -> getSheetData (Some sheet) = Ok [].
Proof.
  intros Hrows. unfold getSheetData.
  apply Nat.ltb_lt in Hrows. rewrite Hrows. reflexivity.
Qed.

(** [getSheetData] never throws. *)
Lemma getSheetData_returns (sheet : option Sheet) :
  getSheetData sheet = Ok (sheet_rows sheet).
Proof.
  unfold sheet_rows.
  destruct sheet as [sheet|]; [|reflexivity].
  destruct (le_lt_dec 2 (getLastRow sheet)) as [Hrows|Hrows].
  - rewrite getSheetData_rows by exact Hrows. reflexivity.
  - rewrite getSheetData_short by exact Hrows. reflexivity.
Qed.

Lemma assign_dom (rowObject : record) (key : string) (v : value) :
  dom (assign rowObject key v) = dom rowObject ∪ ({[key]} ∖ {["__proto__"]}).
Proof.
  unfold assign. destruct (String.eqb_spec key "__proto__") as [->|Hkey].
  - set_solver.
  - rewrite dom_insert_L. set_solver.
Qed.

Lemma forEach_header_dom (headers : list (cell number)) :
  forall (index : nat) (row : list (cell number)) (rowObject : record),
    dom (forEach_header headers index row rowObject)
    = dom rowObject ∪ (list_to_set (map ToPropertyKey headers) ∖ {["__proto__"]}).
Proof.
  induction headers as [|header rest IH]; intros index row rowObject; simpl.
  - set_solver.
  - rewrite IH, assign_dom. set_solver.
Qed.

(** A key none of the headers spells is left as it was. *)
Lemma forEach_header_other (headers : list (cell number)) (key : string) :
  forall (index : nat) (row : list (cell number)) (rowObject : record),
    (forall header, In header headers -> ToPropertyKey header <> key) ->
    forEach_header headers index row rowObject !! key = rowObject !! key.
Proof.
  induction headers as [|header rest IH]; intros index row rowObject Hfresh; simpl.
  - reflexivity.
  - rewrite IH by (intros h Hh; apply Hfresh; right; exact Hh).
    unfold assign. destruct (String.eqb _ "__proto__"); [reflexivity|].
    apply lookup_insert_ne. apply Hfresh. left. reflexivity.
Qed.

(** The last column spelling a key gives the field its value. *)
Lemma forEach_header_lookup (headers : list (cell number)) :
  forall (index : nat) (row : list (cell number)) (rowObject : record)
         (j : nat) (header : cell number),
    headers !! j = Some header ->
    ToPropertyKey header <> "__proto__" ->
    (forall j' header', j < j' -> headers !! j' = Some header' ->
       ToPropertyKey header' <> ToPropertyKey header) ->
    forEach_header headers index row rowObject !! ToPropertyKey header
    = Some (normalizeCell (row !! (index + j))).
Proof.
  induction headers as [|h rest IH]; intros index row rowObject j header Hj Hkey Hlast.
  - discriminate Hj.
  - destruct j as [|j]; simpl in *.
    + injection Hj as ->.
      rewrite forEach_header_other.
      * unfold assign. apply String.eqb_neq in Hkey. rewrite Hkey.
        rewrite Nat.add_0_r. apply lookup_insert_eq.
      * intros h' Hin. apply list_elem_of_In, list_elem_of_lookup in Hin.
        destruct Hin as [j' Hj']. apply (Hlast (S j')); [lia|exact Hj'].
    + replace (index + S j) with (S index + j) by lia.
      apply IH; [exact Hj|exact Hkey|].
      intros j' header' Hlt Hj'. apply (Hlast (S j')); [lia|exact Hj'].
Qed.

Lemma header_row_length (sheet : Sheet) :
  length (header_row sheet) = getLastColumn sheet.
Proof. unfold header_row. rewrite length_map, length_seq. reflexivity. Qed.

Lemma data_row_lookup (sheet : Sheet) (i j : nat) :
  j < getLastColumn sheet ->
  data_row sheet i !! j = Some (cellAt sheet (2 + i) (1 + j)).
Proof.
  intros Hj. unfold data_row.
  change (map ?f ?l) with (f <$> l).
  rewrite list_lookup_fmap, lookup_seq_lt by exact Hj. reflexivity.
Qed.

(** ** The script only appends to the journal *)

Lemma with_journal_own (w : World) : with_journal w (journal w) = w.
Proof. destruct w. reflexivity. Qed.

Lemma tidy_ret {A : Type} (a : A) : tidy (ret a).
Proof.
  intros w. exists (Ok a), []. intros j. rewrite app_nil_r. reflexivity.
Qed.

Lemma tidy_eval {A : Type} (r : Result A) : tidy (eval r).
Proof.
  intros w. exists r, []. intros j. rewrite app_nil_r. reflexivity.
Qed.

Lemma tidy_bind {A B : Type} (m : M A) (k : A -> M B) :
  tidy m -> (forall a, tidy (k a)) -> tidy (bind m k).
Proof.
  intros Hm Hk w. destruct (Hm w) as (r & calls & Hrun).
  destruct r as [a|e].
  - destruct (Hk a w) as (r' & calls' & Hrun').
    exists r', (calls ++ calls'). intros j.
    unfold bind. rewrite Hrun, Hrun', app_assoc. reflexivity.
  - exists (Throw e), calls. intros j. unfold bind. rewrite Hrun. reflexivity.
Qed.

Lemma tidy_try_catch {A : Type} (body : M A) (handler : Error -> M A) :
  tidy body -> (forall e, tidy (handler e)) -> tidy (try_catch body handler).
Proof.
  intros Hm Hk w. destruct (Hm w) as (r & calls & Hrun).
  destruct r as [a|e].
  - exists (Ok a), calls. intros j. unfold try_catch. rewrite Hrun. reflexivity.
  - destruct (Hk e w) as (r' & calls' & Hrun').
    exists r', (calls ++ calls'). intros j.
    unfold try_catch. rewrite Hrun, Hrun', app_assoc. reflexivity.
Qed.

Lemma tidy_Logger_log (line : string) : tidy (Logger_log line).
Proof. intros w. exists (Ok tt), [LoggerLog line]. intros j. reflexivity. Qed.

Lemma tidy_openById (id : string) : tidy (SpreadsheetApp_openById id).
Proof. intros w. exists (spreadsheets w id), [OpenById id]. intros j. reflexivity. Qed.

Lemma tidy_getSheetByName (ss : Spreadsheet) (name : string) :
  tidy (getSheetByName ss name).
Proof.
  intros w. exists (Ok (sheetByName ss name)), [GetSheetByName name].
  intros j. reflexivity.
Qed.

Lemma tidy_getProperty (key : string) : tidy (getProperty key).
Proof.
  intros w. exists (Ok (scriptProperties w !! key)), [GetProperty key].
  intros j. reflexivity.
Qed.

Lemma tidy_fetch (url : string) (params : FetchOptions) :
  tidy (UrlFetchApp_fetch url params).
Proof.
  intros w. exists (network w url params), [UrlFetch url params].
  intros j. reflexivity.
Qed.

Create HintDb tidy.

#[local] Hint Resolve tidy_ret tidy_eval tidy_Logger_log tidy_openById
  tidy_getSheetByName tidy_getProperty tidy_fetch : tidy.

Ltac tidy_steps :=
  repeat first
    [ solve [auto with tidy]
    | apply tidy_bind; [|intros ?]
    | apply tidy_try_catch; [|intros ?]
    | match goal with
      | |- tidy (if ?b then _ else _) => destruct b
      | |- tidy (match ?x with _ => _ end) => destruct x
      end ].

Lemma tidy_handleGetClientData (payload : value) : tidy (handleGetClientData payload).
Proof. unfold handleGetClientData. tidy_steps. Qed.

Lemma tidy_handleGetAllOrders : tidy handleGetAllOrders.
Proof. unfold handleGetAllOrders. tidy_steps. Qed.

Lemma tidy_handleUpdateOrderStatus (payload : value) :
  tidy (handleUpdateOrderStatus payload).
Proof. unfold handleUpdateOrderStatus. tidy_steps. Qed.

Lemma tidy_handleSendNotification (payload : value) :
  tidy (handleSendNotification payload).
Proof.
  unfold handleSendNotification, handleSendNotification_try, handleSendNotification_catch.
  tidy_steps.
Qed.

#[local] Hint Resolve tidy_handleGetClientData tidy_handleGetAllOrders
  tidy_handleUpdateOrderStatus tidy_handleSendNotification : tidy.

Lemma tidy_doPost (e : PostEvent) : tidy (doPost e).
Proof. unfold doPost, doPost_try, doPost_switch, doPost_catch. tidy_steps. Qed.

(** The outcome of a tidy computation is the same whatever the journal,
    and the world it leaves differs from the one it found by the journal
    only. *)
Lemma tidy_outcome {A : Type} (m : M A) (w : World) (j : list Call) :
  tidy m -> fst (m (with_journal w j)) = fst (m w).
Proof.
  intros Hm. destruct (Hm w) as (r & calls & Hrun).
  rewrite Hrun. rewrite <- (with_journal_own w) at 2. rewrite Hrun. reflexivity.
Qed.

Lemma tidy_world {A : Type} (m : M A) (w : World) :
  tidy m -> exists calls, snd (m w) = with_journal w (journal w ++ calls).
Proof.
  intros Hm. destruct (Hm w) as (r & calls & Hrun).
  exists calls. rewrite <- (with_journal_own w) at 1. rewrite Hrun. reflexivity.
Qed.

(** ** The router *)

(** What the conversions give. *)
Lemma String_of_returns (v : value) (text : string) :
  String_of v = Ok text -> text = ToString v.
Proof.
  unfold String_of. destruct (conversion_throws v); [discriminate|].
  intros [= <-]. reflexivity.
Qed.

Lemma String_of_throws (v : value) (err : Error) :
  String_of v = Throw err ->
  conversion_throws v = true
  /\ err = mkError "TypeError" "Cannot convert object to primitive value".
Proof.
  unfold String_of. destruct (conversion_throws v); [|discriminate].
  intros [= <-]. split; reflexivity.
Qed.

(** A comparison that returns was made on a value that converts. *)
Lemma greater_than_zero_converts (v : value) (reached : bool) :
  greater_than_zero v = Ok reached -> String_of v = Ok (ToString v).
Proof.
  destruct v; try reflexivity; unfold greater_than_zero;
    (destruct (String_of _) as [text|err] eqn:Htext; [|discriminate]);
    intros _; rewrite (String_of_returns _ _ Htext); reflexivity.
Qed.

(** A body that parses and has an [action] that converts to a string
    reaches the [switch]. *)
Lemma doPost_reaches_switch (e : PostEvent) (d : PostData) (payload action : value)
    (received : string) (w : World) :
  postData e = Some d ->
  JSON_parse (contents d) = Ok payload ->
  Get payload "action" = Ok action ->
  String_of action = Ok received ->
  doPost e w
  = try_catch (doPost_switch action payload) doPost_catch (after_banner received payload w).
Proof.
  intros Hdata Hparse Haction Hreceived.
  unfold doPost, doPost_try, try_catch, bind, eval, Logger_log, postData_contents.
  rewrite Hdata, Hparse, Haction, Hreceived. reflexivity.
Qed.

(** An [action] that does not convert is reported by the [catch] block,
    before any handler is chosen. *)
Lemma doPost_action_throws (e : PostEvent) (d : PostData) (payload action : value)
    (err : Error) (w : World) :
  postData e = Some d ->
  JSON_parse (contents d) = Ok payload ->
  Get payload "action" = Ok action ->
  String_of action = Throw err ->
  doPost e w
  = (Ok (createJsonResponse
           (VObj {[ "status" := VStr "error";
                    "message" := VStr ("Invalid request or server error: "
                                       +:+ Error_toString err) ]})),
     with_journal w
       (journal w
        ++ [ LoggerLog ("API " +:+ SCRIPT_VERSION +:+ " Running...");
             LoggerLog ("Critical Error in doPost: " +:+ Error_toString err) ])).
Proof.
  intros Hdata Hparse Haction Hthrows.
  unfold doPost, doPost_try, doPost_catch, try_catch, bind, eval, Logger_log, ret,
    postData_contents.
  rewrite Hdata, Hparse, Haction, Hthrows.
  unfold record_call, with_journal. simpl. rewrite <- !app_assoc. reflexivity.
Qed.

Lemma try_catch_returns {A : Type} (body : M A) (handler : Error -> M A)
    (w w' : World) (a : A) :
  body w = (Ok a, w') -> try_catch body handler w = (Ok a, w').
Proof. intros Hrun. unfold try_catch. rewrite Hrun. reflexivity. Qed.

Lemma doPost_switch_unknown (action : string) (payload : value) :
  ~ In action known_actions ->
  doPost_switch (VStr action) payload
  = bind (Logger_log ("Error: Unknown action requested: " +:+ action))
      (fun _ =>
         ret (createJsonResponse
                (VObj {[ "status" := VStr "error";
                         "message" := VStr ("Unknown action: " +:+ action) ]}))).
Proof.
  intros Hunknown. unfold doPost_switch, strict_equals_string.
  repeat match goal with
  | |- context [String.eqb action ?name] =>
      destruct (String.eqb_spec action name) as [->|_];
      [exfalso; apply Hunknown; unfold known_actions; simpl; tauto|]
  end.
  reflexivity.
Qed.

(** C1.  A body that parses as JSON and whose [action] is a string other
    than the five known names (compared exactly, case included) reaches
    no handler: [doPost] returns the envelope
    [{status: "error", message: "Unknown action: <action>"}] with the
    action string as received, and the only calls it makes are three log
    lines. *)
Theorem doPost_unknown_action (e : PostEvent) (d : PostData) (payload : value)
    (action : string) (w : World) :
  postData e = Some d ->
  JSON_parse (contents d) = Ok payload ->
  Get payload "action" = Ok (VStr action) ->
  ~ In action known_actions ->
  doPost e w
  = (Ok (createJsonResponse
           (VObj {[ "status" := VStr "error";
                    "message" := VStr ("Unknown action: " +:+ action) ]})),
     with_journal w
       (journal w
        ++ [ LoggerLog ("API " +:+ SCRIPT_VERSION +:+ " Running...");
             LoggerLog ("Received action: " +:+ action
                        +:+ " with payload: " +:+ JSON_stringify payload);
             LoggerLog ("Error: Unknown action requested: " +:+ action) ])).
Proof.
  intros Hdata Hparse Haction Hunknown.
  rewrite (doPost_reaches_switch e d payload (VStr action) action w
             Hdata Hparse Haction eq_refl).
  rewrite doPost_switch_unknown by exact Hunknown.
  unfold try_catch, bind, Logger_log, ret, after_banner, record_call, with_journal.
  simpl. rewrite <- !app_assoc. reflexivity.
Qed.

(** C2.  No exception leaves [doPost].  A body that is not valid JSON, and
    more generally any exception raised in the [try] block (by the parse
    or by a dispatched handler), gives an envelope with status ["error"]
    whose message carries the exception's description.  A request leaves
    the spreadsheets, the script properties and the network as they were,
    so the reply to a later request is what it would have been without
    it. *)
Theorem doPost_catches_everything (e : PostEvent) (w : World) :
  (exists response, fst (doPost e w) = Ok response) /\
  (forall d err,
     postData e = Some d ->
     JSON_parse (contents d) = Throw err ->
     fst (doPost e w)
     = Ok (createJsonResponse
             (VObj {[ "status" := VStr "error";
                      "message" := VStr ("Invalid request or server error: "
                                         +:+ Error_toString err) ]}))) /\
  (forall err w',
     doPost_try e (record_call (LoggerLog ("API " +:+ SCRIPT_VERSION +:+ " Running...")) w)
     = (Throw err, w') ->
     fst (doPost e w)
     = Ok (createJsonResponse
             (VObj {[ "status" := VStr "error";
                      "message" := VStr ("Invalid request or server error: "
                                         +:+ Error_toString err) ]}))) /\
  (spreadsheets (snd (doPost e w)) = spreadsheets w /\
   scriptProperties (snd (doPost e w)) = scriptProperties w /\
   network (snd (doPost e w)) = network w) /\
  (forall e', fst (doPost e' (snd (doPost e w))) = fst (doPost e' w)).
Proof.
  assert (Hcatch : forall err w',
    doPost_try e (record_call (LoggerLog ("API " +:+ SCRIPT_VERSION +:+ " Running...")) w)
    = (Throw err, w') ->
    fst (doPost e w)
    = Ok (createJsonResponse
            (VObj {[ "status" := VStr "error";
                     "message" := VStr ("Invalid request or server error: "
                                        +:+ Error_toString err) ]}))).
  { intros err w' Hthrow.
    unfold doPost, bind, Logger_log, try_catch. cbn beta iota.
    rewrite Hthrow. reflexivity. }
  repeat split.
  - unfold doPost, bind, Logger_log, try_catch. cbn beta iota.
    destruct (doPost_try e _) as [[response|err] w'].
    + exists response. reflexivity.
    + eexists. reflexivity.
  - intros d err Hdata Hparse.
    apply (Hcatch err (record_call (LoggerLog ("API " +:+ SCRIPT_VERSION +:+ " Running...")) w)).
    unfold doPost_try, bind, eval, postData_contents.
    rewrite Hdata, Hparse. reflexivity.
  - exact Hcatch.
  - destruct (tidy_world (doPost e) w (tidy_doPost e)) as [calls ->]. reflexivity.
  - destruct (tidy_world (doPost e) w (tidy_doPost e)) as [calls ->]. reflexivity.
  - destruct (tidy_world (doPost e) w (tidy_doPost e)) as [calls ->]. reflexivity.
  - intros e'.
    destruct (tidy_world (doPost e) w (tidy_doPost e)) as [calls ->].
    apply tidy_outcome, tidy_doPost.
Qed.

(** C9.  [handleUpdateOrderStatus] returns the success envelope
    [{status: "success", message}] and leaves the world exactly as it
    found it: no sheet is opened or read, nothing is written, nothing is
    even logged.  Through [doPost] the request adds the router's two log
    lines and nothing else. *)
Theorem handleUpdateOrderStatus_is_a_stub :
  (forall (payload : value) (w : World),
     handleUpdateOrderStatus payload w
     = (Ok (createJsonResponse
              (VObj {[ "status" := VStr "success";
                       "message" := VStr "Status updated successfully (simulation)." ]})),
        w)) /\
  (forall (e : PostEvent) (d : PostData) (payload : value) (w : World),
     postData e = Some d ->
     JSON_parse (contents d) = Ok payload ->
     Get payload "action" = Ok (VStr "updateOrderStatus") ->
     doPost e w
     = (Ok (createJsonResponse
              (VObj {[ "status" := VStr "success";
                       "message" := VStr "Status updated successfully (simulation)." ]})),
        with_journal w
          (journal w
           ++ [ LoggerLog ("API " +:+ SCRIPT_VERSION +:+ " Running...");
                LoggerLog ("Received action: updateOrderStatus with payload: "
                           +:+ JSON_stringify payload) ]))).
Proof.
  split.
  - intros payload w. reflexivity.
  - intros e d payload w Hdata Hparse Haction.
    rewrite (doPost_reaches_switch e d payload _ _ w Hdata Hparse Haction eq_refl).
    unfold after_banner, record_call, with_journal. simpl.
    rewrite <- !app_assoc. reflexivity.
Qed.

Lemma try_catch_fst {A : Type} (body : M A) (handler : Error -> M A) (w : World) (a : A) :
  fst (body w) = Ok a -> fst (try_catch body handler w) = Ok a.
Proof.
  unfold try_catch. destruct (body w) as [[x|err] w']; simpl; intros Hrun.
  - exact Hrun.
  - discriminate Hrun.
Qed.

(** ** Single-client lookup *)

Lemma matches_customer_identifies (customerId : string) (row : record) :
  matches_customer customerId row = true <-> identifies customerId row.
Proof.
  unfold matches_customer, identifies.
  rewrite orb_true_iff, !String.eqb_eq. reflexivity.
Qed.

Lemma belongs_to_spec (actualCustomerId : string) (row : record) :
  belongs_to actualCustomerId row = true
  <-> String_trim (ToString (field row COLUMN_CUSTOMER_NUMBER)) = actualCustomerId.
Proof. unfold belongs_to. apply String.eqb_eq. Qed.

(** [find] returns the first element the callback accepts. *)
Lemma find_first {A : Type} (f : A -> bool) (l : list A) (x : A) :
  List.find f l = Some x ->
  exists before after,
    l = before ++ x :: after /\ f x = true /\ (forall y, In y before -> f y = false).
Proof.
  induction l as [|a l IH]; simpl; [discriminate|].
  destruct (f a) eqn:Hfa.
  - intros [= ->]. exists [], l. repeat split; [exact Hfa|intros y []].
  - intros Hfind. destruct (IH Hfind) as (before & after & -> & Hx & Hbefore).
    exists (a :: before), after. repeat split; [exact Hx|].
    intros y [<-|Hy]; [exact Hfa|apply Hbefore, Hy].
Qed.

Lemma handleGetClientData_not_found (payload id : value) (idText : string)
    (ss : Spreadsheet) (w : World) :
  spreadsheets w SPREADSHEET_ID = Ok ss ->
  Get payload "customerId" = Ok id ->
  String_of id = Ok idText ->
  List.find (matches_customer (String_trim idText))
    (sheet_rows (sheetByName ss SHEET_CUSTOMERS)) = None ->
  fst (handleGetClientData payload w)
  = Ok (createJsonResponse
          (VObj {[ "status" := VStr "error"; "message" := VStr "Client not found" ]})).
Proof.
  intros Hss Hid Htext Hfind.
  unfold handleGetClientData, bind, SpreadsheetApp_openById, eval, getSheetByName.
  cbn beta iota. rewrite Hss. cbn beta iota. rewrite Hid, Htext.
  rewrite getSheetData_returns, Hfind. reflexivity.
Qed.

Lemma handleGetClientData_found (payload id : value) (idText : string)
    (ss : Spreadsheet) (w : World) (user : record) :
  spreadsheets w SPREADSHEET_ID = Ok ss ->
  Get payload "customerId" = Ok id ->
  String_of id = Ok idText ->
  List.find (matches_customer (String_trim idText))
    (sheet_rows (sheetByName ss SHEET_CUSTOMERS)) = Some user ->
  fst (handleGetClientData payload w)
  = Ok (createJsonResponse
          (VObj {[ "status" := VStr "success";
                   "user" := VObj user;
                   "containers" :=
                     VArr (map VObj
                             (List.filter
                                (belongs_to (String_trim (ToString (field user COLUMN_CUSTOMER_NUMBER))))
                                (sheet_rows (sheetByName ss SHEET_CONTAINER_RENTALS))));
                   "materialOrders" :=
                     VArr (map VObj
                             (List.filter
                                (belongs_to (String_trim (ToString (field user COLUMN_CUSTOMER_NUMBER))))
                                (sheet_rows (sheetByName ss SHEET_MATERIAL_ORDERS)))) ]})).
Proof.
  intros Hss Hid Htext Hfind.
  unfold handleGetClientData, bind, SpreadsheetApp_openById, eval, getSheetByName.
  cbn beta iota. rewrite Hss. cbn beta iota. rewrite Hid, Htext.
  rewrite getSheetData_returns, Hfind. cbn beta iota.
  rewrite !getSheetData_returns. reflexivity.
Qed.

(** C3.  A [getClientData] request whose identifier, converted to a
    string and trimmed, equals the trimmed customer number or the trimmed
    phone of some customer row is answered with [{status: "success", user, containers, materialOrders}]:
    [user] is the first such row in sheet order, the canonical number is
    the trimmed customer number of that row, and [containers] and
    [materialOrders] are the rental rows and the material-order rows whose
    trimmed customer number equals the canonical one, no others. *)
Theorem getClientData_found (e : PostEvent) (d : PostData) (payload id : value)
    (idText : string) (ss : Spreadsheet) (w : World) :
  postData e = Some d ->
  JSON_parse (contents d) = Ok payload ->
  Get payload "action" = Ok (VStr "getClientData") ->
  Get payload "customerId" = Ok id ->
  String_of id = Ok idText ->
  spreadsheets w SPREADSHEET_ID = Ok ss ->
  (exists row, In row (sheet_rows (sheetByName ss SHEET_CUSTOMERS))
               /\ identifies (String_trim idText) row) ->
  exists (user : record) (before after containers materialOrders : list record),
    sheet_rows (sheetByName ss SHEET_CUSTOMERS) = before ++ user :: after /\
    identifies (String_trim idText) user /\
    (forall row, In row before -> ~ identifies (String_trim idText) row) /\
    containers
    = List.filter (belongs_to (String_trim (ToString (field user COLUMN_CUSTOMER_NUMBER))))
        (sheet_rows (sheetByName ss SHEET_CONTAINER_RENTALS)) /\
    materialOrders
    = List.filter (belongs_to (String_trim (ToString (field user COLUMN_CUSTOMER_NUMBER))))
        (sheet_rows (sheetByName ss SHEET_MATERIAL_ORDERS)) /\
    (forall row,
       In row containers <->
       In row (sheet_rows (sheetByName ss SHEET_CONTAINER_RENTALS))
       /\ String_trim (ToString (field row COLUMN_CUSTOMER_NUMBER))
          = String_trim (ToString (field user COLUMN_CUSTOMER_NUMBER))) /\
    (forall row,
       In row materialOrders <->
       In row (sheet_rows (sheetByName ss SHEET_MATERIAL_ORDERS))
       /\ String_trim (ToString (field row COLUMN_CUSTOMER_NUMBER))
          = String_trim (ToString (field user COLUMN_CUSTOMER_NUMBER))) /\
    fst (doPost e w)
    = Ok (createJsonResponse
            (VObj {[ "status" := VStr "success";
                     "user" := VObj user;
                     "containers" := VArr (map VObj containers);
                     "materialOrders" := VArr (map VObj materialOrders) ]})).
Proof.
  intros Hdata Hparse Haction Hid Htext Hss (row & Hrow & Hmatch).
  destruct (List.find (matches_customer (String_trim idText))
              (sheet_rows (sheetByName ss SHEET_CUSTOMERS))) as [user|] eqn:Hfind.
  - destruct (find_first _ _ _ Hfind) as (before & after & Hsplit & Huser & Hbefore).
    exists user, before, after. eexists. eexists.
    split; [exact Hsplit|].
    split; [apply matches_customer_identifies, Huser|].
    split.
    { intros r Hr Hid'. apply matches_customer_identifies in Hid'.
      rewrite (Hbefore r Hr) in Hid'. discriminate Hid'. }
    split; [reflexivity|]. split; [reflexivity|].
    split; [intros r; rewrite filter_In, belongs_to_spec; reflexivity|].
    split; [intros r; rewrite filter_In, belongs_to_spec; reflexivity|].
    rewrite (doPost_reaches_switch e d payload _ _ w Hdata Hparse Haction eq_refl).
    apply try_catch_fst.
    apply (handleGetClientData_found payload id idText ss (after_banner _ payload w) user);
      [exact Hss|exact Hid|exact Htext|exact Hfind].
  - exfalso. apply matches_customer_identifies in Hmatch.
    rewrite (find_none _ _ Hfind row Hrow) in Hmatch. discriminate Hmatch.
Qed.

(** C4.  A [getClientData] request whose identifier, converted to a
    string and trimmed, equals neither the trimmed customer number nor the
    trimmed phone of any customer row is answered with exactly [{status: "error", message: "Client not
    found"}]: the object has the keys [status] and [message] and no
    others, so no [user], [containers] or [materialOrders]. *)
Theorem getClientData_not_found (e : PostEvent) (d : PostData) (payload id : value)
    (idText : string) (ss : Spreadsheet) (w : World) :
  postData e = Some d ->
  JSON_parse (contents d) = Ok payload ->
  Get payload "action" = Ok (VStr "getClientData") ->
  Get payload "customerId" = Ok id ->
  String_of id = Ok idText ->
  spreadsheets w SPREADSHEET_ID = Ok ss ->
  (forall row, In row (sheet_rows (sheetByName ss SHEET_CUSTOMERS)) ->
               ~ identifies (String_trim idText) row) ->
  exists envelope : record,
    fst (doPost e w) = Ok (createJsonResponse (VObj envelope)) /\
    envelope = {[ "status" := VStr "error"; "message" := VStr "Client not found" ]} /\
    dom envelope = {[ "status"; "message" ]} /\
    envelope !! "user" = None /\
    envelope !! "containers" = None /\
    envelope !! "materialOrders" = None.
Proof.
  intros Hdata Hparse Haction Hid Htext Hss Hnone.
  eexists. split; [|split; [reflexivity|]].
  - rewrite (doPost_reaches_switch e d payload _ _ w Hdata Hparse Haction eq_refl).
    apply try_catch_fst.
    apply (handleGetClientData_not_found payload id idText ss (after_banner _ payload w));
      [exact Hss|exact Hid|exact Htext|].
    destruct (List.find _ _) as [user|] eqn:Hfind; [|reflexivity].
    exfalso. apply find_some in Hfind as [Hin Huser].
    apply (Hnone user Hin), matches_customer_identifies, Huser.
  - split; [|repeat split; reflexivity].
    rewrite dom_insert_L, dom_singleton_L. set_solver.
Qed.

(** ** Row normalisation, stated *)

(** X20.  What [getSheetData] builds.  A sheet with fewer than two rows,
    empty or header-only, gives the empty list, not an error.  A sheet
    with a header row and [N] data rows gives exactly [N] row objects, the
    [i]-th built from the [i]-th data row; the key set of every row object
    is the set of header-row strings without [__proto__], and a field
    holds the normalised cell of the last column spelling its key. *)
Theorem getSheetData_records (sheet : Sheet) :
  (getLastRow sheet < 2 -> getSheetData (Some sheet) = Ok []) /\
  (forall N, getLastRow sheet = S N -> 1 <= N ->
     exists records : list record,
       getSheetData (Some sheet) = Ok records /\
       length records = N /\
       forall i, i < N ->
         exists rowObject : record,
           records !! i = Some rowObject /\
           dom rowObject = header_keys sheet ∖ {["__proto__"]} /\
           forall j header,
             header_row sheet !! j = Some header ->
             ToPropertyKey header <> "__proto__" ->
             (forall j' header', j < j' -> header_row sheet !! j' = Some header' ->
                ToPropertyKey header' <> ToPropertyKey header) ->
             rowObject !! ToPropertyKey header
             = Some (normalizeCell (Some (cellAt sheet (2 + i) (1 + j))))).
Proof.
  split; [apply getSheetData_short|].
  intros N Hrows HN. eexists. split; [apply getSheetData_rows; lia|].
  rewrite Hrows. replace (S N - 1) with N by lia.
  split; [rewrite length_map, length_seq; reflexivity|].
  intros i Hi. eexists. split.
  { change (map ?f ?l) with (f <$> l).
    rewrite list_lookup_fmap, lookup_seq_lt by exact Hi. reflexivity. }
  split.
  - rewrite forEach_header_dom, dom_empty_L. unfold header_keys. set_solver.
  - intros j header Hj Hkey Hlast.
    rewrite (forEach_header_lookup _ 0 _ ∅ j header Hj Hkey Hlast).
    rewrite data_row_lookup; [reflexivity|].
    rewrite <- header_row_length. apply lookup_lt_Some in Hj. exact Hj.
Qed.

(** ** Missing sheets *)

Lemma handleGetAllOrders_returns (ss : Spreadsheet) (w : World) :
  spreadsheets w SPREADSHEET_ID = Ok ss ->
  fst (handleGetAllOrders w)
  = Ok (createJsonResponse
          (VObj {[ "status" := VStr "success";
                   "orders" :=
                     VArr (map VObj
                             (allOrders (sheet_rows (sheetByName ss SHEET_MATERIAL_ORDERS))
                                        (sheet_rows (sheetByName ss SHEET_CONTAINER_ORDERS)))) ]})).
Proof.
  intros Hss.
  unfold handleGetAllOrders, bind, SpreadsheetApp_openById, eval, getSheetByName.
  cbn beta iota. rewrite Hss. cbn beta iota.
  rewrite !getSheetData_returns. reflexivity.
Qed.

(** C10.  For a sheet that does not exist [getSheetByName] gives [null]
    and [getSheetData] returns the empty list instead of throwing, so the
    query handlers answer as for an empty table: without the customers
    sheet the lookup answers "Client not found", without the rentals or
    the material-orders sheet the client's [containers] or
    [materialOrders] is empty, and the feed holds the orders of the sheet
    that exists.  The lookup is taken with an identifier that converts to
    a string, as it must to be looked up at all. *)
Theorem missing_sheet_reads_as_empty :
  getSheetData (RT := RT) None = Ok [] /\
  (forall (payload id : value) (idText : string) (ss : Spreadsheet) (w : World),
     spreadsheets w SPREADSHEET_ID = Ok ss ->
     Get payload "customerId" = Ok id ->
     String_of id = Ok idText ->
     sheetByName ss SHEET_CUSTOMERS = None ->
     fst (handleGetClientData payload w)
     = Ok (createJsonResponse
             (VObj {[ "status" := VStr "error"; "message" := VStr "Client not found" ]}))) /\
  (forall (payload id : value) (idText : string) (ss : Spreadsheet) (w : World)
          (user : record),
     spreadsheets w SPREADSHEET_ID = Ok ss ->
     Get payload "customerId" = Ok id ->
     String_of id = Ok idText ->
     List.find (matches_customer (String_trim idText))
       (sheet_rows (sheetByName ss SHEET_CUSTOMERS)) = Some user ->
     sheetByName ss SHEET_CONTAINER_RENTALS = None ->
     sheetByName ss SHEET_MATERIAL_ORDERS = None ->
     fst (handleGetClientData payload w)
     = Ok (createJsonResponse
             (VObj {[ "status" := VStr "success";
                      "user" := VObj user;
                      "containers" := VArr [];
                      "materialOrders" := VArr [] ]}))) /\
  (forall (ss : Spreadsheet) (w : World),
     spreadsheets w SPREADSHEET_ID = Ok ss ->
     sheetByName ss SHEET_MATERIAL_ORDERS = None ->
     fst (handleGetAllOrders w)
     = Ok (createJsonResponse
             (VObj {[ "status" := VStr "success";
                      "orders" :=
                        VArr (map VObj
                                (allOrders []
                                   (sheet_rows (sheetByName ss SHEET_CONTAINER_ORDERS)))) ]}))) /\
  (forall (ss : Spreadsheet) (w : World),
     spreadsheets w SPREADSHEET_ID = Ok ss ->
     sheetByName ss SHEET_CONTAINER_ORDERS = None ->
     fst (handleGetAllOrders w)
     = Ok (createJsonResponse
             (VObj {[ "status" := VStr "success";
                      "orders" :=
                        VArr (map VObj
                                (allOrders
                                   (sheet_rows (sheetByName ss SHEET_MATERIAL_ORDERS))
                                   [])) ]}))).
Proof.
  split; [reflexivity|].
  split.
  { intros payload id idText ss w Hss Hid Htext Hmissing.
    apply (handleGetClientData_not_found payload id idText ss w Hss Hid Htext).
    rewrite Hmissing. reflexivity. }
  split.
  { intros payload id idText ss w user Hss Hid Htext Hfind Hrentals Hmaterials.
    rewrite (handleGetClientData_found payload id idText ss w user Hss Hid Htext Hfind).
    rewrite Hrentals, Hmaterials. reflexivity. }
  split.
  - intros ss w Hss Hmissing.
    rewrite (handleGetAllOrders_returns ss w Hss), Hmissing. reflexivity.
  - intros ss w Hss Hmissing.
    rewrite (handleGetAllOrders_returns ss w Hss), Hmissing. reflexivity.
Qed.

(** ** The all-orders feed *)

Lemma field_tag (kind : string) (order : record) (key : string) :
  key <> "orderType" -> field (tag kind order) key = field order key.
Proof.
  intros Hkey. unfold field, tag.
  rewrite lookup_insert_ne by (intros Heq; apply Hkey; symmetry; exact Heq).
  reflexivity.
Qed.

Lemma orderDate_tag (kind : string) (order : record) :
  orderDate (tag kind order) = orderDate order.
Proof.
  unfold orderDate. rewrite !field_tag by discriminate. reflexivity.
Qed.

Lemma tag_orderType (kind : string) (order : record) :
  tag kind order !! "orderType" = Some (VStr kind).
Proof. unfold tag. apply lookup_insert_eq. Qed.

(** On orders with valid dates the comparator is consistent. *)
Lemma newest_first_consistent (orders : list record) :
  (forall order, In order orders -> orderDate order <> None) ->
  consistent_comparator (SortCompare newest_first) orders.
Proof.
  intros Hvalid.
  assert (Hcmp : forall a b, In a orders -> In b orders ->
            exists ta tb, orderDate a = Some ta /\ orderDate b = Some tb
                          /\ SortCompare newest_first a b = (tb - ta)%Z).
  { intros a b Ha Hb. unfold SortCompare, newest_first.
    destruct (orderDate a) as [ta|] eqn:Hta; [|destruct (Hvalid a Ha Hta)].
    destruct (orderDate b) as [tb|] eqn:Htb; [|destruct (Hvalid b Hb Htb)].
    exists ta, tb. repeat split; reflexivity. }
  unfold consistent_comparator. repeat split.
  - intros a Ha. destruct (Hcmp a a Ha Ha) as (ta & tb & H1 & H2 & ->).
    rewrite H1 in H2. injection H2 as ->. lia.
  - intros a b Ha Hb.
    destruct (Hcmp a b Ha Hb) as (ta & tb & H1 & H2 & ->).
    destruct (Hcmp b a Hb Ha) as (tb' & ta' & H3 & H4 & ->).
    rewrite H1 in H4. rewrite H2 in H3. injection H3 as ->. injection H4 as ->. lia.
  - intros a b c Ha Hb Hc.
    destruct (Hcmp a b Ha Hb) as (ta & tb & H1 & H2 & ->).
    destruct (Hcmp b c Hb Hc) as (tb' & tc & H3 & H4 & ->).
    destruct (Hcmp a c Ha Hc) as (ta' & tc' & H5 & H6 & ->).
    rewrite H1 in H5. rewrite H2 in H3. rewrite H4 in H6.
    injection H3 as ->. injection H5 as ->. injection H6 as ->. lia.
  - intros a b c Ha Hb Hc.
    destruct (Hcmp a b Ha Hb) as (ta & tb & H1 & H2 & ->).
    destruct (Hcmp b c Hb Hc) as (tb' & tc & H3 & H4 & ->).
    destruct (Hcmp a c Ha Hc) as (ta' & tc' & H5 & H6 & ->).
    rewrite H1 in H5. rewrite H2 in H3. rewrite H4 in H6.
    injection H3 as ->. injection H5 as ->. injection H6 as ->. lia.
  - intros a b c Ha Hb Hc.
    destruct (Hcmp a b Ha Hb) as (ta & tb & H1 & H2 & ->).
    destruct (Hcmp b c Hb Hc) as (tb' & tc & H3 & H4 & ->).
    destruct (Hcmp a c Ha Hc) as (ta' & tc' & H5 & H6 & ->).
    rewrite H1 in H5. rewrite H2 in H3. rewrite H4 in H6.
    injection H3 as ->. injection H5 as ->. injection H6 as ->. lia.
Qed.

Lemma tagged_orders_valid (materialsData containersData : list record) :
  (forall row, In row (materialsData ++ containersData) -> orderDate row <> None) ->
  forall order,
    In order (map (tag "materials") materialsData ++ map (tag "container") containersData) ->
    orderDate order <> None.
Proof.
  intros Hvalid order Hin.
  apply in_app_or in Hin as [Hin|Hin]; apply in_map_iff in Hin as (row & <- & Hrow);
    rewrite orderDate_tag; apply Hvalid, in_or_app; [left|right]; exact Hrow.
Qed.

(** C5 (amended).  A [getAllOrders] or [getAdminDashboardData] request is
    answered with [{status: "success", orders}] where [orders] has as many
    entries as the two order sheets have rows, holds every material-order
    row tagged [orderType: "materials"] and every container-order row
    tagged [orderType: "container"] and nothing else, and, provided every
    row resolves to a valid date, is in non-increasing order of the
    resolved timestamp: that of the received-date field, or of the
    order-date field when the received date is missing, empty or
    otherwise falsy. *)
Theorem getAllOrders_feed (e : PostEvent) (d : PostData) (payload : value)
    (action : string) (ss : Spreadsheet) (w : World) :
  sort_conforms RT ->
  postData e = Some d ->
  JSON_parse (contents d) = Ok payload ->
  Get payload "action" = Ok (VStr action) ->
  action = "getAllOrders" \/ action = "getAdminDashboardData" ->
  spreadsheets w SPREADSHEET_ID = Ok ss ->
  exists orders : list record,
    fst (doPost e w)
    = Ok (createJsonResponse
            (VObj {[ "status" := VStr "success"; "orders" := VArr (map VObj orders) ]})) /\
    length orders
    = length (sheet_rows (sheetByName ss SHEET_MATERIAL_ORDERS))
      + length (sheet_rows (sheetByName ss SHEET_CONTAINER_ORDERS)) /\
    Permutation orders
      (map (tag "materials") (sheet_rows (sheetByName ss SHEET_MATERIAL_ORDERS))
       ++ map (tag "container") (sheet_rows (sheetByName ss SHEET_CONTAINER_ORDERS))) /\
    (forall row, In row (sheet_rows (sheetByName ss SHEET_MATERIAL_ORDERS)) ->
       In (<["orderType" := VStr "materials"]> row) orders) /\
    (forall row, In row (sheet_rows (sheetByName ss SHEET_CONTAINER_ORDERS)) ->
       In (<["orderType" := VStr "container"]> row) orders) /\
    (forall order, In order orders ->
       order !! "orderType" = Some (VStr "materials")
       \/ order !! "orderType" = Some (VStr "container")) /\
    (forall order, In order orders ->
       orderDate order
       = if ToBoolean (field order COLUMN_RECEIVED_DATE)
         then newDate (field order COLUMN_RECEIVED_DATE)
         else newDate (field order COLUMN_ORDER_DATE)) /\
    ((forall row,
        In row (sheet_rows (sheetByName ss SHEET_MATERIAL_ORDERS)
                ++ sheet_rows (sheetByName ss SHEET_CONTAINER_ORDERS)) ->
        orderDate row <> None) ->
     newest_first_order orders).
Proof.
  intros Hsort Hdata Hparse Haction Hname Hss.
  set (materialsData := sheet_rows (sheetByName ss SHEET_MATERIAL_ORDERS)).
  set (containersData := sheet_rows (sheetByName ss SHEET_CONTAINER_ORDERS)).
  exists (allOrders materialsData containersData).
  destruct (Hsort record newest_first
              (map (tag "materials") materialsData ++ map (tag "container") containersData))
    as [Hperm Hordered].
  fold (allOrders materialsData containersData) in Hperm, Hordered.
  split.
  { rewrite (doPost_reaches_switch e d payload _ _ w Hdata Hparse Haction eq_refl).
    apply try_catch_fst.
    replace (doPost_switch (VStr action) payload) with (handleGetAllOrders (RT := RT))
      by (destruct Hname as [-> | ->]; reflexivity).
    apply (handleGetAllOrders_returns ss (after_banner _ payload w)). exact Hss. }
  split.
  { rewrite (Permutation_length Hperm), length_app, !length_map. reflexivity. }
  split; [exact Hperm|].
  split.
  { intros row Hrow. apply (Permutation_in _ (Permutation_sym Hperm)).
    apply in_or_app. left. apply in_map_iff. exists row. split; [reflexivity|exact Hrow]. }
  split.
  { intros row Hrow. apply (Permutation_in _ (Permutation_sym Hperm)).
    apply in_or_app. right. apply in_map_iff. exists row. split; [reflexivity|exact Hrow]. }
  split.
  { intros order Hin. apply (Permutation_in _ Hperm) in Hin.
    apply in_app_or in Hin as [Hin|Hin]; apply in_map_iff in Hin as (row & <- & _);
      [left|right]; apply tag_orderType. }
  split.
  { intros order _. unfold orderDate, logical_or.
    destruct (ToBoolean (field order COLUMN_RECEIVED_DATE)); reflexivity. }
  intros Hvalid.
  pose proof (tagged_orders_valid materialsData containersData Hvalid) as Htagged.
  specialize (Hordered (newest_first_consistent _ Htagged)).
  intros p q a b Hpq Ha Hb.
  specialize (Hordered p q a b Hpq Ha Hb).
  assert (Hina : In a (allOrders materialsData containersData))
    by (apply list_elem_of_In, list_elem_of_lookup; exists p; exact Ha).
  assert (Hinb : In b (allOrders materialsData containersData))
    by (apply list_elem_of_In, list_elem_of_lookup; exists q; exact Hb).
  apply (Permutation_in _ Hperm), Htagged in Hina.
  apply (Permutation_in _ Hperm), Htagged in Hinb.
  unfold SortCompare, newest_first in Hordered.
  destruct (orderDate a) as [ta|]; [|destruct (Hina eq_refl)].
  destruct (orderDate b) as [tb|]; [|destruct (Hinb eq_refl)].
  simpl in *. apply Z.leb_le. lia.
Qed.

(** ** Notification dispatch *)

Lemma fetches_app (j1 j2 : list Call) : fetches (j1 ++ j2) = fetches j1 ++ fetches j2.
Proof. apply omap_app. Qed.

(** C7.  When either credential is absent from the script properties,
    [handleSendNotification] returns an error envelope at once: it logs,
    reads the two properties, logs the error, and makes no outbound
    request. *)
Theorem handleSendNotification_missing_credentials (payload : value) (w : World) :
  scriptProperties w !! "ONE_SIGNAL_APP_ID" = None
  \/ scriptProperties w !! "ONE_SIGNAL_REST_API_KEY" = None ->
  handleSendNotification payload w
  = (Ok (createJsonResponse
           (VObj {[ "status" := VStr "error";
                    "message" :=
                      VStr "OneSignal App ID or API Key not set in Script Properties." ]})),
     with_journal w
       (journal w
        ++ [ LoggerLog ("Attempting to send notification. Received payload: "
                        +:+ JSON_stringify payload);
             GetProperty "ONE_SIGNAL_APP_ID";
             GetProperty "ONE_SIGNAL_REST_API_KEY";
             LoggerLog "ERROR in handleSendNotification: OneSignal App ID or API Key not set in Script Properties." ]))
  /\ fetches (journal (snd (handleSendNotification payload w))) = fetches (journal w).
Proof.
  intros Habsent.
  assert (Hrun : handleSendNotification payload w
    = (Ok (createJsonResponse
             (VObj {[ "status" := VStr "error";
                      "message" :=
                        VStr "OneSignal App ID or API Key not set in Script Properties." ]})),
       with_journal w
         (journal w
          ++ [ LoggerLog ("Attempting to send notification. Received payload: "
                          +:+ JSON_stringify payload);
               GetProperty "ONE_SIGNAL_APP_ID";
               GetProperty "ONE_SIGNAL_REST_API_KEY";
               LoggerLog "ERROR in handleSendNotification: OneSignal App ID or API Key not set in Script Properties." ]))).
  { unfold handleSendNotification, bind, Logger_log, getProperty. cbn beta iota.
    change (scriptProperties (record_call _ w)) with (scriptProperties w).
    change (scriptProperties (record_call _ (record_call _ w))) with (scriptProperties w).
    assert (Hnot : not_set (scriptProperties w !! "ONE_SIGNAL_APP_ID")
                   || not_set (scriptProperties w !! "ONE_SIGNAL_REST_API_KEY") = true).
    { destruct Habsent as [-> | ->]; [reflexivity|apply orb_true_r]. }
    rewrite Hnot. unfold ret, record_call, with_journal. simpl.
    rewrite <- !app_assoc. reflexivity. }
  split; [exact Hrun|].
  rewrite Hrun. simpl. rewrite fetches_app, app_nil_r. reflexivity.
Qed.

(** With both credentials set, a payload whose fields can be read and a
    [clientId] that converts to a string, the handler runs the [try] block
    after its log line and the two property reads. *)
Lemma handleSendNotification_sends (payload clientId title message : value)
    (externalId appId apiKey : string) (w : World) :
  scriptProperties w !! "ONE_SIGNAL_APP_ID" = Some appId -> appId <> EmptyString ->
  scriptProperties w !! "ONE_SIGNAL_REST_API_KEY" = Some apiKey -> apiKey <> EmptyString ->
  Get payload "clientId" = Ok clientId ->
  Get payload "title" = Ok title ->
  Get payload "message" = Ok message ->
  String_of clientId = Ok externalId ->
  handleSendNotification payload w
  = try_catch
      (handleSendNotification_try clientId
         (notification_of appId externalId title message)
         (options_of apiKey (notification_of appId externalId title message)))
      handleSendNotification_catch
      (record_call (GetProperty "ONE_SIGNAL_REST_API_KEY")
         (record_call (GetProperty "ONE_SIGNAL_APP_ID")
            (record_call
               (LoggerLog ("Attempting to send notification. Received payload: "
                           +:+ JSON_stringify payload)) w))).
Proof.
  intros Happ Happ' Hkey Hkey' HclientId Htitle Hmessage Hexternal.
  unfold handleSendNotification, bind, Logger_log, getProperty, eval. cbn beta iota.
  change (scriptProperties (record_call _ w)) with (scriptProperties w).
  change (scriptProperties (record_call _ (record_call _ w))) with (scriptProperties w).
  rewrite Happ, Hkey. unfold not_set.
  apply String.eqb_neq in Happ', Hkey'. rewrite Happ', Hkey'. cbn beta iota.
  rewrite HclientId, Htitle, Hmessage, Hexternal. reflexivity.
Qed.

(** With both credentials set and a [clientId] that does not convert, the
    handler throws before its [try] block: the notification is never
    built and nothing is sent. *)
Lemma handleSendNotification_throws (payload clientId title message : value)
    (appId apiKey : string) (err : Error) (w : World) :
  scriptProperties w !! "ONE_SIGNAL_APP_ID" = Some appId -> appId <> EmptyString ->
  scriptProperties w !! "ONE_SIGNAL_REST_API_KEY" = Some apiKey -> apiKey <> EmptyString ->
  Get payload "clientId" = Ok clientId ->
  Get payload "title" = Ok title ->
  Get payload "message" = Ok message ->
  String_of clientId = Throw err ->
  handleSendNotification payload w
  = (Throw err,
     with_journal w
       (journal w
        ++ [ LoggerLog ("Attempting to send notification. Received payload: "
                        +:+ JSON_stringify payload);
             GetProperty "ONE_SIGNAL_APP_ID";
             GetProperty "ONE_SIGNAL_REST_API_KEY" ])).
Proof.
  intros Happ Happ' Hkey Hkey' HclientId Htitle Hmessage Hexternal.
  unfold handleSendNotification, bind, Logger_log, getProperty, eval. cbn beta iota.
  change (scriptProperties (record_call _ w)) with (scriptProperties w).
  change (scriptProperties (record_call _ (record_call _ w))) with (scriptProperties w).
  rewrite Happ, Hkey. unfold not_set.
  apply String.eqb_neq in Happ', Hkey'. rewrite Happ', Hkey'. cbn beta iota.
  rewrite HclientId, Htitle, Hmessage, Hexternal.
  unfold record_call, with_journal. simpl. rewrite <- !app_assoc. reflexivity.
Qed.

(** The [try] block makes exactly one request, whatever its outcome. *)
Lemma handleSendNotification_one_request (clientId notification : value)
    (options : FetchOptions) (w : World) :
  fetches (journal (snd (try_catch
                           (handleSendNotification_try clientId notification options)
                           handleSendNotification_catch w)))
  = fetches (journal w) ++ [(ONE_SIGNAL_URL, options)].
Proof.
  unfold try_catch, handleSendNotification_try, handleSendNotification_catch,
    bind, Logger_log, UrlFetchApp_fetch, eval, ret. cbn beta iota.
  change (network (record_call _ w)) with (network w).
  destruct (network w ONE_SIGNAL_URL options) as [[code body]|err]; cbn beta iota;
    cbn [responseCode contentText];
    [destruct (code =? 200)%Z; cbn beta iota;
     [destruct (JSON_parse body) as [parsed|err]; cbn beta iota;
      [destruct (Get parsed "recipients") as [recipients|err]; cbn beta iota;
       [destruct (greater_than_zero recipients) as [[|]|err]; cbn beta iota;
        [destruct (String_of recipients) as [count|err]; cbn beta iota
        |destruct (String_of clientId) as [clientText|err]; cbn beta iota
        |]
       |]
      |]
     |]
    |];
    cbn [snd journal record_call];
    rewrite !fetches_app; cbn [fetches omap];
    rewrite ?app_nil_r; reflexivity.
Qed.

(** The reply of the [try]/[catch] pair, by the outcome of the request. *)
Lemma handleSendNotification_reply (clientId notification : value)
    (options : FetchOptions) (w : World) :
  fst (try_catch (handleSendNotification_try clientId notification options)
         handleSendNotification_catch w)
  = let failed (err : Error) :=
      Ok (createJsonResponse
            (VObj {[ "status" := VStr "error";
                     "message" := VStr ("Failed to send notification due to a script error: "
                                        +:+ Error_toString err) ]})) in
    match network w ONE_SIGNAL_URL options with
    | Throw err => failed err
    | Ok response =>
        if (responseCode response =? 200)%Z then
          match JSON_parse (contentText response) with
          | Throw err => failed err
          | Ok parsedBody =>
              match Get parsedBody "recipients" with
              | Throw err => failed err
              | Ok recipients =>
                  match greater_than_zero recipients with
                  | Throw err => failed err
                  | Ok true =>
                      match String_of recipients with
                      | Throw err => failed err
                      | Ok count =>
                          Ok (createJsonResponse
                                (VObj {[ "status" := VStr "success";
                                         "message" :=
                                           VStr ("Notification sent successfully to "
                                                 +:+ count +:+ " recipient(s).") ]}))
                      end
                  | Ok false =>
                      match String_of clientId with
                      | Throw err => failed err
                      | Ok clientText =>
                          Ok (createJsonResponse
                                (VObj {[ "status" := VStr "warning";
                                         "message" :=
                                           VStr ("Notification sent, but no recipients found for Client ID: "
                                                 +:+ clientText
                                                 +:+ ". Please verify the client has enabled notifications and is correctly identified in OneSignal.") ]}))
                      end
                  end
              end
          end
        else
          Ok (createJsonResponse
                (VObj {[ "status" := VStr "error";
                         "message" :=
                           VStr ("Failed to send notification. OneSignal returned status "
                                 +:+ integer_toString (responseCode response)
                                 +:+ ". Details: " +:+ contentText response) ]}))
    end.
Proof.
  unfold try_catch, handleSendNotification_try, handleSendNotification_catch,
    bind, Logger_log, UrlFetchApp_fetch, eval, ret. cbn beta iota zeta.
  change (network (record_call _ w)) with (network w).
  destruct (network w ONE_SIGNAL_URL options) as [response|err]; cbn beta iota;
    [|reflexivity].
  destruct (responseCode response =? 200)%Z; cbn beta iota; [|reflexivity].
  destruct (JSON_parse (contentText response)) as [parsed|err]; cbn beta iota;
    [|reflexivity].
  destruct (Get parsed "recipients") as [recipients|err]; cbn beta iota; [|reflexivity].
  destruct (greater_than_zero recipients) as [[|]|err]; cbn beta iota; [| |reflexivity].
  - destruct (String_of recipients) as [count|err]; reflexivity.
  - destruct (String_of clientId) as [clientText|err]; reflexivity.
Qed.

(** The handler with both credentials set and a [clientId] that converts
    never throws past its own [catch], so the router passes its reply
    on. *)
Lemma doPost_sends (e : PostEvent) (d : PostData)
    (payload clientId title message : value) (externalId appId apiKey : string)
    (w : World) :
  postData e = Some d ->
  JSON_parse (contents d) = Ok payload ->
  Get payload "action" = Ok (VStr "sendNotificationToClient") ->
  Get payload "clientId" = Ok clientId ->
  Get payload "title" = Ok title ->
  Get payload "message" = Ok message ->
  String_of clientId = Ok externalId ->
  scriptProperties w !! "ONE_SIGNAL_APP_ID" = Some appId -> appId <> EmptyString ->
  scriptProperties w !! "ONE_SIGNAL_REST_API_KEY" = Some apiKey -> apiKey <> EmptyString ->
  doPost e w
  = try_catch
      (handleSendNotification_try clientId
         (notification_of appId externalId title message)
         (options_of apiKey (notification_of appId externalId title message)))
      handleSendNotification_catch
      (record_call (GetProperty "ONE_SIGNAL_REST_API_KEY")
         (record_call (GetProperty "ONE_SIGNAL_APP_ID")
            (record_call
               (LoggerLog ("Attempting to send notification. Received payload: "
                           +:+ JSON_stringify payload))
               (after_banner "sendNotificationToClient" payload w)))).
Proof.
  intros Hdata Hparse Haction HclientId Htitle Hmessage Hexternal Happ Happ' Hkey Hkey'.
  set (options := options_of apiKey (notification_of appId externalId title message)).
  rewrite (doPost_reaches_switch e d payload _ _ w Hdata Hparse Haction eq_refl).
  change (doPost_switch (VStr "sendNotificationToClient") payload)
    with (handleSendNotification payload).
  rewrite <- (handleSendNotification_sends payload clientId title message externalId
                appId apiKey
                (after_banner "sendNotificationToClient" payload w)
                Happ Happ' Hkey Hkey' HclientId Htitle Hmessage Hexternal).
  unfold try_catch.
  destruct (handleSendNotification payload _) as [[response|err] w'] eqn:Hhandler;
    [reflexivity|].
  exfalso.
  rewrite (handleSendNotification_sends payload clientId title message externalId
             appId apiKey
             (after_banner "sendNotificationToClient" payload w)
             Happ Happ' Hkey Hkey' HclientId Htitle Hmessage Hexternal) in Hhandler.
  pose proof (handleSendNotification_reply clientId
                (notification_of appId externalId title message) options
                (record_call (GetProperty "ONE_SIGNAL_REST_API_KEY")
                   (record_call (GetProperty "ONE_SIGNAL_APP_ID")
                      (record_call
                         (LoggerLog ("Attempting to send notification. Received payload: "
                                     +:+ JSON_stringify payload))
                         (after_banner "sendNotificationToClient" payload w)))))
    as Hreply.
  fold options in Hhandler. rewrite Hhandler in Hreply. cbn [fst] in Hreply.
  cbn zeta in Hreply.
  repeat match type of Hreply with
  | _ = match ?x with _ => _ end => destruct x
  | _ = if ?x then _ else _ => destruct x
  end; discriminate Hreply.
Qed.

(** C6 (amended).  A [sendNotificationToClient] request with both
    credentials set and a [clientId] that converts to a string makes one
    POST to the provider and answers by its outcome: status 200 with
    [recipients > 0] gives a success envelope naming the recipient count;
    status 200 with [recipients] not above zero, in particular equal to
    zero, gives a warning envelope; any other status gives an error
    envelope holding the status code and the raw body; a transport
    failure, an unparsable body, an unreadable reply or a [recipients]
    that cannot be compared with zero gives an error envelope carrying the
    exception's description. *)
Theorem sendNotification_outcomes (e : PostEvent) (d : PostData)
    (payload clientId title message : value) (externalId appId apiKey : string)
    (w : World) :
  postData e = Some d ->
  JSON_parse (contents d) = Ok payload ->
  Get payload "action" = Ok (VStr "sendNotificationToClient") ->
  Get payload "clientId" = Ok clientId ->
  Get payload "title" = Ok title ->
  Get payload "message" = Ok message ->
  String_of clientId = Ok externalId ->
  scriptProperties w !! "ONE_SIGNAL_APP_ID" = Some appId -> appId <> EmptyString ->
  scriptProperties w !! "ONE_SIGNAL_REST_API_KEY" = Some apiKey -> apiKey <> EmptyString ->
  let options := options_of apiKey (notification_of appId externalId title message) in
  let failed (err : Error) :=
    createJsonResponse
      (VObj {[ "status" := VStr "error";
               "message" := VStr ("Failed to send notification due to a script error: "
                                  +:+ Error_toString err) ]}) in
  let warning :=
    createJsonResponse
      (VObj {[ "status" := VStr "warning";
               "message" :=
                 VStr ("Notification sent, but no recipients found for Client ID: "
                       +:+ externalId
                       +:+ ". Please verify the client has enabled notifications and is correctly identified in OneSignal.") ]}) in
  fetches (journal (snd (doPost e w))) = fetches (journal w) ++ [(ONE_SIGNAL_URL, options)] /\
  (forall body parsedBody recipients,
     network w ONE_SIGNAL_URL options = Ok (mkHTTPResponse 200 body) ->
     JSON_parse body = Ok parsedBody ->
     Get parsedBody "recipients" = Ok recipients ->
     greater_than_zero recipients = Ok true ->
     fst (doPost e w)
     = Ok (createJsonResponse
             (VObj {[ "status" := VStr "success";
                      "message" := VStr ("Notification sent successfully to "
                                         +:+ ToString recipients +:+ " recipient(s).") ]}))) /\
  (forall body parsedBody recipients,
     network w ONE_SIGNAL_URL options = Ok (mkHTTPResponse 200 body) ->
     JSON_parse body = Ok parsedBody ->
     Get parsedBody "recipients" = Ok recipients ->
     greater_than_zero recipients = Ok false ->
     fst (doPost e w) = Ok warning) /\
  (forall body parsedBody n,
     network w ONE_SIGNAL_URL options = Ok (mkHTTPResponse 200 body) ->
     JSON_parse body = Ok parsedBody ->
     Get parsedBody "recipients" = Ok (VNum n) ->
     Number_class n = NumZero ->
     fst (doPost e w) = Ok warning) /\
  (forall code body,
     network w ONE_SIGNAL_URL options = Ok (mkHTTPResponse code body) ->
     code <> 200%Z ->
     fst (doPost e w)
     = Ok (createJsonResponse
             (VObj {[ "status" := VStr "error";
                      "message" :=
                        VStr ("Failed to send notification. OneSignal returned status "
                              +:+ integer_toString code +:+ ". Details: " +:+ body) ]}))) /\
  (forall err,
     network w ONE_SIGNAL_URL options = Throw err ->
     fst (doPost e w) = Ok (failed err)) /\
  (forall body err,
     network w ONE_SIGNAL_URL options = Ok (mkHTTPResponse 200 body) ->
     JSON_parse body = Throw err ->
     fst (doPost e w) = Ok (failed err)) /\
  (forall body parsedBody err,
     network w ONE_SIGNAL_URL options = Ok (mkHTTPResponse 200 body) ->
     JSON_parse body = Ok parsedBody ->
     Get parsedBody "recipients" = Throw err ->
     fst (doPost e w) = Ok (failed err)) /\
  (forall body parsedBody recipients err,
     network w ONE_SIGNAL_URL options = Ok (mkHTTPResponse 200 body) ->
     JSON_parse body = Ok parsedBody ->
     Get parsedBody "recipients" = Ok recipients ->
     greater_than_zero recipients = Throw err ->
     fst (doPost e w) = Ok (failed err)).
Proof.
  intros Hdata Hparse Haction HclientId Htitle Hmessage Hexternal Happ Happ' Hkey Hkey'
    options failed warning.
  rewrite (doPost_sends e d payload clientId title message externalId appId apiKey w
             Hdata Hparse Haction HclientId Htitle Hmessage Hexternal
             Happ Happ' Hkey Hkey').
  fold options.
  split.
  { rewrite handleSendNotification_one_request.
    cbn [journal record_call after_banner]. rewrite !fetches_app. simpl.
    rewrite !app_nil_r. reflexivity. }
  rewrite handleSendNotification_reply. cbn zeta.
  change (network (record_call _ (record_call _ (record_call _ (after_banner _ payload w)))))
    with (network w).
  repeat split.
  - intros body parsed recipients -> Hbody Hrecipients Hpositive. cbn.
    rewrite Hbody, Hrecipients, Hpositive.
    rewrite (greater_than_zero_converts _ _ Hpositive). reflexivity.
  - intros body parsed recipients -> Hbody Hrecipients Hpositive. cbn.
    rewrite Hbody, Hrecipients, Hpositive, Hexternal. reflexivity.
  - intros body parsed n -> Hbody Hrecipients Hzero. cbn.
    rewrite Hbody, Hrecipients. unfold greater_than_zero. rewrite Hzero, Hexternal.
    reflexivity.
  - intros code body -> Hcode. cbn.
    apply Z.eqb_neq in Hcode. rewrite Hcode. reflexivity.
  - intros err ->. reflexivity.
  - intros body err -> Hbody. cbn. rewrite Hbody. reflexivity.
  - intros body parsed err -> Hbody Hrecipients. cbn.
    rewrite Hbody, Hrecipients. reflexivity.
  - intros body parsed recipients err -> Hbody Hrecipients Hthrows. cbn.
    rewrite Hbody, Hrecipients, Hthrows. reflexivity.
Qed.

End Properties.

(** * The test runtime conforms *)

Section InsertionSort.

Context {A : Type} (cmp : A -> A -> Z) (S : list A).
Hypothesis Hconsistent : consistent_comparator cmp S.

Lemma consistent_lt_gt (a b : A) :
  In a S -> In b S -> (cmp a b < 0)%Z -> (cmp b a > 0)%Z.
Proof.
  destruct Hconsistent as (Hrefl & Hsym & _ & Hlt & _).
  intros Ha Hb Hab.
  destruct (Z.lt_trichotomy (cmp b a) 0) as [Hba|[Hba|Hba]]; [| |lia].
  - pose proof (Hlt a b a Ha Hb Ha Hab Hba) as Haa.
    rewrite (Hrefl a Ha) in Haa. lia.
  - pose proof (Hsym b a Hb Ha Hba). lia.
Qed.

Lemma consistent_gt_lt (a b : A) :
  In a S -> In b S -> (cmp a b > 0)%Z -> (cmp b a < 0)%Z.
Proof.
  destruct Hconsistent as (Hrefl & Hsym & _ & _ & Hgt).
  intros Ha Hb Hab.
  destruct (Z.lt_trichotomy (cmp b a) 0) as [Hba|[Hba|Hba]]; [lia| |].
  - pose proof (Hsym b a Hb Ha Hba). lia.
  - pose proof (Hgt a b a Ha Hb Ha Hab ltac:(lia)) as Haa.
    rewrite (Hrefl a Ha) in Haa. lia.
Qed.

(** [x] may stand before [y], and [y] before [z], so [x] before [z]. *)
Lemma consistent_before (x y z : A) :
  In x S -> In y S -> In z S ->
  (cmp x y <= 0)%Z -> ~ (cmp z y < 0)%Z -> ~ (cmp z x < 0)%Z.
Proof.
  destruct Hconsistent as (Hrefl & Hsym & Htrans & Hlt & Hgt).
  intros Hx Hy Hz Hxy Hzy Hzx.
  destruct (Z.lt_trichotomy (cmp x y) 0) as [Hxy'|[Hxy'|Hxy']]; [| |lia].
  - apply Hzy. exact (Hlt z x y Hz Hx Hy Hzx Hxy').
  - destruct (Z.lt_trichotomy (cmp z y) 0) as [Hzy'|[Hzy'|Hzy']]; [lia| |].
    + pose proof (Hsym x y Hx Hy Hxy') as Hyx.
      pose proof (Htrans z y x Hz Hy Hx Hzy' Hyx). lia.
    + pose proof (consistent_gt_lt z y Hz Hy ltac:(lia)) as Hyz.
      pose proof (Hlt y z x Hy Hz Hx Hyz Hzx) as Hyx.
      pose proof (Hsym x y Hx Hy Hxy'). lia.
Qed.

Lemma insert_ordered_Permutation (x : A) (l : list A) :
  Permutation (insert_ordered cmp x l) (x :: l).
Proof.
  induction l as [|y l IH]; simpl; [reflexivity|].
  destruct (cmp x y <=? 0)%Z; [reflexivity|].
  rewrite IH. apply perm_swap.
Qed.

Lemma insert_ordered_sorted (x : A) (l : list A) :
  In x S -> (forall y, In y l -> In y S) ->
  StronglySorted (fun a b => ~ (cmp b a < 0)%Z) l ->
  StronglySorted (fun a b => ~ (cmp b a < 0)%Z) (insert_ordered cmp x l).
Proof.
  intros Hx. induction l as [|y l IH]; intros Hl Hsorted; simpl.
  - constructor; constructor.
  - apply StronglySorted_inv in Hsorted as [Hrest Hy].
    assert (HyS : In y S) by (apply Hl; left; reflexivity).
    destruct (cmp x y <=? 0)%Z eqn:Hxy.
    + apply Z.leb_le in Hxy. constructor; [constructor; assumption|].
      constructor.
      * intros Hyx. pose proof (consistent_lt_gt y x HyS Hx Hyx). lia.
      * rewrite Forall_forall in Hy |- *. intros z Hz.
        apply (consistent_before x y z Hx HyS);
          [apply Hl; right; apply list_elem_of_In; exact Hz|exact Hxy|].
        apply Hy, Hz.
    + apply Z.leb_gt in Hxy. constructor.
      * apply IH; [intros z Hz; apply Hl; right; exact Hz|exact Hrest].
      * rewrite Forall_forall in Hy |- *. intros z Hz.
        apply list_elem_of_In in Hz.
        apply (Permutation_in _ (insert_ordered_Permutation x l)) in Hz.
        destruct Hz as [<-|Hz]; [lia|apply Hy, list_elem_of_In, Hz].
Qed.

End InsertionSort.

Lemma StronglySorted_lookup {A : Type} (R : A -> A -> Prop) (l : list A) :
  StronglySorted R l ->
  forall p q x y, p < q -> l !! p = Some x -> l !! q = Some y -> R x y.
Proof.
  induction 1 as [|a l Hsorted IH Hall]; intros p q x y Hpq Hp Hq.
  - discriminate Hp.
  - destruct q as [|q]; [lia|]. destruct p as [|p]; simpl in *.
    + injection Hp as <-. rewrite Forall_forall in Hall.
      apply Hall, list_elem_of_lookup. exists q. exact Hq.
    + apply (IH p q); [lia|exact Hp|exact Hq].
Qed.

Lemma insertion_sort_Permutation {A : Type} (comparefn : A -> A -> option Z) (l : list A) :
  Permutation (insertion_sort comparefn l) l.
Proof.
  induction l as [|x l IH]; simpl; [reflexivity|].
  unfold insertion_sort in *. simpl.
  rewrite insert_ordered_Permutation, IH. reflexivity.
Qed.

(** The insertion sort of the test runtime keeps the contract of [sort]. *)
Lemma TestRuntime_sort_conforms (fixture : Fixture) : sort_conforms (TestRuntime fixture).
Proof.
  intros A comparefn l. split; [apply insertion_sort_Permutation|].
  intros Hconsistent.
  assert (Hsorted : forall l', (forall x, In x l' -> In x l) ->
            StronglySorted (fun a b => ~ (SortCompare comparefn b a < 0)%Z)
              (insertion_sort comparefn l')).
  { induction l' as [|x l' IH]; intros Hsub.
    - constructor.
    - unfold insertion_sort. simpl.
      apply (insert_ordered_sorted _ l Hconsistent).
      + apply Hsub. left. reflexivity.
      + intros y Hy.
        apply (Permutation_in _ (insertion_sort_Permutation comparefn l')) in Hy.
        apply Hsub. right. exact Hy.
      + apply IH. intros y Hy. apply Hsub. right. exact Hy. }
  intros p q x y Hpq Hp Hq.
  exact (StronglySorted_lookup _ _ (Hsorted l (fun x Hx => Hx)) p q x y Hpq Hp Hq).
Qed.

(** * The script on the fixtures *)

Section Fixtures.

#[local] Existing Instance shop_runtime.

Lemma doPost_unknown_action_witness :
  doPost (post ping_request) shop_world
  = (Ok (createJsonResponse
           (VObj {[ "status" := VStr "error";
                    "message" := VStr "Unknown action: ping" ]})),
     with_journal shop_world
       [ LoggerLog "API v1.3 Running...";
         LoggerLog ("Received action: ping with payload: "
                    +:+ JSON_stringify (object_of ping_request));
         LoggerLog "Error: Unknown action requested: ping" ]).
Proof.
  apply (doPost_unknown_action (post ping_request)
           (mkPostData (json_object ping_request)) (object_of ping_request) "ping"
           shop_world).
  - reflexivity.
  - reflexivity.
  - reflexivity.
  - unfold known_actions. simpl. intuition discriminate.
Defined.

Lemma doPost_catches_everything_witness :
  fst (doPost (mkPostEvent (Some (mkPostData "oops"))) shop_world)
  = Ok (createJsonResponse
          (VObj {[ "status" := VStr "error";
                   "message" :=
                     VStr "Invalid request or server error: SyntaxError: Unexpected token in JSON" ]}))
  /\ fst (doPost (post all_orders_request) locked_world)
     = Ok (createJsonResponse
             (VObj {[ "status" := VStr "error";
                      "message" :=
                        VStr "Invalid request or server error: Exception: You do not have permission to access the requested document." ]})).
Proof.
  split.
  - apply (proj1 (proj2 (doPost_catches_everything
                           (mkPostEvent (Some (mkPostData "oops"))) shop_world))
             (mkPostData "oops") (mkError "SyntaxError" "Unexpected token in JSON"));
      reflexivity.
  - eapply (proj1 (proj2 (proj2 (doPost_catches_everything
                                   (post all_orders_request) locked_world)))
              (mkError "Exception" "You do not have permission to access the requested document.")).
    reflexivity.
Defined.

Lemma getClientData_found_witness :
  exists user : gmap string (value (option Z)),
    fst (doPost (post client_by_phone_request) shop_world)
    = Ok (createJsonResponse
            (VObj {[ "status" := VStr "success";
                     "user" := VObj user;
                     "containers" :=
                       VArr (map VObj
                               (List.filter (belongs_to "123")
                                  (sheet_rows (Some rentals_sheet))));
                     "materialOrders" :=
                       VArr (map VObj
                               (List.filter (belongs_to "123")
                                  (sheet_rows (Some material_orders_sheet)))) ]}))
    /\ user !! "name" = Some (VStr "Dana").
Proof.
  unshelve epose proof
    (getClientData_found (post client_by_phone_request)
       (mkPostData (json_object client_by_phone_request))
       (object_of client_by_phone_request) (VStr "050-1234567") "050-1234567"
       shop_spreadsheet shop_world _ _ _ _ _ _ _) as Hfound;
    [reflexivity|reflexivity|reflexivity|reflexivity|reflexivity|reflexivity| |].
  - exists (nth 0 (sheet_rows (Some customers_sheet)) ∅).
    split; [left; reflexivity|right; reflexivity].
  - destruct Hfound
      as (user & before & after & containers & materialOrders
          & Hsplit & _ & Hfirst & -> & -> & _ & _ & Hreply).
    assert (Huser : user = nth 0 (sheet_rows (Some customers_sheet)) ∅).
    { destruct before as [|row before].
      - injection Hsplit as Hhead _. symmetry. exact Hhead.
      - exfalso. apply (Hfirst row); [left; reflexivity|].
        injection Hsplit as Hhead _. rewrite <- Hhead.
        right. reflexivity. }
    exists user. split.
    + rewrite Hreply, Huser. reflexivity.
    + rewrite Huser. reflexivity.
Defined.

Lemma getClientData_not_found_witness :
  fst (doPost (post unknown_client_request) shop_world)
  = Ok (createJsonResponse
          (VObj {[ "status" := VStr "error"; "message" := VStr "Client not found" ]})).
Proof.
  unshelve epose proof
    (getClientData_not_found (post unknown_client_request)
       (mkPostData (json_object unknown_client_request))
       (object_of unknown_client_request) (VStr "999") "999"
       shop_spreadsheet shop_world _ _ _ _ _ _ _) as Hmissing;
    [reflexivity|reflexivity|reflexivity|reflexivity|reflexivity|reflexivity| |].
  - intros row [<-|[<-|[]]] [Hnumber|Hphone]; vm_compute in *; discriminate.
  - destruct Hmissing as (envelope & Hreply & -> & _). exact Hreply.
Defined.

Lemma getAllOrders_feed_witness :
  exists orders : list (gmap string (value (option Z))),
    fst (doPost (post all_orders_request) shop_world)
    = Ok (createJsonResponse
            (VObj {[ "status" := VStr "success"; "orders" := VArr (map VObj orders) ]}))
    /\ length orders = 3
    /\ newest_first_order orders.
Proof.
  unshelve epose proof
    (getAllOrders_feed (post all_orders_request)
       (mkPostData (json_object all_orders_request))
       (object_of all_orders_request) "getAllOrders"
       shop_spreadsheet shop_world (TestRuntime_sort_conforms shop_fixture) _ _ _ _ _)
    as Hfeed;
    [reflexivity|reflexivity|reflexivity|left; reflexivity|reflexivity|].
  destruct Hfeed as (orders & Hreply & Hlength & _ & _ & _ & _ & _ & Hordered).
  exists orders. split; [exact Hreply|]. split; [exact Hlength|].
  apply Hordered.
  intros row [<-|[<-|[<-|[]]]]; vm_compute; discriminate.
Defined.

Lemma handleSendNotification_missing_credentials_witness :
  fetches (journal (snd (handleSendNotification (object_of notify_request)
                           unconfigured_world))) = [].
Proof.
  apply (proj2 (handleSendNotification_missing_credentials
                  (object_of notify_request) unconfigured_world
                  (or_introl eq_refl))).
Defined.

Lemma getSheetData_records_witness :
  exists records : list (gmap string (value (option Z))),
    getSheetData (Some customers_sheet) = Ok records /\ length records = 2.
Proof.
  destruct (proj2 (getSheetData_records customers_sheet) 2 eq_refl (le_S _ _ (le_n 1)))
    as (records & Hrows & Hlength & _).
  exists records. split; [exact Hrows|exact Hlength].
Defined.

Lemma handleUpdateOrderStatus_is_a_stub_witness :
  doPost (post update_request) shop_world
  = (Ok (createJsonResponse
           (VObj {[ "status" := VStr "success";
                    "message" := VStr "Status updated successfully (simulation)." ]})),
     with_journal shop_world
       [ LoggerLog "API v1.3 Running...";
         LoggerLog ("Received action: updateOrderStatus with payload: "
                    +:+ JSON_stringify (object_of update_request)) ]).
Proof.
  apply (proj2 handleUpdateOrderStatus_is_a_stub (post update_request)
           (mkPostData (json_object update_request)) (object_of update_request)
           shop_world); reflexivity.
Defined.

Lemma missing_sheet_reads_as_empty_witness :
  fst (handleGetAllOrders undated_world)
  = Ok (createJsonResponse
          (VObj {[ "status" := VStr "success";
                   "orders" :=
                     VArr (map VObj
                             (allOrders (sheet_rows (Some undated_orders_sheet)) [])) ]})).
Proof.
  apply (proj2 (proj2 (proj2 (proj2 missing_sheet_reads_as_empty)))
           undated_spreadsheet undated_world); reflexivity.
Defined.

Lemma timestamp_ge_invalid (t : option Z) : timestamp_ge t None = false.
Proof. destruct t; reflexivity. Qed.

(** C5, as stated, fails: with an order that has neither date the
    comparator yields NaN against it, and the feed comes back in sheet
    order, the January order ahead of the March one.  No rearrangement of
    these orders is in non-increasing order of the timestamp, one of the
    timestamps being NaN. *)
Lemma getAllOrders_feed_counterexample :
  fst (doPost (post all_orders_request) undated_world)
  = Ok (createJsonResponse
          (VObj {[ "status" := VStr "success";
                   "orders" := VArr (map VObj undated_feed) ]}))
  /\ allOrders (sheet_rows (Some undated_orders_sheet)) (sheet_rows None) = undated_feed
  /\ map orderDate undated_feed = [ Some 1704067200000%Z; None; Some 1709251200000%Z ]
  /\ ~ newest_first_order undated_feed
  /\ (forall orders, Permutation orders undated_feed -> ~ newest_first_order orders).
Proof.
  split; [vm_compute; reflexivity|].
  split; [vm_compute; reflexivity|].
  split; [vm_compute; reflexivity|].
  split.
  - intros Hordered.
    specialize (Hordered 0 2 _ _ (le_S _ _ (le_n 1)) eq_refl eq_refl).
    vm_compute in Hordered. discriminate Hordered.
  - intros orders Hperm Hordered.
    pose proof (Permutation_length Hperm) as Hlength.
    assert (Hundated : exists order, In order orders /\ orderDate order = None).
    { exists (nth 1 undated_feed ∅). split; [|vm_compute; reflexivity].
      apply (Permutation_in _ (Permutation_sym Hperm)). right. left. reflexivity. }
    destruct Hundated as (order & Hin & Hdate).
    apply list_elem_of_In, list_elem_of_lookup in Hin as [i Hi].
    destruct orders as [|a [|b [|c [|]]]]; try discriminate Hlength.
    destruct i as [|[|[|i]]]; simpl in Hi; try discriminate Hi; injection Hi as ->.
    + specialize (Hordered 0 1 order b (le_n 1) eq_refl eq_refl).
      rewrite Hdate in Hordered. discriminate Hordered.
    + specialize (Hordered 0 1 a order (le_n 1) eq_refl eq_refl).
      rewrite Hdate, timestamp_ge_invalid in Hordered. discriminate Hordered.
    + specialize (Hordered 0 2 a order (le_S _ _ (le_n 1)) eq_refl eq_refl).
      rewrite Hdate, timestamp_ge_invalid in Hordered. discriminate Hordered.
Qed.

(** C8.  The key set of a row object is meant to be the set of header-row
    strings: [rowObject[header] = ...] assigns under every header.  Under
    a column headed [__proto__] the assignment creates no property, and
    the row object is left without that key: a sheet with the header row
    [__proto__, name] and the data row [x, Dana] gives the one row object
    [{name: "Dana"}]. *)
Lemma getSheetData_drops_the_proto_column :
  getSheetData (Some proto_sheet) = Ok [ {[ "name" := VStr "Dana" ]} ]
  /\ header_keys proto_sheet = {[ "__proto__"; "name" ]}
  /\ dom ({[ "name" := VStr "Dana" ]} : gmap string (value (option Z)))
     <> header_keys proto_sheet.
Proof.
  assert (Hkeys : header_keys proto_sheet = {[ "__proto__"; "name" ]}).
  { unfold header_keys. cbn. set_solver. }
  split; [vm_compute; reflexivity|].
  split; [exact Hkeys|].
  rewrite Hkeys, dom_singleton_L. intros Heq.
  assert (Hin : "__proto__" ∈ ({[ "name" ]} : gset string))
    by (rewrite Heq; set_solver).
  apply elem_of_singleton in Hin. discriminate Hin.
Qed.

End Fixtures.

(** * Further properties of the script *)

Section Further.

Context {number : Type} {RT : Runtime number}.

Local Abbreviation value := (value number).
Local Abbreviation record := (gmap string value).
Local Abbreviation Sheet := (Sheet number).
Local Abbreviation Spreadsheet := (Spreadsheet number).
Local Abbreviation World := (World number).
Local Abbreviation M := (M number).
Local Abbreviation emits P m := (@emits number P _ m).
Local Abbreviation one_shot m := (@one_shot number _ m).
Local Abbreviation replies P m := (@replies number P m).
Local Abbreviation tidy m := (@tidy number _ m).

(** ** What a computation adds to the journal *)

Lemma calls_made_app {A : Type} (m : M A) (w : World) (calls : list Call) :
  journal (snd (m w)) = journal w ++ calls -> calls_made m w = calls.
Proof. intros Hrun. unfold calls_made. rewrite Hrun. apply drop_app_length. Qed.

Lemma emits_ret (P : Call -> Prop) {A : Type} (a : A) : emits P (ret a).
Proof. intros w. exists []. split; [symmetry; apply app_nil_r|constructor]. Qed.

Lemma emits_eval (P : Call -> Prop) {A : Type} (r : Result A) : emits P (eval r).
Proof. intros w. exists []. split; [symmetry; apply app_nil_r|constructor]. Qed.

Lemma emits_bind (P : Call -> Prop) {A B : Type} (m : M A) (k : A -> M B) :
  emits P m -> (forall a, emits P (k a)) -> emits P (bind m k).
Proof.
  intros Hm Hk w. destruct (Hm w) as (calls & Hrun & Hcalls).
  unfold bind. destruct (m w) as [[a|err] w1]; simpl in *.
  - destruct (Hk a w1) as (calls' & Hrun' & Hcalls').
    exists (calls ++ calls'). split.
    + rewrite Hrun', Hrun, app_assoc. reflexivity.
    + apply Forall_app. split; assumption.
  - exists calls. split; assumption.
Qed.

Lemma emits_try_catch (P : Call -> Prop) {A : Type} (body : M A) (handler : Error -> M A) :
  emits P body -> (forall e, emits P (handler e)) -> emits P (try_catch body handler).
Proof.
  intros Hm Hk w. destruct (Hm w) as (calls & Hrun & Hcalls).
  unfold try_catch. destruct (body w) as [[a|err] w1]; simpl in *.
  - exists calls. split; assumption.
  - destruct (Hk err w1) as (calls' & Hrun' & Hcalls').
    exists (calls ++ calls'). split.
    + rewrite Hrun', Hrun, app_assoc. reflexivity.
    + apply Forall_app. split; assumption.
Qed.

Lemma emits_call (P : Call -> Prop) {A : Type} (c : Call) (result : World -> Result A) :
  P c -> emits P (fun w => (result w, record_call c w)).
Proof.
  intros Hc w. exists [c]. split; [reflexivity|]. constructor; [exact Hc|constructor].
Qed.

Lemma emits_weaken (P Q : Call -> Prop) {A : Type} (m : M A) :
  (forall c, P c -> Q c) -> emits P m -> emits Q m.
Proof.
  intros HPQ Hm w. destruct (Hm w) as (calls & Hrun & Hcalls).
  exists calls. split; [exact Hrun|]. eapply Forall_impl; eassumption.
Qed.

Ltac call_ok := simpl; repeat split; auto 10.

Ltac emits_leaf :=
  first
    [ apply emits_ret
    | apply emits_eval
    | apply (emits_call _ (LoggerLog _) (fun _ => Ok tt)); call_ok
    | apply (emits_call _ (OpenById _) (fun w => spreadsheets w _)); call_ok
    | apply (emits_call _ (GetSheetByName _) (fun _ => Ok _)); call_ok
    | apply (emits_call _ (GetProperty _) (fun w => Ok (scriptProperties w !! _))); call_ok
    | apply (emits_call _ (UrlFetch _ _) (fun w => network w _ _)); call_ok ].

Ltac emits_steps :=
  repeat first
    [ solve [emits_leaf]
    | apply emits_bind; [|intros ?]
    | apply emits_try_catch; [|intros ?]
    | match goal with
      | |- emits _ (if ?b then _ else _) => destruct b
      | |- emits _ (match ?x with _ => _ end) => destruct x
      end ].

Lemma no_fetch_fetches (calls : list Call) : Forall no_fetch calls -> fetches calls = [].
Proof.
  induction 1 as [|c calls Hc _ IH]; [reflexivity|].
  destruct c; simpl in *; try exact IH. destruct Hc.
Qed.

Lemma emits_handleGetClientData (P : Call -> Prop) (payload : value) :
  P (OpenById SPREADSHEET_ID) ->
  (forall name, In name [ SHEET_CUSTOMERS; SHEET_CONTAINER_RENTALS; SHEET_MATERIAL_ORDERS ] ->
     P (GetSheetByName name)) ->
  emits P (handleGetClientData payload).
Proof.
  intros Hopen Hsheet.
  assert (P (GetSheetByName SHEET_CUSTOMERS)) by (apply Hsheet; simpl; auto).
  assert (P (GetSheetByName SHEET_CONTAINER_RENTALS)) by (apply Hsheet; simpl; auto).
  assert (P (GetSheetByName SHEET_MATERIAL_ORDERS)) by (apply Hsheet; simpl; auto).
  unfold handleGetClientData. emits_steps.
Qed.

Lemma emits_handleGetAllOrders (P : Call -> Prop) :
  P (OpenById SPREADSHEET_ID) ->
  (forall name, In name [ SHEET_MATERIAL_ORDERS; SHEET_CONTAINER_ORDERS ] ->
     P (GetSheetByName name)) ->
  emits P handleGetAllOrders.
Proof.
  intros Hopen Hsheet.
  assert (P (GetSheetByName SHEET_MATERIAL_ORDERS)) by (apply Hsheet; simpl; auto).
  assert (P (GetSheetByName SHEET_CONTAINER_ORDERS)) by (apply Hsheet; simpl; auto).
  unfold handleGetAllOrders. emits_steps.
Qed.

Lemma emits_handleSendNotification (payload : value) :
  emits allowed_call (handleSendNotification payload).
Proof.
  unfold handleSendNotification, handleSendNotification_try, handleSendNotification_catch.
  emits_steps.
Qed.

Lemma emits_doPost_catch (P : Call -> Prop) (error : Error) :
  (forall line, P (LoggerLog line)) -> emits P (doPost_catch error).
Proof. intros Hlog. unfold doPost_catch. emits_steps. Qed.

(** ** Which requests reach the network and the store *)

Lemma strict_equals_string_true (v : value) (literal : string) :
  strict_equals_string v literal = true -> v = VStr literal.
Proof.
  destruct v; simpl; try discriminate.
  intros Heq. apply String.eqb_eq in Heq. rewrite Heq. reflexivity.
Qed.

Lemma bind_eval_Ok {A B : Type} (a : A) (k : A -> M B) : bind (eval (Ok a)) k = k a.
Proof. reflexivity. Qed.

Lemma bind_eval_Throw {A B : Type} (err : Error) (k : A -> M B) :
  bind (eval (Throw err)) k = eval (Throw err).
Proof. reflexivity. Qed.

(** Up to the [switch], a request only logs; what it does next is up to
    the action. *)
Lemma emits_doPost (P : Call -> Prop) (e : PostEvent) :
  (forall line, P (LoggerLog line)) ->
  (forall d payload action,
     postData e = Some d ->
     JSON_parse (contents d) = Ok payload ->
     Get payload "action" = Ok action ->
     emits P (doPost_switch action payload)) ->
  emits P (doPost e).
Proof.
  intros Hlog Hswitch. unfold doPost.
  apply emits_bind; [apply (emits_call _ (LoggerLog _) (fun _ => Ok tt)), Hlog|intros _].
  apply emits_try_catch; [|intros err; apply emits_doPost_catch, Hlog].
  unfold doPost_try, postData_contents.
  destruct (postData e) as [d|] eqn:Hdata;
    [|rewrite bind_eval_Throw; apply emits_eval].
  rewrite bind_eval_Ok.
  destruct (JSON_parse (contents d)) as [payload|err] eqn:Hparse;
    [|rewrite bind_eval_Throw; apply emits_eval].
  rewrite bind_eval_Ok.
  destruct (Get payload "action") as [action|err] eqn:Haction;
    [|rewrite bind_eval_Throw; apply emits_eval].
  rewrite bind_eval_Ok.
  destruct (String_of action) as [received|err];
    [|rewrite bind_eval_Throw; apply emits_eval].
  rewrite bind_eval_Ok.
  apply emits_bind; [apply (emits_call _ (LoggerLog _) (fun _ => Ok tt)), Hlog|intros _].
  exact (Hswitch d payload action eq_refl Hparse Haction).
Qed.

(** X1.  The calls of [Logger.log], [SpreadsheetApp.openById],
    [getSheetByName], [getProperty] and [UrlFetchApp.fetch] that a request
    makes take no argument from the request where it matters: the only
    spreadsheet opened is the one of the hard-coded id, the only sheets
    asked for by name are the four named in the script, the only script
    properties read are the two credentials, and the only URL fetched is
    the provider's, by POST, as JSON, with HTTP errors muted. *)
Theorem doPost_calls_are_allowed (e : PostEvent) (w : World) :
  journal (snd (doPost e w)) = journal w ++ calls_made (doPost e) w
  /\ Forall allowed_call (calls_made (doPost e) w).
Proof.
  assert (Hemits : emits allowed_call (doPost e)).
  { apply emits_doPost; [intros line; exact I|].
    intros d payload action _ _ _. unfold doPost_switch.
    destruct (strict_equals_string action "getClientData");
      [apply emits_handleGetClientData; [reflexivity|simpl; intuition]|].
    destruct (strict_equals_string action "getAdminDashboardData"
              || strict_equals_string action "getAllOrders");
      [apply emits_handleGetAllOrders; [reflexivity|simpl; intuition]|].
    destruct (strict_equals_string action "updateOrderStatus");
      [unfold handleUpdateOrderStatus; apply emits_ret|].
    destruct (strict_equals_string action "sendNotificationToClient");
      [apply emits_handleSendNotification|].
    emits_steps. }
  destruct (Hemits w) as (calls & Hrun & Hcalls).
  rewrite (calls_made_app _ _ _ Hrun). split; assumption.
Qed.

(** X2.  Only a [sendNotificationToClient] request reaches the network:
    a request whose body does not parse, or whose action is anything else,
    makes no outbound request. *)
Theorem only_notifications_reach_the_network (e : PostEvent) (w : World) :
  (forall d payload,
     postData e = Some d ->
     JSON_parse (contents d) = Ok payload ->
     Get payload "action" <> Ok (VStr "sendNotificationToClient")) ->
  fetches (calls_made (doPost e) w) = []
  /\ fetches (journal (snd (doPost e w))) = fetches (journal w).
Proof.
  intros Hother.
  assert (Hemits : emits no_fetch (doPost e)).
  { apply emits_doPost; [intros line; exact I|].
    intros d payload action Hdata Hparse Haction.
    unfold doPost_switch.
    repeat first
      [ apply emits_handleGetClientData; [exact I|intros; exact I]
      | apply emits_handleGetAllOrders; [exact I|intros; exact I]
      | match goal with
        | |- emits _ (if strict_equals_string action "sendNotificationToClient"
                      then _ else _) =>
            destruct (strict_equals_string action "sendNotificationToClient") eqn:Hsend;
            [exfalso; apply strict_equals_string_true in Hsend;
             apply (Hother d payload Hdata Hparse); rewrite Haction, Hsend; reflexivity|]
        | |- emits _ (if ?b then _ else _) => destruct b
        end
      | solve [emits_leaf]
      | apply emits_bind; [|intros ?] ]. }
  destruct (Hemits w) as (calls & Hrun & Hcalls).
  rewrite (calls_made_app _ _ _ Hrun), Hrun, fetches_app, (no_fetch_fetches _ Hcalls).
  split; [reflexivity|apply app_nil_r].
Qed.

(** X3.  Only the three query actions touch the spreadsheet: a request
    whose body does not parse, or whose action is not [getClientData],
    [getAllOrders] or [getAdminDashboardData], opens no spreadsheet and
    fetches no sheet. *)
Theorem only_queries_touch_the_spreadsheet (e : PostEvent) (w : World) :
  (forall d payload name,
     postData e = Some d ->
     JSON_parse (contents d) = Ok payload ->
     In name [ "getClientData"; "getAllOrders"; "getAdminDashboardData" ] ->
     Get payload "action" <> Ok (VStr name)) ->
  Forall no_sheet_access (calls_made (doPost e) w).
Proof.
  intros Hother.
  assert (Hemits : emits no_sheet_access (doPost e)).
  { apply emits_doPost; [intros line; exact I|].
    intros d payload action Hdata Hparse Haction.
    assert (Hnot : forall name,
              In name [ "getClientData"; "getAllOrders"; "getAdminDashboardData" ] ->
              strict_equals_string action name = false).
    { intros name Hname.
      destruct (strict_equals_string action name) eqn:Heq; [|reflexivity].
      exfalso. apply strict_equals_string_true in Heq.
      apply (Hother d payload name Hdata Hparse Hname). rewrite Haction, Heq. reflexivity. }
    unfold doPost_switch.
    rewrite !Hnot by (simpl; auto). cbn [orb].
    unfold handleUpdateOrderStatus, handleSendNotification,
      handleSendNotification_try, handleSendNotification_catch.
    emits_steps. }
  destruct (Hemits w) as (calls & Hrun & Hcalls).
  rewrite (calls_made_app _ _ _ Hrun). exact Hcalls.
Qed.

(** ** At most one outbound request *)

Lemma one_shot_of_quiet {A : Type} (m : M A) : emits no_fetch m -> one_shot m.
Proof.
  intros Hm w. destruct (Hm w) as (calls & Hrun & Hcalls).
  exists calls. split; [exact Hrun|]. rewrite (no_fetch_fetches _ Hcalls). simpl. lia.
Qed.

Lemma one_shot_bind_after {A B : Type} (m : M A) (k : A -> M B) :
  emits no_fetch m -> (forall a, one_shot (k a)) -> one_shot (bind m k).
Proof.
  intros Hm Hk w. destruct (Hm w) as (calls & Hrun & Hcalls).
  unfold bind. destruct (m w) as [[a|err] w1]; simpl in *.
  - destruct (Hk a w1) as (calls' & Hrun' & Hcalls').
    exists (calls ++ calls'). split.
    + rewrite Hrun', Hrun, app_assoc. reflexivity.
    + rewrite fetches_app, (no_fetch_fetches _ Hcalls). exact Hcalls'.
  - exists calls. split; [exact Hrun|]. rewrite (no_fetch_fetches _ Hcalls). simpl. lia.
Qed.

Lemma one_shot_bind_before {A B : Type} (m : M A) (k : A -> M B) :
  one_shot m -> (forall a, emits no_fetch (k a)) -> one_shot (bind m k).
Proof.
  intros Hm Hk w. destruct (Hm w) as (calls & Hrun & Hcalls).
  unfold bind. destruct (m w) as [[a|err] w1]; simpl in *.
  - destruct (Hk a w1) as (calls' & Hrun' & Hcalls').
    exists (calls ++ calls'). split.
    + rewrite Hrun', Hrun, app_assoc. reflexivity.
    + rewrite fetches_app, (no_fetch_fetches _ Hcalls'), app_nil_r. exact Hcalls.
  - exists calls. split; assumption.
Qed.

Lemma one_shot_try_catch {A : Type} (body : M A) (handler : Error -> M A) :
  one_shot body -> (forall e, emits no_fetch (handler e)) -> one_shot (try_catch body handler).
Proof.
  intros Hm Hk w. destruct (Hm w) as (calls & Hrun & Hcalls).
  unfold try_catch. destruct (body w) as [[a|err] w1]; simpl in *.
  - exists calls. split; assumption.
  - destruct (Hk err w1) as (calls' & Hrun' & Hcalls').
    exists (calls ++ calls'). split.
    + rewrite Hrun', Hrun, app_assoc. reflexivity.
    + rewrite fetches_app, (no_fetch_fetches _ Hcalls'), app_nil_r. exact Hcalls.
Qed.

Lemma one_shot_fetch (url : string) (params : FetchOptions) :
  one_shot (UrlFetchApp_fetch url params).
Proof. intros w. exists [UrlFetch url params]. split; [reflexivity|simpl; lia]. Qed.

Lemma one_shot_handleSendNotification (payload : value) :
  one_shot (handleSendNotification payload).
Proof.
  unfold handleSendNotification.
  repeat (apply one_shot_bind_after; [solve [emits_steps]|intros ?]).
  match goal with |- one_shot (if ?b then _ else _) => destruct b end;
    [apply one_shot_of_quiet; emits_steps|].
  repeat (apply one_shot_bind_after; [solve [emits_steps]|intros ?]).
  apply one_shot_try_catch;
    [|intros err; unfold handleSendNotification_catch; emits_steps].
  unfold handleSendNotification_try.
  apply one_shot_bind_after; [solve [emits_steps]|intros _].
  apply one_shot_bind_before; [apply one_shot_fetch|intros response].
  emits_steps.
Qed.

(** X4.  A request makes at most one outbound request, whatever its body,
    its action, the credentials and the replies of the platform. *)
Theorem doPost_at_most_one_request (e : PostEvent) (w : World) :
  length (fetches (calls_made (doPost e) w)) <= 1
  /\ length (fetches (journal (snd (doPost e w)))) <= length (fetches (journal w)) + 1.
Proof.
  assert (Hshot : one_shot (doPost e)).
  { unfold doPost.
    apply one_shot_bind_after; [solve [emits_steps]|intros _].
    apply one_shot_try_catch; [|intros err; apply emits_doPost_catch; intros; exact I].
    unfold doPost_try.
    repeat (apply one_shot_bind_after; [solve [emits_steps]|intros ?]).
    unfold doPost_switch.
    repeat match goal with
    | |- one_shot (if ?b then _ else _) => destruct b
    end;
      first
        [ apply one_shot_handleSendNotification
        | apply one_shot_of_quiet;
          first [ apply emits_handleGetClientData; [exact I|intros; exact I]
                | apply emits_handleGetAllOrders; [exact I|intros; exact I]
                | unfold handleUpdateOrderStatus; emits_steps ] ]. }
  destruct (Hshot w) as (calls & Hrun & Hcalls).
  rewrite (calls_made_app _ _ _ Hrun), Hrun, fetches_app, length_app.
  split; lia.
Qed.

(** ** The shape of every reply *)

Lemma replies_ret (P : TextOutput -> Prop) (reply : TextOutput) :
  P reply -> replies P (ret reply).
Proof. intros Hreply w r w' [= <- _]. exact Hreply. Qed.

Lemma replies_bind (P : TextOutput -> Prop) {A : Type} (m : M A) (k : A -> M TextOutput) :
  (forall a, replies P (k a)) -> replies P (bind m k).
Proof.
  intros Hk w r w'. unfold bind. destruct (m w) as [[a|err] w1].
  - apply Hk.
  - discriminate.
Qed.

Lemma replies_try_catch (P : TextOutput -> Prop) (body : M TextOutput)
    (handler : Error -> M TextOutput) :
  replies P body -> (forall e, replies P (handler e)) -> replies P (try_catch body handler).
Proof.
  intros Hbody Hhandler w r w'. unfold try_catch.
  destruct (body w) as [[a|err] w1] eqn:Hrun.
  - intros [= <- <-]. exact (Hbody w a w1 Hrun).
  - apply Hhandler.
Qed.

Ltac envelope_ok :=
  eexists _, _; split; [reflexivity|split; [apply lookup_insert_eq|simpl; auto 10]].

Ltac replies_steps :=
  repeat first
    [ apply replies_ret; envelope_ok
    | apply replies_bind; intros ?
    | apply replies_try_catch; [|intros ?]
    | match goal with
      | |- replies _ (if ?b then _ else _) => destruct b
      | |- replies _ (match ?x with _ => _ end) => destruct x
      end ].

(** X5.  Every request is answered, and the answer is an envelope: JSON
    content made from an object whose [status] is ["success"], ["error"]
    or ["warning"]. *)
Theorem doPost_always_replies_with_an_envelope (e : PostEvent) (w : World) :
  exists reply,
    fst (doPost e w) = Ok reply /\ is_envelope reply /\ mimeType reply = MimeJSON.
Proof.
  assert (Hreplies : replies is_envelope (doPost e)).
  { unfold doPost, doPost_try, doPost_switch, doPost_catch,
      handleGetClientData, handleGetAllOrders, handleUpdateOrderStatus,
      handleSendNotification, handleSendNotification_try, handleSendNotification_catch.
    replies_steps. }
  assert (Hreturns : exists reply w', doPost e w = (Ok reply, w')).
  { unfold doPost, bind, Logger_log, try_catch. cbn beta iota.
    destruct (doPost_try e _) as [[reply|err] w1]; [eauto|].
    unfold doPost_catch, bind, Logger_log, ret. eauto. }
  destruct Hreturns as (reply & w' & Hrun).
  exists reply. rewrite Hrun. split; [reflexivity|].
  pose proof (Hreplies w reply w' Hrun) as Henvelope.
  split; [exact Henvelope|].
  destruct Henvelope as (envelope & status & -> & _). reflexivity.
Qed.

(** ** Bodies without a usable action *)

Lemma strict_equals_string_not_a_string (action : value) (literal : string) :
  (forall s, action <> VStr s) -> strict_equals_string action literal = false.
Proof.
  intros Hnot. destruct action; try reflexivity. destruct (Hnot s eq_refl).
Qed.

(** X6.  A body that parses to anything but [null] and whose [action] is
    not a string (absent, a number, an array, even an array spelling a
    known name) reaches no handler.  When the action converts to a string
    the reply is the error envelope "Unknown action: " followed by that
    string, so "Unknown action: undefined" when there is none.  When it
    does not (an object with an own [toString] key, or an array holding
    one) the conversion throws in the first log line of the [try] block
    and the reply is the error envelope of the [catch] block. *)
Theorem doPost_action_not_a_string (e : PostEvent) (d : PostData)
    (payload action : value) (w : World) :
  postData e = Some d ->
  JSON_parse (contents d) = Ok payload ->
  Get payload "action" = Ok action ->
  (forall s, action <> VStr s) ->
  (forall received,
     String_of action = Ok received ->
     doPost e w
     = (Ok (createJsonResponse
              (VObj {[ "status" := VStr "error";
                       "message" := VStr ("Unknown action: " +:+ received) ]})),
        with_journal w
          (journal w
           ++ [ LoggerLog ("API " +:+ SCRIPT_VERSION +:+ " Running...");
                LoggerLog ("Received action: " +:+ received
                           +:+ " with payload: " +:+ JSON_stringify payload);
                LoggerLog ("Error: Unknown action requested: " +:+ received) ])))
  /\ (forall err,
        String_of action = Throw err ->
        doPost e w
        = (Ok (createJsonResponse
                 (VObj {[ "status" := VStr "error";
                          "message" := VStr ("Invalid request or server error: "
                                             +:+ Error_toString err) ]})),
           with_journal w
             (journal w
              ++ [ LoggerLog ("API " +:+ SCRIPT_VERSION +:+ " Running...");
                   LoggerLog ("Critical Error in doPost: " +:+ Error_toString err) ]))).
Proof.
  intros Hdata Hparse Haction Hnot. split.
  - intros received Hreceived.
    rewrite (doPost_reaches_switch e d payload action received w
               Hdata Hparse Haction Hreceived).
    unfold doPost_switch.
    rewrite !strict_equals_string_not_a_string by exact Hnot.
    unfold try_catch, bind, eval, Logger_log, ret, after_banner, record_call, with_journal.
    rewrite Hreceived. simpl. rewrite <- !app_assoc. reflexivity.
  - intros err Hthrows.
    exact (doPost_action_throws e d payload action err w Hdata Hparse Haction Hthrows).
Qed.

(** X7.  A request without [postData], and a body that is the JSON text
    [null], are answered from the [catch] block: reading [contents], or
    [action], throws a TypeError, the reply is the error envelope
    "Invalid request or server error: " with that error, and nothing but
    the banner and the error is logged. *)
Theorem doPost_without_a_body_object (e : PostEvent) (w : World) :
  postData e = None
  \/ (exists d, postData e = Some d /\ JSON_parse (contents d) = Ok VNull) ->
  exists err : Error,
    error_name err = "TypeError"
    /\ doPost e w
       = (Ok (createJsonResponse
                (VObj {[ "status" := VStr "error";
                         "message" := VStr ("Invalid request or server error: "
                                            +:+ Error_toString err) ]})),
          with_journal w
            (journal w
             ++ [ LoggerLog ("API " +:+ SCRIPT_VERSION +:+ " Running...");
                  LoggerLog ("Critical Error in doPost: " +:+ Error_toString err) ])).
Proof.
  intros [Hdata|(d & Hdata & Hparse)]; eexists; (split; [|
    unfold doPost, doPost_try, doPost_catch, try_catch, bind, eval, Logger_log, ret,
      postData_contents;
    rewrite Hdata; cbn beta iota; try rewrite Hparse;
    unfold record_call, with_journal; simpl;
    rewrite <- !app_assoc; reflexivity]); reflexivity.
Qed.

(** ** The reply depends on the action and the payload only *)

Lemma tidy_doPost_catch (error : Error) : tidy (doPost_catch error).
Proof.
  unfold doPost_catch. apply tidy_bind; [apply tidy_Logger_log|intros _; apply tidy_ret].
Qed.

Lemma tidy_doPost_switch (action payload : value) : tidy (doPost_switch action payload).
Proof.
  unfold doPost_switch.
  destruct (strict_equals_string action "getClientData");
    [apply tidy_handleGetClientData|].
  destruct (strict_equals_string action "getAdminDashboardData"
            || strict_equals_string action "getAllOrders");
    [apply tidy_handleGetAllOrders|].
  destruct (strict_equals_string action "updateOrderStatus");
    [apply tidy_handleUpdateOrderStatus|].
  destruct (strict_equals_string action "sendNotificationToClient");
    [apply tidy_handleSendNotification|].
  repeat first
    [ apply tidy_bind; [|intros ?]
    | apply tidy_eval
    | apply tidy_Logger_log
    | apply tidy_ret ].
Qed.

(** The reply to a request is that of the [switch] run on the world as
    the request found it: the two lines logged before make no
    difference. *)
Lemma doPost_reply (e : PostEvent) (d : PostData) (payload action : value)
    (received : string) (w : World) :
  postData e = Some d ->
  JSON_parse (contents d) = Ok payload ->
  Get payload "action" = Ok action ->
  String_of action = Ok received ->
  fst (doPost e w) = fst (try_catch (doPost_switch action payload) doPost_catch w).
Proof.
  intros Hdata Hparse Haction Hreceived.
  rewrite (doPost_reaches_switch e d payload action received w
             Hdata Hparse Haction Hreceived).
  change (after_banner received payload w)
    with (with_journal w
            ((journal w ++ [LoggerLog ("API " +:+ SCRIPT_VERSION +:+ " Running...")])
             ++ [LoggerLog ("Received action: " +:+ received
                            +:+ " with payload: " +:+ JSON_stringify payload)])).
  apply tidy_outcome, tidy_try_catch; [apply tidy_doPost_switch|apply tidy_doPost_catch].
Qed.

(** X8.  [getAdminDashboardData] and [getAllOrders] are one action: in
    any world, whatever else the two payloads hold, the replies are the
    same, also when the spreadsheet cannot be opened. *)
Theorem dashboard_actions_are_aliases (e1 e2 : PostEvent) (d1 d2 : PostData)
    (payload1 payload2 : value) (w : World) :
  postData e1 = Some d1 ->
  JSON_parse (contents d1) = Ok payload1 ->
  Get payload1 "action" = Ok (VStr "getAllOrders") ->
  postData e2 = Some d2 ->
  JSON_parse (contents d2) = Ok payload2 ->
  Get payload2 "action" = Ok (VStr "getAdminDashboardData") ->
  fst (doPost e1 w) = fst (doPost e2 w).
Proof.
  intros Hdata1 Hparse1 Haction1 Hdata2 Hparse2 Haction2.
  rewrite (doPost_reply e1 d1 payload1 _ _ w Hdata1 Hparse1 Haction1 eq_refl).
  rewrite (doPost_reply e2 d2 payload2 _ _ w Hdata2 Hparse2 Haction2 eq_refl).
  reflexivity.
Qed.

(** ** More on the row normaliser *)

(** X9.  [getSheetData] never throws: the guard on the last row keeps
    both [getRange] calls within a sheet that has a row and a column.  It
    returns one row object for each row below the header, up to the last
    row with content, and none for a missing sheet. *)
Theorem getSheetData_never_throws (sheet : option Sheet) :
  exists records : list record,
    getSheetData sheet = Ok records
    /\ length records
       = match sheet with
         | None => 0
         | Some sheet => getLastRow sheet - 1
         end.
Proof.
  destruct sheet as [sheet|]; [|exists []; split; reflexivity].
  destruct (le_lt_dec 2 (getLastRow sheet)) as [Hrows|Hrows].
  - eexists. split; [apply getSheetData_rows, Hrows|].
    rewrite length_map, length_seq. reflexivity.
  - exists []. split; [apply getSheetData_short, Hrows|]. simpl. lia.
Qed.

Lemma getSheetData_In (sheet : Sheet) (records : list record) (rowObject : record) :
  getSheetData (Some sheet) = Ok records ->
  In rowObject records ->
  exists i, i < getLastRow sheet - 1
            /\ rowObject = forEach_header (header_row sheet) 0 (data_row sheet i) ∅.
Proof.
  intros Hdata Hin.
  destruct (le_lt_dec 2 (getLastRow sheet)) as [Hrows|Hrows].
  - rewrite (getSheetData_rows sheet Hrows) in Hdata. injection Hdata as <-.
    apply in_map_iff in Hin as (i & <- & Hi). apply in_seq in Hi.
    exists i. split; [lia|reflexivity].
  - rewrite (getSheetData_short sheet Hrows) in Hdata. injection Hdata as <-.
    destruct Hin.
Qed.

(** X10.  All row objects read from one sheet have the same key set. *)
Theorem getSheetData_rows_share_their_keys (sheet : option Sheet)
    (records : list record) (row1 row2 : record) :
  getSheetData sheet = Ok records ->
  In row1 records -> In row2 records ->
  dom row1 = dom row2.
Proof.
  intros Hdata Hin1 Hin2.
  destruct sheet as [sheet|]; [|injection Hdata as <-; destruct Hin1].
  destruct (getSheetData_In sheet records row1 Hdata Hin1) as (i1 & _ & ->).
  destruct (getSheetData_In sheet records row2 Hdata Hin2) as (i2 & _ & ->).
  rewrite !forEach_header_dom. reflexivity.
Qed.

Lemma normalizeCell_primitive (c : cell number) : primitive (normalizeCell (Some c)).
Proof. destruct c; exact I. Qed.

Lemma forEach_header_primitive (headers : list (cell number)) :
  forall (index : nat) (row : list (cell number)) (rowObject : record),
    (forall i, i < length headers -> is_Some (row !! (index + i))) ->
    (forall key v, rowObject !! key = Some v -> primitive v) ->
    forall key v,
      forEach_header headers index row rowObject !! key = Some v -> primitive v.
Proof.
  induction headers as [|header rest IH]; intros index row rowObject Hrow Hobject key v;
    simpl.
  - apply Hobject.
  - apply IH.
    + intros i Hi. replace (S index + i) with (index + S i) by lia.
      apply Hrow. simpl. lia.
    + intros key' v'. unfold assign.
      destruct (String.eqb (ToPropertyKey header) "__proto__"); [apply Hobject|].
      destruct (decide (ToPropertyKey header = key')) as [<-|Hne].
      * rewrite lookup_insert_eq. intros [= <-].
        destruct (Hrow 0 ltac:(simpl; lia)) as [c Hc].
        rewrite Nat.add_0_r in Hc. rewrite Hc. apply normalizeCell_primitive.
      * rewrite lookup_insert_ne by exact Hne. apply Hobject.
Qed.

(** X11.  Every field of a row object is a string, a Number or a
    Boolean: no field is [undefined], [null], an object or a Date (a date
    cell has become its ISO string), so the JSON text of a reply drops no
    column. *)
Theorem getSheetData_fields_are_primitive (sheet : option Sheet)
    (records : list record) (rowObject : record) (key : string) (v : value) :
  getSheetData sheet = Ok records ->
  In rowObject records ->
  rowObject !! key = Some v ->
  primitive v.
Proof.
  intros Hdata Hin Hfield.
  destruct sheet as [sheet|]; [|injection Hdata as <-; destruct Hin].
  destruct (getSheetData_In sheet records rowObject Hdata Hin) as (i & _ & ->).
  apply (forEach_header_primitive (header_row sheet) 0 (data_row sheet i) ∅)
    with (key := key);
    [|intros k x Hempty; rewrite lookup_empty in Hempty; discriminate Hempty|exact Hfield].
  intros j Hj. rewrite header_row_length in Hj. rewrite Nat.add_0_l.
  rewrite (data_row_lookup sheet i j Hj). eexists. reflexivity.
Qed.

(** A field of a row object read from a sheet is a primitive, or absent
    and read as [undefined]. *)
Lemma row_field (sheet : option Sheet) (records : list record) (row : record)
    (key : string) :
  getSheetData sheet = Ok records ->
  In row records ->
  primitive (field row key) \/ field row key = VUndefined.
Proof.
  intros Hdata Hin. unfold field.
  destruct (row !! key) as [v|] eqn:Hfield; [left|right; reflexivity].
  destruct sheet as [sheet|]; [|injection Hdata as <-; destruct Hin].
  destruct (getSheetData_In sheet records row Hdata Hin) as (i & _ & ->).
  apply (forEach_header_primitive (header_row sheet) 0 (data_row sheet i) ∅)
    with (key := key);
    [|intros k x Hempty; rewrite lookup_empty in Hempty; discriminate Hempty|exact Hfield].
  intros j Hj. rewrite header_row_length in Hj. rewrite Nat.add_0_l.
  rewrite (data_row_lookup sheet i j Hj). eexists. reflexivity.
Qed.

(** X22.  The conversions the handlers apply to the fields of row objects
    never throw: [String(row[...])] in the callbacks of [find] and
    [filter], and [new Date(order[...] || order[...])] in the comparator
    of the feed, are applied to a string, a Number, a Boolean or
    [undefined], never to an object. *)
Theorem row_fields_convert (sheet : option Sheet) (records : list record)
    (row : record) (key : string) :
  getSheetData sheet = Ok records ->
  In row records ->
  String_of (field row key) = Ok (ToString (field row key))
  /\ conversion_throws
       (logical_or (field row COLUMN_RECEIVED_DATE) (field row COLUMN_ORDER_DATE))
     = false.
Proof.
  intros Hdata Hin.
  assert (Hquiet : forall k, conversion_throws (field row k) = false).
  { intros k. destruct (row_field sheet records row k Hdata Hin) as [Hprimitive| ->];
      [|reflexivity].
    destruct (field row k); simpl in Hprimitive; try destruct Hprimitive; reflexivity. }
  split.
  - unfold String_of. rewrite Hquiet. reflexivity.
  - unfold logical_or. destruct (ToBoolean _); apply Hquiet.
Qed.

(** ** More on the single-client lookup *)

Lemma handleGetClientData_same_id (payload1 payload2 id1 id2 : value)
    (text1 text2 : string) (w : World) :
  Get payload1 "customerId" = Ok id1 ->
  Get payload2 "customerId" = Ok id2 ->
  String_of id1 = Ok text1 ->
  String_of id2 = Ok text2 ->
  String_trim text1 = String_trim text2 ->
  handleGetClientData payload1 w = handleGetClientData payload2 w.
Proof.
  intros Hid1 Hid2 Htext1 Htext2 Htrim.
  unfold handleGetClientData, bind, eval, SpreadsheetApp_openById. cbn beta iota.
  destruct (spreadsheets w SPREADSHEET_ID) as [ss|err]; [|reflexivity].
  cbn beta iota. rewrite Hid1, Hid2, Htext1, Htext2, Htrim. reflexivity.
Qed.

(** X12.  The lookup sees the payload only through [customerId] converted
    to a string and trimmed: two [getClientData] requests whose
    identifiers both convert and agree after that (the Number 123, the
    string "123", the string " 123 ") get the same reply in any world. *)
Theorem getClientData_depends_on_the_trimmed_id (e1 e2 : PostEvent) (d1 d2 : PostData)
    (payload1 payload2 id1 id2 : value) (text1 text2 : string) (w : World) :
  postData e1 = Some d1 ->
  JSON_parse (contents d1) = Ok payload1 ->
  Get payload1 "action" = Ok (VStr "getClientData") ->
  Get payload1 "customerId" = Ok id1 ->
  String_of id1 = Ok text1 ->
  postData e2 = Some d2 ->
  JSON_parse (contents d2) = Ok payload2 ->
  Get payload2 "action" = Ok (VStr "getClientData") ->
  Get payload2 "customerId" = Ok id2 ->
  String_of id2 = Ok text2 ->
  String_trim text1 = String_trim text2 ->
  fst (doPost e1 w) = fst (doPost e2 w).
Proof.
  intros Hdata1 Hparse1 Haction1 Hid1 Htext1 Hdata2 Hparse2 Haction2 Hid2 Htext2 Htrim.
  rewrite (doPost_reply e1 d1 payload1 _ _ w Hdata1 Hparse1 Haction1 eq_refl).
  rewrite (doPost_reply e2 d2 payload2 _ _ w Hdata2 Hparse2 Haction2 eq_refl).
  change (doPost_switch (VStr "getClientData") payload1)
    with (handleGetClientData payload1).
  change (doPost_switch (VStr "getClientData") payload2)
    with (handleGetClientData payload2).
  unfold try_catch.
  rewrite (handleGetClientData_same_id payload1 payload2 id1 id2 text1 text2 w
             Hid1 Hid2 Htext1 Htext2 Htrim).
  reflexivity.
Qed.

Lemma sheet_rows_first (sheet : Sheet) :
  2 <= getLastRow sheet ->
  exists rest,
    sheet_rows (Some sheet)
    = forEach_header (header_row sheet) 0 (data_row sheet 0) ∅ :: rest.
Proof.
  intros Hrows. unfold sheet_rows. rewrite (getSheetData_rows sheet Hrows).
  destruct (getLastRow sheet - 1) as [|n] eqn:Hn; [lia|].
  simpl. eexists. reflexivity.
Qed.

(** X13.  A request without [customerId] looks up the string "undefined",
    and a column the customers sheet does not have reads as "undefined" in
    every row: when the sheet has data rows but no phone column, such a
    request is answered with success and the first customer of the
    sheet. *)
Theorem getClientData_without_id_finds_the_first_customer (e : PostEvent) (d : PostData)
    (payload : value) (ss : Spreadsheet) (sheet : Sheet) (w : World) :
  postData e = Some d ->
  JSON_parse (contents d) = Ok payload ->
  Get payload "action" = Ok (VStr "getClientData") ->
  Get payload "customerId" = Ok VUndefined ->
  spreadsheets w SPREADSHEET_ID = Ok ss ->
  sheetByName ss SHEET_CUSTOMERS = Some sheet ->
  2 <= getLastRow sheet ->
  (forall header, In header (header_row sheet) -> ToPropertyKey header <> COLUMN_PHONE) ->
  let first := forEach_header (header_row sheet) 0 (data_row sheet 0) ∅ in
  let canonical := String_trim (ToString (field first COLUMN_CUSTOMER_NUMBER)) in
  fst (doPost e w)
  = Ok (createJsonResponse
          (VObj {[ "status" := VStr "success";
                   "user" := VObj first;
                   "containers" :=
                     VArr (map VObj
                             (List.filter (belongs_to canonical)
                                (sheet_rows (sheetByName ss SHEET_CONTAINER_RENTALS))));
                   "materialOrders" :=
                     VArr (map VObj
                             (List.filter (belongs_to canonical)
                                (sheet_rows (sheetByName ss SHEET_MATERIAL_ORDERS)))) ]})).
Proof.
  intros Hdata Hparse Haction Hid Hss Hsheet Hrows Hcolumn first canonical.
  rewrite (doPost_reaches_switch e d payload _ _ w Hdata Hparse Haction eq_refl).
  apply try_catch_fst.
  apply (handleGetClientData_found payload VUndefined "undefined" ss
           (after_banner _ payload w) first);
    [exact Hss|exact Hid|reflexivity|].
  rewrite Hsheet. destruct (sheet_rows_first sheet Hrows) as [rest ->].
  fold first. simpl.
  assert (Hmatch : matches_customer (String_trim "undefined") first = true).
  { unfold matches_customer, field at 2.
    unfold first. rewrite (forEach_header_other _ COLUMN_PHONE 0 _ ∅ Hcolumn).
    rewrite lookup_empty. simpl. rewrite String.eqb_refl. apply orb_true_r. }
  rewrite Hmatch. reflexivity.
Qed.

(** X14.  Which spreadsheet and which sheets the lookup asks for.  It
    calls [openById] first.  With an identifier that converts to a string
    it then calls [getSheetByName] for the customers sheet, and on a miss
    for no other; only once a customer is found does it call
    [getSheetByName] for the rentals sheet and for the material-orders
    sheet, in that order.  It never asks for the container-orders sheet.
    With an identifier that does not convert, the conversion throws once
    the spreadsheet is open, the handler throws that error, and no sheet
    is asked for. *)
Theorem handleGetClientData_reads (payload id : value) (ss : Spreadsheet) (w : World) :
  spreadsheets w SPREADSHEET_ID = Ok ss ->
  Get payload "customerId" = Ok id ->
  (forall idText,
     String_of id = Ok idText ->
     ((forall row, In row (sheet_rows (sheetByName ss SHEET_CUSTOMERS)) ->
                   ~ identifies (String_trim idText) row) ->
      calls_made (handleGetClientData payload) w
      = [ OpenById SPREADSHEET_ID; GetSheetByName SHEET_CUSTOMERS ])
     /\ ((exists row, In row (sheet_rows (sheetByName ss SHEET_CUSTOMERS))
                      /\ identifies (String_trim idText) row) ->
         calls_made (handleGetClientData payload) w
         = [ OpenById SPREADSHEET_ID; GetSheetByName SHEET_CUSTOMERS;
             GetSheetByName SHEET_CONTAINER_RENTALS;
             GetSheetByName SHEET_MATERIAL_ORDERS ]))
  /\ (forall err,
        String_of id = Throw err ->
        fst (handleGetClientData payload w) = Throw err
        /\ calls_made (handleGetClientData payload) w = [ OpenById SPREADSHEET_ID ]).
Proof.
  intros Hss Hid. split.
  - intros idText Htext.
    assert (Hrun : forall found,
              List.find (matches_customer (String_trim idText))
                (sheet_rows (sheetByName ss SHEET_CUSTOMERS)) = found ->
              journal (snd (handleGetClientData payload w))
              = journal w
                ++ match found with
                   | None => [ OpenById SPREADSHEET_ID; GetSheetByName SHEET_CUSTOMERS ]
                   | Some _ =>
                       [ OpenById SPREADSHEET_ID; GetSheetByName SHEET_CUSTOMERS;
                         GetSheetByName SHEET_CONTAINER_RENTALS;
                         GetSheetByName SHEET_MATERIAL_ORDERS ]
                   end).
    { intros found Hfind.
      unfold handleGetClientData, bind, SpreadsheetApp_openById, eval, getSheetByName.
      cbn beta iota. rewrite Hss. cbn beta iota. rewrite Hid, Htext.
      rewrite getSheetData_returns, Hfind.
      destruct found as [user|]; cbn beta iota.
      - rewrite !getSheetData_returns. unfold ret, record_call. simpl.
        rewrite <- !app_assoc. reflexivity.
      - unfold ret, record_call. simpl. rewrite <- !app_assoc. reflexivity. }
    split.
    + intros Hnone. apply calls_made_app. apply (Hrun None).
      destruct (List.find _ _) as [user|] eqn:Hfind; [|reflexivity].
      exfalso. apply find_some in Hfind as [Hin Huser].
      apply (Hnone user Hin), matches_customer_identifies, Huser.
    + intros (row & Hin & Hrow). apply calls_made_app.
      destruct (List.find (matches_customer (String_trim idText))
                  (sheet_rows (sheetByName ss SHEET_CUSTOMERS))) as [user|] eqn:Hfind.
      * apply (Hrun (Some user) eq_refl).
      * exfalso. apply matches_customer_identifies in Hrow.
        rewrite (find_none _ _ Hfind row Hin) in Hrow. discriminate Hrow.
  - intros err Hthrows.
    assert (Hrun : handleGetClientData payload w
                   = (Throw err, record_call (OpenById SPREADSHEET_ID) w)).
    { unfold handleGetClientData, bind, SpreadsheetApp_openById, eval.
      cbn beta iota. rewrite Hss. cbn beta iota. rewrite Hid, Hthrows. reflexivity. }
    split; [rewrite Hrun; reflexivity|].
    apply calls_made_app. rewrite Hrun. reflexivity.
Qed.

Lemma find_after {A : Type} (f : A -> bool) (before after : list A) (x : A) :
  (forall y, In y before -> f y = false) -> f x = true ->
  List.find f (before ++ x :: after) = Some x.
Proof.
  intros Hbefore Hx. induction before as [|y before IH]; simpl.
  - rewrite Hx. reflexivity.
  - rewrite (Hbefore y) by (left; reflexivity).
    apply IH. intros z Hz. apply Hbefore. right. exact Hz.
Qed.

(** X15.  A customer gets the same reply by customer number and by phone,
    as long as no earlier row of the sheet answers to either identifier,
    each identifier being one that converts to a string. *)
Theorem lookup_by_number_and_by_phone_agree (e1 e2 : PostEvent) (d1 d2 : PostData)
    (payload1 payload2 id1 id2 : value) (text1 text2 : string) (ss : Spreadsheet)
    (w : World) (user : record) (before after : list record) :
  postData e1 = Some d1 ->
  JSON_parse (contents d1) = Ok payload1 ->
  Get payload1 "action" = Ok (VStr "getClientData") ->
  Get payload1 "customerId" = Ok id1 ->
  String_of id1 = Ok text1 ->
  postData e2 = Some d2 ->
  JSON_parse (contents d2) = Ok payload2 ->
  Get payload2 "action" = Ok (VStr "getClientData") ->
  Get payload2 "customerId" = Ok id2 ->
  String_of id2 = Ok text2 ->
  spreadsheets w SPREADSHEET_ID = Ok ss ->
  sheet_rows (sheetByName ss SHEET_CUSTOMERS) = before ++ user :: after ->
  (forall row, In row before ->
     ~ identifies (String_trim text1) row
     /\ ~ identifies (String_trim text2) row) ->
  String_trim (ToString (field user COLUMN_CUSTOMER_NUMBER)) = String_trim text1 ->
  String_trim (ToString (field user COLUMN_PHONE)) = String_trim text2 ->
  fst (doPost e1 w) = fst (doPost e2 w).
Proof.
  intros Hdata1 Hparse1 Haction1 Hid1 Htext1 Hdata2 Hparse2 Haction2 Hid2 Htext2
    Hss Hsplit Hbefore Hnumber Hphone.
  assert (Hfind : forall customerId,
            (forall row, In row before -> ~ identifies customerId row) ->
            identifies customerId user ->
            List.find (matches_customer customerId)
              (sheet_rows (sheetByName ss SHEET_CUSTOMERS)) = Some user).
  { intros customerId Hnone Huser. rewrite Hsplit. apply find_after.
    - intros row Hrow.
      destruct (matches_customer customerId row) eqn:Hm; [|reflexivity].
      exfalso. apply (Hnone row Hrow), matches_customer_identifies, Hm.
    - apply matches_customer_identifies, Huser. }
  rewrite (doPost_reaches_switch e1 d1 payload1 _ _ w Hdata1 Hparse1 Haction1 eq_refl).
  rewrite (doPost_reaches_switch e2 d2 payload2 _ _ w Hdata2 Hparse2 Haction2 eq_refl).
  rewrite (try_catch_fst _ _ _ _
             (handleGetClientData_found payload1 id1 text1 ss (after_banner _ payload1 w)
                user Hss Hid1 Htext1
                (Hfind _ (fun row Hrow => proj1 (Hbefore row Hrow)) (or_introl Hnumber)))).
  rewrite (try_catch_fst _ _ _ _
             (handleGetClientData_found payload2 id2 text2 ss (after_banner _ payload2 w)
                user Hss Hid2 Htext2
                (Hfind _ (fun row Hrow => proj2 (Hbefore row Hrow)) (or_intror Hphone)))).
  reflexivity.
Qed.

(** ** The lookup and the feed read the same material orders *)

(** X16.  Every material order the lookup returns for a client, found
    by an identifier that converts to a string, is in the all-orders feed
    of the same world, tagged [orderType: "materials"]. *)
Theorem client_material_orders_are_in_the_feed (payload id : value) (idText : string)
    (ss : Spreadsheet) (w : World) :
  sort_conforms RT ->
  spreadsheets w SPREADSHEET_ID = Ok ss ->
  Get payload "customerId" = Ok id ->
  String_of id = Ok idText ->
  (exists row, In row (sheet_rows (sheetByName ss SHEET_CUSTOMERS))
               /\ identifies (String_trim idText) row) ->
  exists (user : record) (containers materialOrders orders : list record),
    fst (handleGetClientData payload w)
    = Ok (createJsonResponse
            (VObj {[ "status" := VStr "success";
                     "user" := VObj user;
                     "containers" := VArr (map VObj containers);
                     "materialOrders" := VArr (map VObj materialOrders) ]}))
    /\ fst (handleGetAllOrders w)
       = Ok (createJsonResponse
               (VObj {[ "status" := VStr "success";
                        "orders" := VArr (map VObj orders) ]}))
    /\ forall order, In order materialOrders ->
         In (<["orderType" := VStr "materials"]> order) orders.
Proof.
  intros Hsort Hss Hid Htext (row & Hin & Hrow).
  destruct (List.find (matches_customer (String_trim idText))
              (sheet_rows (sheetByName ss SHEET_CUSTOMERS))) as [user|] eqn:Hfind.
  - exists user. eexists. eexists. eexists.
    split; [exact (handleGetClientData_found payload id idText ss w user
                     Hss Hid Htext Hfind)|].
    split; [exact (handleGetAllOrders_returns ss w Hss)|].
    intros order Horder. apply filter_In in Horder as [Horder _].
    destruct (Hsort record newest_first
                (map (tag "materials") (sheet_rows (sheetByName ss SHEET_MATERIAL_ORDERS))
                 ++ map (tag "container")
                      (sheet_rows (sheetByName ss SHEET_CONTAINER_ORDERS))))
      as [Hperm _].
    apply (Permutation_in _ (Permutation_sym Hperm)).
    apply in_or_app. left. apply in_map_iff. exists order. split; [reflexivity|exact Horder].
  - exfalso. apply matches_customer_identifies in Hrow.
    rewrite (find_none _ _ Hfind row Hin) in Hrow. discriminate Hrow.
Qed.

(** ** More on the notification handler *)

Lemma handleSendNotification_refuses (payload : value) (w : World) :
  not_set (scriptProperties w !! "ONE_SIGNAL_APP_ID")
  || not_set (scriptProperties w !! "ONE_SIGNAL_REST_API_KEY") = true ->
  handleSendNotification payload w
  = (Ok (createJsonResponse
           (VObj {[ "status" := VStr "error";
                    "message" :=
                      VStr "OneSignal App ID or API Key not set in Script Properties." ]})),
     with_journal w
       (journal w
        ++ [ LoggerLog ("Attempting to send notification. Received payload: "
                        +:+ JSON_stringify payload);
             GetProperty "ONE_SIGNAL_APP_ID";
             GetProperty "ONE_SIGNAL_REST_API_KEY";
             LoggerLog "ERROR in handleSendNotification: OneSignal App ID or API Key not set in Script Properties." ])).
Proof.
  intros Hnot.
  unfold handleSendNotification, bind, Logger_log, getProperty. cbn beta iota.
  change (scriptProperties (record_call _ w)) with (scriptProperties w).
  change (scriptProperties (record_call _ (record_call _ w))) with (scriptProperties w).
  rewrite Hnot. unfold ret, record_call, with_journal. simpl.
  rewrite <- !app_assoc. reflexivity.
Qed.

(** X17.  A credential stored as the empty string counts as not set: the
    handler answers with the same error envelope as for a missing
    property, and makes no outbound request. *)
Theorem handleSendNotification_empty_credential (payload : value) (w : World) :
  scriptProperties w !! "ONE_SIGNAL_APP_ID" = Some EmptyString
  \/ scriptProperties w !! "ONE_SIGNAL_REST_API_KEY" = Some EmptyString ->
  fst (handleSendNotification payload w)
  = Ok (createJsonResponse
          (VObj {[ "status" := VStr "error";
                   "message" :=
                     VStr "OneSignal App ID or API Key not set in Script Properties." ]}))
  /\ fetches (calls_made (handleSendNotification payload) w) = [].
Proof.
  intros Hempty.
  assert (Hnot : not_set (scriptProperties w !! "ONE_SIGNAL_APP_ID")
                 || not_set (scriptProperties w !! "ONE_SIGNAL_REST_API_KEY") = true).
  { destruct Hempty as [-> | ->]; [reflexivity|apply orb_true_r]. }
  pose proof (handleSendNotification_refuses payload w Hnot) as Hrun.
  split; [rewrite Hrun; reflexivity|].
  rewrite (calls_made_app (handleSendNotification payload) w
             [ LoggerLog ("Attempting to send notification. Received payload: "
                          +:+ JSON_stringify payload);
               GetProperty "ONE_SIGNAL_APP_ID";
               GetProperty "ONE_SIGNAL_REST_API_KEY";
               LoggerLog "ERROR in handleSendNotification: OneSignal App ID or API Key not set in Script Properties." ]);
    [reflexivity|rewrite Hrun; reflexivity].
Qed.

(** X18.  With status 200 the reply is read leniently.  For a request
    whose [clientId] converts to a string, a body that parses to an object
    without [recipients] gives the warning envelope, like a count of zero;
    a body that is the JSON text [null] throws on the read of [recipients]
    and gives the error envelope of the [catch] block. *)
Theorem notification_reply_without_recipients (payload clientId title message : value)
    (externalId appId apiKey body : string) (parsedBody : value) (w : World) :
  scriptProperties w !! "ONE_SIGNAL_APP_ID" = Some appId -> appId <> EmptyString ->
  scriptProperties w !! "ONE_SIGNAL_REST_API_KEY" = Some apiKey -> apiKey <> EmptyString ->
  Get payload "clientId" = Ok clientId ->
  Get payload "title" = Ok title ->
  Get payload "message" = Ok message ->
  String_of clientId = Ok externalId ->
  network w ONE_SIGNAL_URL (options_of apiKey (notification_of appId externalId title message))
  = Ok (mkHTTPResponse 200 body) ->
  JSON_parse body = Ok parsedBody ->
  (forall properties : record,
     parsedBody = VObj properties ->
     properties !! "recipients" = None ->
     fst (handleSendNotification payload w)
     = Ok (createJsonResponse
             (VObj {[ "status" := VStr "warning";
                      "message" :=
                        VStr ("Notification sent, but no recipients found for Client ID: "
                              +:+ externalId
                              +:+ ". Please verify the client has enabled notifications and is correctly identified in OneSignal.") ]})))
  /\ (parsedBody = VNull ->
      exists err : Error,
        error_name err = "TypeError"
        /\ fst (handleSendNotification payload w)
           = Ok (createJsonResponse
                   (VObj {[ "status" := VStr "error";
                            "message" :=
                              VStr ("Failed to send notification due to a script error: "
                                    +:+ Error_toString err) ]}))).
Proof.
  intros Happ Happ' Hkey Hkey' HclientId Htitle Hmessage Hexternal Hnetwork Hbody.
  rewrite (handleSendNotification_sends payload clientId title message externalId
             appId apiKey w
             Happ Happ' Hkey Hkey' HclientId Htitle Hmessage Hexternal).
  rewrite handleSendNotification_reply. cbn zeta.
  change (network (record_call _ (record_call _ (record_call _ w)))) with (network w).
  rewrite Hnetwork. cbn [responseCode contentText]. rewrite Z.eqb_refl, Hbody.
  split.
  - intros properties -> Hnone. simpl. rewrite Hnone. simpl. rewrite Hexternal.
    reflexivity.
  - intros ->. eexists. split; [|reflexivity]. reflexivity.
Qed.

(** X21.  [String(clientId)] is evaluated when the notification is
    built, before the [try] block.  A [sendNotificationToClient] request
    with both credentials set whose [clientId] does not convert to a
    string (an object with an own [toString] key, or an array holding one)
    is therefore not answered by the handler: it logs its first line and
    reads the two properties, the conversion throws, nothing is sent, and
    the router's [catch] block answers with "Invalid request or server
    error: " and the TypeError. *)
Theorem notification_with_unconvertible_clientId (e : PostEvent) (d : PostData)
    (payload clientId title message : value) (appId apiKey : string) (err : Error)
    (w : World) :
  postData e = Some d ->
  JSON_parse (contents d) = Ok payload ->
  Get payload "action" = Ok (VStr "sendNotificationToClient") ->
  Get payload "clientId" = Ok clientId ->
  Get payload "title" = Ok title ->
  Get payload "message" = Ok message ->
  String_of clientId = Throw err ->
  scriptProperties w !! "ONE_SIGNAL_APP_ID" = Some appId -> appId <> EmptyString ->
  scriptProperties w !! "ONE_SIGNAL_REST_API_KEY" = Some apiKey -> apiKey <> EmptyString ->
  error_name err = "TypeError"
  /\ doPost e w
     = (Ok (createJsonResponse
              (VObj {[ "status" := VStr "error";
                       "message" := VStr ("Invalid request or server error: "
                                          +:+ Error_toString err) ]})),
        with_journal w
          (journal w
           ++ [ LoggerLog ("API " +:+ SCRIPT_VERSION +:+ " Running...");
                LoggerLog ("Received action: sendNotificationToClient with payload: "
                           +:+ JSON_stringify payload);
                LoggerLog ("Attempting to send notification. Received payload: "
                           +:+ JSON_stringify payload);
                GetProperty "ONE_SIGNAL_APP_ID";
                GetProperty "ONE_SIGNAL_REST_API_KEY";
                LoggerLog ("Critical Error in doPost: " +:+ Error_toString err) ]))
  /\ fetches (calls_made (doPost e) w) = [].
Proof.
  intros Hdata Hparse Haction HclientId Htitle Hmessage Hthrows Happ Happ' Hkey Hkey'.
  assert (Hrun : doPost e w
    = (Ok (createJsonResponse
             (VObj {[ "status" := VStr "error";
                      "message" := VStr ("Invalid request or server error: "
                                         +:+ Error_toString err) ]})),
       with_journal w
         (journal w
          ++ [ LoggerLog ("API " +:+ SCRIPT_VERSION +:+ " Running...");
               LoggerLog ("Received action: sendNotificationToClient with payload: "
                          +:+ JSON_stringify payload);
               LoggerLog ("Attempting to send notification. Received payload: "
                          +:+ JSON_stringify payload);
               GetProperty "ONE_SIGNAL_APP_ID";
               GetProperty "ONE_SIGNAL_REST_API_KEY";
               LoggerLog ("Critical Error in doPost: " +:+ Error_toString err) ]))).
  { rewrite (doPost_reaches_switch e d payload _ _ w Hdata Hparse Haction eq_refl).
    change (doPost_switch (VStr "sendNotificationToClient") payload)
      with (handleSendNotification payload).
    unfold try_catch.
    rewrite (handleSendNotification_throws payload clientId title message appId apiKey err
               (after_banner "sendNotificationToClient" payload w)
               Happ Happ' Hkey Hkey' HclientId Htitle Hmessage Hthrows).
    unfold doPost_catch, bind, Logger_log, ret, after_banner, record_call, with_journal.
    simpl. rewrite <- !app_assoc. reflexivity. }
  split; [destruct (String_of_throws _ _ Hthrows) as [_ ->]; reflexivity|].
  split; [exact Hrun|].
  erewrite calls_made_app; [|rewrite Hrun; reflexivity]. reflexivity.
Qed.

(** ** The credential check of the editor *)

Lemma not_set_false (property : option string) :
  not_set property = false -> exists s, property = Some s /\ s <> EmptyString.
Proof.
  destruct property as [s|]; simpl; [|discriminate].
  intros Hs. exists s. split; [reflexivity|]. apply String.eqb_neq, Hs.
Qed.

(** X19.  [testScriptProperties] only reads the two properties and logs
    four lines.  It logs an ERROR line exactly when [handleSendNotification]
    would refuse to send: for a payload whose fields can be read and whose
    [clientId] converts to a string, the handler makes an outbound request
    if and only if the check reports both credentials found. *)
Theorem testScriptProperties_predicts_the_handler (payload clientId title message : value)
    (externalId : string) (w : World) :
  Get payload "clientId" = Ok clientId ->
  Get payload "title" = Ok title ->
  Get payload "message" = Ok message ->
  String_of clientId = Ok externalId ->
  fst (testScriptProperties w) = Ok tt
  /\ (exists line1 line2,
        calls_made testScriptProperties w
        = [ GetProperty "ONE_SIGNAL_APP_ID"; GetProperty "ONE_SIGNAL_REST_API_KEY";
            LoggerLog "--- Verifying Script Properties ---";
            LoggerLog line1; LoggerLog line2;
            LoggerLog "---------------------------------" ])
  /\ (In (LoggerLog "ERROR: ONE_SIGNAL_APP_ID is not found or is null.")
         (calls_made testScriptProperties w)
      \/ In (LoggerLog "ERROR: ONE_SIGNAL_REST_API_KEY is not found or is null.")
           (calls_made testScriptProperties w)
      <-> fetches (calls_made (handleSendNotification payload) w) = []).
Proof.
  intros HclientId Htitle Hmessage Hexternal.
  assert (Hreport :
    testScriptProperties w
    = (Ok tt,
       with_journal w
         (journal w
          ++ [ GetProperty "ONE_SIGNAL_APP_ID"; GetProperty "ONE_SIGNAL_REST_API_KEY";
               LoggerLog "--- Verifying Script Properties ---";
               LoggerLog
                 (if negb (not_set (scriptProperties w !! "ONE_SIGNAL_APP_ID"))
                  then "SUCCESS: Found ONE_SIGNAL_APP_ID: "
                       +:+ default EmptyString (scriptProperties w !! "ONE_SIGNAL_APP_ID")
                  else "ERROR: ONE_SIGNAL_APP_ID is not found or is null.");
               LoggerLog
                 (if negb (not_set (scriptProperties w !! "ONE_SIGNAL_REST_API_KEY"))
                  then "SUCCESS: Found ONE_SIGNAL_REST_API_KEY: "
                       +:+ default EmptyString
                             (scriptProperties w !! "ONE_SIGNAL_REST_API_KEY")
                  else "ERROR: ONE_SIGNAL_REST_API_KEY is not found or is null.");
               LoggerLog "---------------------------------" ]))).
  { unfold testScriptProperties, bind, getProperty, Logger_log. cbn beta iota.
    change (scriptProperties (record_call _ w)) with (scriptProperties w).
    destruct (not_set (scriptProperties w !! "ONE_SIGNAL_APP_ID"));
      destruct (not_set (scriptProperties w !! "ONE_SIGNAL_REST_API_KEY"));
      unfold record_call, with_journal; simpl; rewrite <- !app_assoc; reflexivity. }
  pose proof (calls_made_app testScriptProperties w _
                (f_equal (fun r => journal (snd r)) Hreport)) as Hcalls.
  split; [rewrite Hreport; reflexivity|].
  split; [rewrite Hcalls; eexists _, _; reflexivity|].
  rewrite Hcalls. clear Hcalls Hreport.
  destruct (not_set (scriptProperties w !! "ONE_SIGNAL_APP_ID")) eqn:Happ;
    destruct (not_set (scriptProperties w !! "ONE_SIGNAL_REST_API_KEY")) eqn:Hkey;
    cbn [negb].
  4: {
    destruct (not_set_false _ Happ) as (appId & HappId & Happ').
    destruct (not_set_false _ Hkey) as (apiKey & HapiKey & Hkey').
    split.
    - simpl. intros [H|H]; repeat destruct H as [H|H]; try discriminate H; destruct H.
    - intros Hquiet. exfalso.
      destruct (emits_handleSendNotification payload w) as (calls & Hrun & _).
      rewrite (calls_made_app _ _ _ Hrun) in Hquiet.
      pose proof (f_equal fetches Hrun) as Hfetches.
      rewrite (handleSendNotification_sends payload clientId title message externalId
                 appId apiKey w
                 HappId Happ' HapiKey Hkey' HclientId Htitle Hmessage Hexternal)
        in Hfetches.
      rewrite handleSendNotification_one_request in Hfetches.
      cbn [journal record_call] in Hfetches.
      rewrite !fetches_app, Hquiet in Hfetches. simpl in Hfetches.
      rewrite !app_nil_r in Hfetches.
      apply (f_equal (@length _)) in Hfetches. rewrite length_app in Hfetches.
      simpl in Hfetches. lia. }
  all: split;
    [ intros _;
      rewrite (calls_made_app (handleSendNotification payload) w
                 [ LoggerLog ("Attempting to send notification. Received payload: "
                              +:+ JSON_stringify payload);
                   GetProperty "ONE_SIGNAL_APP_ID";
                   GetProperty "ONE_SIGNAL_REST_API_KEY";
                   LoggerLog "ERROR in handleSendNotification: OneSignal App ID or API Key not set in Script Properties." ]);
      [ reflexivity
      | rewrite handleSendNotification_refuses by (rewrite Happ, Hkey; reflexivity);
        reflexivity ]
    | intros _; simpl; auto 10 ].
Qed.

End Further.

(** * The further properties on the fixtures *)

Section EdgeFixtures.

#[local] Existing Instance edge_runtime.

Lemma only_notifications_reach_the_network_witness :
  fetches (journal (snd (doPost (post all_orders_request) shop_world))) = [].
Proof.
  apply (proj2 (only_notifications_reach_the_network (post all_orders_request) shop_world
                  ltac:(intros d payload [= <-] Hparse; vm_compute in Hparse;
                        injection Hparse as <-; vm_compute; discriminate))).
Defined.

Lemma only_queries_touch_the_spreadsheet_witness :
  Forall no_sheet_access (calls_made (doPost (post notify_request)) shop_world).
Proof.
  apply (only_queries_touch_the_spreadsheet (post notify_request) shop_world).
  intros d payload name [= <-] Hparse Hname. vm_compute in Hparse.
  injection Hparse as <-.
  destruct Hname as [<-|[<-|[<-|[]]]]; vm_compute; discriminate.
Defined.

Lemma doPost_without_a_body_object_witness :
  exists err : Error,
    error_name err = "TypeError"
    /\ fst (doPost (post_text "null") shop_world)
       = Ok (createJsonResponse
               (VObj {[ "status" := VStr "error";
                        "message" := VStr ("Invalid request or server error: "
                                           +:+ Error_toString err) ]})).
Proof.
  unshelve epose proof
    (doPost_without_a_body_object (post_text "null") shop_world _) as Hcaught;
    [right; exists (mkPostData "null"); split; reflexivity|].
  destruct Hcaught as (err & Hname & Hrun).
  exists err. split; [exact Hname|]. rewrite Hrun. reflexivity.
Defined.

Lemma dashboard_actions_are_aliases_witness :
  fst (doPost (post all_orders_request) shop_world)
  = fst (doPost (post dashboard_request) shop_world).
Proof.
  apply (dashboard_actions_are_aliases (post all_orders_request) (post dashboard_request)
           (mkPostData (json_object all_orders_request))
           (mkPostData (json_object dashboard_request))
           (object_of all_orders_request) (object_of dashboard_request) shop_world);
    reflexivity.
Defined.

Lemma getSheetData_rows_share_their_keys_witness :
  dom (nth 0 (sheet_rows (Some material_orders_sheet)) ∅)
  = dom (nth 1 (sheet_rows (Some material_orders_sheet)) ∅).
Proof.
  apply (getSheetData_rows_share_their_keys (Some material_orders_sheet)
           (sheet_rows (Some material_orders_sheet)));
    [apply getSheetData_returns|left; reflexivity|right; left; reflexivity].
Defined.

Lemma getSheetData_fields_are_primitive_witness :
  primitive (VStr "2024-01-01T00:00:00.000Z" : value (option Z)).
Proof.
  apply (getSheetData_fields_are_primitive (Some material_orders_sheet)
           (sheet_rows (Some material_orders_sheet))
           (nth 0 (sheet_rows (Some material_orders_sheet)) ∅)
           COLUMN_RECEIVED_DATE);
    [apply getSheetData_returns|left; reflexivity|vm_compute; reflexivity].
Defined.

Lemma row_fields_convert_witness :
  String_of (field (nth 0 (sheet_rows (Some material_orders_sheet)) ∅)
               COLUMN_CUSTOMER_NUMBER) = Ok "123"
  /\ String_of (field (nth 0 (sheet_rows (Some material_orders_sheet)) ∅) "phone")
     = Ok "undefined".
Proof.
  split.
  - rewrite (proj1 (row_fields_convert (Some material_orders_sheet)
                      (sheet_rows (Some material_orders_sheet))
                      (nth 0 (sheet_rows (Some material_orders_sheet)) ∅)
                      COLUMN_CUSTOMER_NUMBER
                      (getSheetData_returns _) (or_introl eq_refl))).
    reflexivity.
  - rewrite (proj1 (row_fields_convert (Some material_orders_sheet)
                      (sheet_rows (Some material_orders_sheet))
                      (nth 0 (sheet_rows (Some material_orders_sheet)) ∅)
                      "phone"
                      (getSheetData_returns _) (or_introl eq_refl))).
    reflexivity.
Defined.

Lemma getClientData_depends_on_the_trimmed_id_witness :
  fst (doPost (post_text numeric_id_text) shop_world)
  = fst (doPost (post padded_id_request) shop_world).
Proof.
  apply (getClientData_depends_on_the_trimmed_id
           (post_text numeric_id_text) (post padded_id_request)
           (mkPostData numeric_id_text) (mkPostData (json_object padded_id_request))
           numeric_id (object_of padded_id_request)
           (VNum (Some 123%Z)) (VStr " 123 ") "123" " 123 " shop_world);
    reflexivity.
Defined.

Lemma getClientData_without_id_finds_the_first_customer_witness :
  fst (doPost (post no_id_request) no_phone_world)
  = Ok (createJsonResponse
          (VObj {[ "status" := VStr "success";
                   "user" := VObj {[ COLUMN_CUSTOMER_NUMBER := VNum (Some 123%Z);
                                     "name" := VStr "Dana" ]};
                   "containers" := VArr [];
                   "materialOrders" := VArr [] ]})).
Proof.
  rewrite (getClientData_without_id_finds_the_first_customer (post no_id_request)
             (mkPostData (json_object no_id_request)) (object_of no_id_request)
             (spreadsheet_of [ (SHEET_CUSTOMERS, customers_without_phone_sheet) ])
             customers_without_phone_sheet no_phone_world);
    [vm_compute; reflexivity|reflexivity|reflexivity|reflexivity|reflexivity|reflexivity
    |reflexivity|vm_compute; repeat constructor|].
  intros header [<-|[<-|[]]]; vm_compute; discriminate.
Defined.

Lemma handleGetClientData_reads_witness :
  calls_made (handleGetClientData (object_of unknown_client_request)) shop_world
  = [ OpenById SPREADSHEET_ID; GetSheetByName SHEET_CUSTOMERS ]
  /\ calls_made (handleGetClientData unconvertible_id) shop_world
     = [ OpenById SPREADSHEET_ID ].
Proof.
  split.
  - apply (proj1 (proj1 (handleGetClientData_reads (object_of unknown_client_request)
                           (VStr "999") shop_spreadsheet shop_world eq_refl eq_refl)
                    "999" eq_refl)).
    intros row [<-|[<-|[]]] [Hnumber|Hphone]; vm_compute in *; discriminate.
  - apply (proj2 (handleGetClientData_reads unconvertible_id unconvertible
                    shop_spreadsheet shop_world eq_refl eq_refl)
             (mkError "TypeError" "Cannot convert object to primitive value") eq_refl).
Defined.

Lemma lookup_by_number_and_by_phone_agree_witness :
  fst (doPost (post_text numeric_id_text) shop_world)
  = fst (doPost (post client_by_phone_request) shop_world).
Proof.
  apply (lookup_by_number_and_by_phone_agree
           (post_text numeric_id_text) (post client_by_phone_request)
           (mkPostData numeric_id_text) (mkPostData (json_object client_by_phone_request))
           numeric_id (object_of client_by_phone_request)
           (VNum (Some 123%Z)) (VStr "050-1234567") "123" "050-1234567"
           shop_spreadsheet shop_world
           (nth 0 (sheet_rows (Some customers_sheet)) ∅) []
           [nth 1 (sheet_rows (Some customers_sheet)) ∅]);
    try reflexivity.
  intros row [].
Defined.

Lemma client_material_orders_are_in_the_feed_witness :
  exists user containers materialOrders orders,
    fst (handleGetClientData numeric_id shop_world)
    = Ok (createJsonResponse
            (VObj {[ "status" := VStr "success";
                     "user" := VObj user;
                     "containers" := VArr (map VObj containers);
                     "materialOrders" := VArr (map VObj materialOrders) ]}))
    /\ fst (handleGetAllOrders shop_world)
       = Ok (createJsonResponse
               (VObj {[ "status" := VStr "success";
                        "orders" := VArr (map VObj orders) ]}))
    /\ forall order, In order materialOrders ->
         In (<["orderType" := VStr "materials"]> order) orders.
Proof.
  apply (client_material_orders_are_in_the_feed numeric_id (VNum (Some 123%Z)) "123"
           shop_spreadsheet shop_world (TestRuntime_sort_conforms edge_fixture)
           eq_refl eq_refl eq_refl).
  exists (nth 0 (sheet_rows (Some customers_sheet)) ∅).
  split; [left; reflexivity|left; reflexivity].
Defined.

Lemma handleSendNotification_empty_credential_witness :
  fetches (calls_made (handleSendNotification (object_of notify_request))
             empty_key_world) = [].
Proof.
  apply (proj2 (handleSendNotification_empty_credential (object_of notify_request)
                  empty_key_world (or_intror eq_refl))).
Defined.

Lemma notification_reply_without_recipients_witness :
  fst (handleSendNotification (object_of notify_request) unsubscribed_world)
  = Ok (createJsonResponse
          (VObj {[ "status" := VStr "warning";
                   "message" :=
                     VStr "Notification sent, but no recipients found for Client ID: 123. Please verify the client has enabled notifications and is correctly identified in OneSignal." ]})).
Proof.
  unshelve epose proof
    (notification_reply_without_recipients (object_of notify_request)
       (VStr "123") (VStr "Order") (VStr "On its way") "123" "app-1" "key-1"
       errors_reply_text errors_reply unsubscribed_world _ _ _ _ _ _ _ _ _ _) as Hreply;
    [reflexivity|discriminate|reflexivity|discriminate|reflexivity|reflexivity
    |reflexivity|reflexivity|reflexivity|reflexivity|].
  apply (proj1 Hreply {[ "errors" := VArr [VStr "All included players are not subscribed"] ]});
    reflexivity.
Defined.

Lemma testScriptProperties_predicts_the_handler_witness :
  In (LoggerLog "ERROR: ONE_SIGNAL_REST_API_KEY is not found or is null.")
    (calls_made testScriptProperties empty_key_world)
  /\ fetches (calls_made (handleSendNotification (object_of notify_request))
                empty_key_world) = [].
Proof.
  pose proof (testScriptProperties_predicts_the_handler (object_of notify_request)
                (VStr "123") (VStr "Order") (VStr "On its way") "123" empty_key_world
                eq_refl eq_refl eq_refl eq_refl) as (_ & _ & Hiff).
  assert (Hline : In (LoggerLog "ERROR: ONE_SIGNAL_REST_API_KEY is not found or is null.")
                    (calls_made testScriptProperties empty_key_world)).
  { vm_compute. auto 10. }
  split; [exact Hline|]. apply Hiff. right. exact Hline.
Defined.

End EdgeFixtures.

(** * The script on values that do not convert *)

Section ConversionFixtures.

#[local] Existing Instance conversion_runtime.

(** C6, as stated, fails: both credentials are set, and no POST is made.
    The [clientId] of the request is [{"toString":1}]; [String(clientId)]
    throws while the notification is built, and the reply is the error
    envelope of the router's [catch] block. *)
Lemma sendNotification_outcomes_counterexample :
  scriptProperties shop_world !! "ONE_SIGNAL_APP_ID" = Some "app-1"
  /\ scriptProperties shop_world !! "ONE_SIGNAL_REST_API_KEY" = Some "key-1"
  /\ JSON_parse unconvertible_client_text = Ok unconvertible_client
  /\ Get unconvertible_client "action" = Ok (VStr "sendNotificationToClient")
  /\ fetches (journal (snd (doPost (post_text unconvertible_client_text) shop_world))) = []
  /\ fst (doPost (post_text unconvertible_client_text) shop_world)
     = Ok (createJsonResponse
             (VObj {[ "status" := VStr "error";
                      "message" :=
                        VStr "Invalid request or server error: TypeError: Cannot convert object to primitive value" ]})).
Proof.
  repeat split; vm_compute; reflexivity.
Qed.

Lemma sendNotification_outcomes_witness :
  fst (doPost (post notify_request) shop_world)
  = Ok (createJsonResponse
          (VObj {[ "status" := VStr "success";
                   "message" := VStr "Notification sent successfully to 3 recipient(s)." ]}))
  /\ fst (doPost (post notify_request) odd_provider_world)
     = Ok (createJsonResponse
             (VObj {[ "status" := VStr "error";
                      "message" :=
                        VStr "Failed to send notification due to a script error: TypeError: Cannot convert object to primitive value" ]})).
Proof.
  split.
  - unshelve epose proof
      (sendNotification_outcomes (post notify_request)
         (mkPostData (json_object notify_request)) (object_of notify_request)
         (VStr "123") (VStr "Order") (VStr "On its way") "123" "app-1" "key-1" shop_world
         _ _ _ _ _ _ _ _ _ _ _) as Houtcomes;
      [reflexivity|reflexivity|reflexivity|reflexivity|reflexivity|reflexivity
      |reflexivity|reflexivity|discriminate|reflexivity|discriminate|].
    destruct Houtcomes as (_ & Hsuccess & _).
    apply (Hsuccess provider_reply_text provider_reply (VNum (Some 3%Z))); reflexivity.
  - unshelve epose proof
      (sendNotification_outcomes (post notify_request)
         (mkPostData (json_object notify_request)) (object_of notify_request)
         (VStr "123") (VStr "Order") (VStr "On its way") "123" "app-1" "key-1"
         odd_provider_world _ _ _ _ _ _ _ _ _ _ _) as Houtcomes;
      [reflexivity|reflexivity|reflexivity|reflexivity|reflexivity|reflexivity
      |reflexivity|reflexivity|discriminate|reflexivity|discriminate|].
    destruct Houtcomes as (_ & _ & _ & _ & _ & _ & _ & _ & Hthrows).
    apply (Hthrows unconvertible_recipients_text unconvertible_recipients unconvertible
             (mkError "TypeError" "Cannot convert object to primitive value"));
      reflexivity.
Defined.

Lemma doPost_action_not_a_string_witness :
  fst (doPost (post_text array_action_text) shop_world)
  = Ok (createJsonResponse
          (VObj {[ "status" := VStr "error";
                   "message" := VStr "Unknown action: getAllOrders" ]}))
  /\ fst (doPost (post_text unconvertible_action_text) shop_world)
     = Ok (createJsonResponse
             (VObj {[ "status" := VStr "error";
                      "message" :=
                        VStr "Invalid request or server error: TypeError: Cannot convert object to primitive value" ]})).
Proof.
  split.
  - unshelve epose proof
      (doPost_action_not_a_string (post_text array_action_text)
         (mkPostData array_action_text) array_action (VArr [VStr "getAllOrders"])
         shop_world _ _ _ _) as Hunknown;
      [reflexivity|reflexivity|reflexivity|intros s; discriminate|].
    rewrite (proj1 Hunknown "getAllOrders" eq_refl). reflexivity.
  - unshelve epose proof
      (doPost_action_not_a_string (post_text unconvertible_action_text)
         (mkPostData unconvertible_action_text) unconvertible_action unconvertible
         shop_world _ _ _ _) as Hcaught;
      [reflexivity|reflexivity|reflexivity|intros s; discriminate|].
    rewrite (proj2 Hcaught (mkError "TypeError" "Cannot convert object to primitive value")
               eq_refl).
    reflexivity.
Defined.

Lemma notification_with_unconvertible_clientId_witness :
  fetches (calls_made (doPost (post_text unconvertible_client_text)) shop_world) = []
  /\ fst (doPost (post_text unconvertible_client_text) shop_world)
     = Ok (createJsonResponse
             (VObj {[ "status" := VStr "error";
                      "message" :=
                        VStr "Invalid request or server error: TypeError: Cannot convert object to primitive value" ]})).
Proof.
  unshelve epose proof
    (notification_with_unconvertible_clientId (post_text unconvertible_client_text)
       (mkPostData unconvertible_client_text) unconvertible_client
       unconvertible (VStr "Order") (VStr "On its way") "app-1" "key-1"
       (mkError "TypeError" "Cannot convert object to primitive value") shop_world
       _ _ _ _ _ _ _ _ _ _ _) as Hcaught;
    [reflexivity|reflexivity|reflexivity|reflexivity|reflexivity|reflexivity
    |reflexivity|reflexivity|discriminate|reflexivity|discriminate|].
  destruct Hcaught as (_ & Hrun & Hquiet).
  split; [exact Hquiet|]. rewrite Hrun. reflexivity.
Defined.

End ConversionFixtures.
